(** * pyaxiom: padded-grid profiles, metadata aggregation and the sensor URN codec

    A shallow embedding of
      - [pyaxiom/utils.py]: [unique_justseen], [generic_masked],
        [fix_int_dtypes], [dict_update], [dictify_urn], [urnify_from_dict];
      - [pyaxiom/netcdf/sensors/dsg/profile/im.py]:
        [IncompleteMultidimensionalProfile];
      - [pyaxiom/netcdf/sensors/dsg/timeseries/im.py]:
        [IncompleteMultidimensionalTimeseries];
    followed by the properties established about them.

    Python text is modelled by [string] (8-bit characters; identifiers are
    ASCII), Python exceptions by the [result] type, numpy [float64] by the
    primitive binary64 floats of the standard library.  The functions of
    numpy, netCDF4 and pygc that the flattener calls are the parameters of
    the class [External], and the order in which Python lists a set is the
    parameter of the class [SetOrder]. *)

From Stdlib Require Import String Ascii List Bool Arith ZArith Lia.
From Stdlib Require Import Floats.
Import ListNotations.
Open Scope string_scope.

(* ================================================================= *)
(** * Exceptions *)

Inductive exn : Type :=
| AssertionError
| AttributeError
| IndexError
| KeyError
| TypeError
| ValueError (msg : string).

Inductive result (A : Type) : Type :=
| Ok (a : A)
| Raise (e : exn).

Arguments Ok {A} a.
Arguments Raise {A} e.

Definition bind {A B : Type} (r : result A) (k : A -> result B) : result B :=
  match r with
  | Ok a => k a
  | Raise e => Raise e
  end.

Notation "x <- r ;; k" := (bind r (fun x => k))
  (at level 61, r at next level, right associativity).
Notation "' p <- r ;; k" := (bind r (fun x => let p := x in k))
  (at level 61, p pattern, r at next level, right associativity).

(** [assert b] *)
Definition assert (b : bool) : result unit :=
  if b then Ok tt else Raise AssertionError.

(** [l[i]] on a Python list *)
Definition getitem {A : Type} (l : list A) (i : nat) : result A :=
  match nth_error l i with
  | Some a => Ok a
  | None => Raise IndexError
  end.

(* ================================================================= *)
(** * Python [str] operations *)

Module Str.

(** [s.startswith(p)] *)
Fixpoint startswith (p s : string) : bool :=
  match p, s with
  | EmptyString, _ => true
  | String _ _, EmptyString => false
  | String a p', String b s' => Ascii.eqb a b && startswith p' s'
  end.

(** [needle in s] *)
Fixpoint contains (needle s : string) : bool :=
  startswith needle s ||
  match s with
  | EmptyString => false
  | String _ s' => contains needle s'
  end.

(** occurrence of one character *)
Fixpoint has (c : ascii) (s : string) : bool :=
  match s with
  | EmptyString => false
  | String a s' => Ascii.eqb a c || has c s'
  end.

(** [s.split(sep)] for a one-character separator, the only kind the
    sources use. *)
Fixpoint split (sep : ascii) (s : string) : list string :=
  match s with
  | EmptyString => [EmptyString]
  | String c s' =>
      if Ascii.eqb c sep then EmptyString :: split sep s'
      else match split sep s' with
           | [] => [String c EmptyString]
           | w :: ws => String c w :: ws
           end
  end.

(** [sep.join(l)] *)
Definition join (sep : string) (l : list string) : string :=
  String.concat sep l.

(** [s.replace(old, new)]: non-overlapping occurrences, left to right.
    [skip] counts the characters of a matched occurrence still to drop. *)
Fixpoint replace_from (old new : string) (skip : nat) (s : string) : string :=
  match s with
  | EmptyString => EmptyString
  | String c s' =>
      match skip with
      | S k => replace_from old new k s'
      | O =>
          if startswith old s
          then new ++ replace_from old new (String.length old - 1) s'
          else String c (replace_from old new 0 s')
      end
  end.

(** with an empty [old], Python puts [new] around every character *)
Fixpoint intersperse (new s : string) : string :=
  match s with
  | EmptyString => new
  | String c s' => new ++ String c (intersperse new s')
  end.

Definition replace (old new s : string) : string :=
  match old with
  | EmptyString => intersperse new s
  | _ => replace_from old new 0 s
  end.

(** ASCII white space, as [str.isspace] *)
Definition is_space (c : ascii) : bool :=
  let n := nat_of_ascii c in
  ((9 <=? n)%nat && (n <=? 13)%nat) || ((28 <=? n)%nat && (n <=? 32)%nat).

Fixpoint lstrip (s : string) : string :=
  match s with
  | EmptyString => EmptyString
  | String c s' => if is_space c then lstrip s' else s
  end.

Fixpoint rstrip (s : string) : string :=
  match s with
  | EmptyString => EmptyString
  | String c s' =>
      match rstrip s' with
      | EmptyString => if is_space c then EmptyString else String c EmptyString
      | r => String c r
      end
  end.

(** [s.strip()] *)
Definition strip (s : string) : string := rstrip (lstrip s).

Definition is_lower (c : ascii) : bool :=
  let n := nat_of_ascii c in (97 <=? n)%nat && (n <=? 122)%nat.

Definition is_upper (c : ascii) : bool :=
  let n := nat_of_ascii c in (65 <=? n)%nat && (n <=? 90)%nat.

Definition upper_char (c : ascii) : ascii :=
  if is_lower c then ascii_of_nat (nat_of_ascii c - 32) else c.

Definition lower_char (c : ascii) : ascii :=
  if is_upper c then ascii_of_nat (nat_of_ascii c + 32) else c.

Fixpoint map (f : ascii -> ascii) (s : string) : string :=
  match s with
  | EmptyString => EmptyString
  | String c s' => String (f c) (map f s')
  end.

(** [s.upper()], [s.lower()] *)
Definition upper : string -> string := map upper_char.
Definition lower : string -> string := map lower_char.

(** [a < b] on [str]: lexicographic on code points *)
Definition ltb (a b : string) : bool :=
  match String.compare a b with
  | Lt => true
  | _ => false
  end.

(** [s[i:j]] for [0 <= i <= j] *)
Definition slice (i j : nat) (s : string) : string :=
  String.substring i (j - i) s.

(** character test along a whole string *)
Fixpoint all (p : ascii -> bool) (s : string) : bool :=
  match s with
  | EmptyString => true
  | String c s' => p c && all p s'
  end.

End Str.

(* ================================================================= *)
(** * Python [dict] with [str] keys and values, in insertion order *)

Definition dict : Type := list (string * string).

Fixpoint dict_get (k : string) (d : dict) : option string :=
  match d with
  | [] => None
  | (k', v) :: d' => if String.eqb k' k then Some v else dict_get k d'
  end.

(** [d[k] = v] *)
Fixpoint dict_set (k v : string) (d : dict) : dict :=
  match d with
  | [] => [(k, v)]
  | (k', v') :: d' =>
      if String.eqb k' k then (k', v) :: d' else (k', v') :: dict_set k v d'
  end.

Definition dict_mem (k : string) (d : dict) : bool :=
  match dict_get k d with
  | Some _ => true
  | None => false
  end.

(* ================================================================= *)
(** * Python built-ins on lists *)

(** [l.append(x)] *)
Definition append {A : Type} (l : list A) (x : A) : list A := (l ++ [x])%list.

(** [sorted(l)]: a stable sort, here by insertion; [ltb] is [<]. *)
Fixpoint insert_sorted {A : Type} (ltb : A -> A -> bool) (x : A) (l : list A)
  : list A :=
  match l with
  | [] => [x]
  | y :: l' => if ltb y x then y :: insert_sorted ltb x l' else x :: y :: l'
  end.

Definition sorted {A : Type} (ltb : A -> A -> bool) (l : list A) : list A :=
  fold_right (insert_sorted ltb) [] l.

(** [itertools.groupby(l, key)]: runs of consecutive elements whose key
    equals the key that opened the run.  [groupby_from tgt l] gives the
    rest of the run opened with key [tgt], then the later runs. *)
Fixpoint groupby_from {A K : Type} (key : A -> K) (eqb : K -> K -> bool)
  (tgt : K) (l : list A) : list A * list (K * list A) :=
  match l with
  | [] => ([], [])
  | x :: l' =>
      if eqb tgt (key x)
      then let '(g, gs) := groupby_from key eqb tgt l' in (x :: g, gs)
      else let '(g, gs) := groupby_from key eqb (key x) l' in
           ([], (key x, x :: g) :: gs)
  end.

Definition groupby {A K : Type} (key : A -> K) (eqb : K -> K -> bool)
  (l : list A) : list (K * list A) :=
  match l with
  | [] => []
  | x :: l' =>
      let '(g, gs) := groupby_from key eqb (key x) l' in (key x, x :: g) :: gs
  end.

(** [list(set(l))] on strings: the strings of [l], each once.  Python
    leaves their order open (it follows the hashes of the strings), so the
    function is a parameter. *)
Class SetOrder : Type := {
  list_set : list string -> list string
}.

(* ================================================================= *)
(** * numpy masked arrays and pandas frames *)

(** A masked [float64] array, flattened in C order: the data and the mask. *)
Definition masked_array : Type := list (float * bool).

(** the [fill_value] of a masked [float64] array that is given none *)
Definition default_fill_value : float := 1e20%float.

(** [np.ma.fix_invalid(a)]: non-finite data are masked and replaced by the
    fill value *)
Definition fix_invalid (fill_value : float) (a : masked_array) : masked_array :=
  List.map (fun c : float * bool =>
              if is_finite (fst c) then c else (fill_value, true)) a.

(** [a.repeat(n)] *)
Definition repeat_each {A : Type} (n : nat) (a : list A) : list A :=
  flat_map (fun c => List.repeat c n) a.

(** [np.cumsum(a)] *)
Fixpoint cumsum_from (acc : float) (a : list float) : list float :=
  match a with
  | [] => []
  | v :: a' => let s := (acc + v)%float in s :: cumsum_from s a'
  end.

Definition cumsum (a : list float) : list float :=
  match a with
  | [] => []
  | v :: a' => v :: cumsum_from v a'
  end.

(** [m1 & m2] on boolean arrays, with numpy's broadcasting of a length-one
    operand *)
Definition mask_and (m1 m2 : list bool) : result (list bool) :=
  if Nat.eqb (List.length m1) (List.length m2)
  then Ok (List.map (fun p : bool * bool => fst p && snd p) (combine m1 m2))
  else match m1, m2 with
       | _, [b] => Ok (List.map (fun a => a && b) m1)
       | [a], _ => Ok (List.map (fun b => a && b) m2)
       | _, _ => Raise (ValueError "operands could not be broadcast together")
       end.

(** A cell of a frame: missing ([NaN], [NaT]), or a value. *)
Inductive cell : Type :=
| NA
| Int (z : Z)
| Float (f : float)
| Time (t : Z).

Definition isna (c : cell) : bool :=
  match c with
  | NA => true
  | _ => false
  end.

(** a masked array as a column: masked cells and [NaN] are missing *)
Definition float_column (a : masked_array) : list cell :=
  List.map (fun c : float * bool => if snd c then NA
                     else if is_nan (fst c) then NA else Float (fst c)) a.

(** [==] on cells as Python sees them: IEEE on floats, and a missing value
    equals nothing *)
Definition cell_eqb (a b : cell) : bool :=
  match a, b with
  | Int x, Int y => Z.eqb x y
  | Float x, Float y => PrimFloat.eqb x y
  | Time x, Time y => Z.eqb x y
  | _, _ => false
  end.

(** [<] on cells of one kind *)
Definition cell_ltb (a b : cell) : bool :=
  match a, b with
  | Int x, Int y => Z.ltb x y
  | Float x, Float y => PrimFloat.ltb x y
  | Time x, Time y => Z.ltb x y
  | _, _ => false
  end.

Module DataFrame.

(** the row labels and the columns, in order *)
Record t : Type := {
  index : list nat;
  columns : list (string * list cell)
}.

Definition nrows (df : t) : nat := List.length (index df).

Fixpoint column (name : string) (cols : list (string * list cell))
  : option (list cell) :=
  match cols with
  | [] => None
  | (n, c) :: cols' => if String.eqb n name then Some c else column name cols'
  end.

(** [df_data[name] = c] on the dictionary of columns *)
Fixpoint set_column (name : string) (c : list cell)
  (cols : list (string * list cell)) : list (string * list cell) :=
  match cols with
  | [] => [(name, c)]
  | (n, c') :: cols' =>
      if String.eqb n name then (n, c) :: cols'
      else (n, c') :: set_column name c cols'
  end.

(** [pd.DataFrame(data)] from a dictionary of arrays *)
Definition make (data : list (string * list cell)) : result t :=
  match data with
  | [] => Ok {| index := []; columns := [] |}
  | (_, c) :: rest =>
      if forallb (fun nc => Nat.eqb (List.length (snd nc)) (List.length c)) rest
      then Ok {| index := seq 0 (List.length c); columns := data |}
      else Raise (ValueError "All arrays must be of the same length")
  end.

(** [df.dropna(axis=1, how='all')] *)
Definition dropna_columns (df : t) : t :=
  {| index := index df;
     columns := filter (fun nc => negb (forallb isna (snd nc))) (columns df) |}.

(** the positions [i] at which [keep[i]] holds *)
Fixpoint positions (i : nat) (keep : list bool) : list nat :=
  match keep with
  | [] => []
  | b :: keep' => if b then i :: positions (S i) keep' else positions (S i) keep'
  end.

Definition pick {A : Type} (l : list A) (ps : list nat) : list A :=
  flat_map (fun p => match nth_error l p with
                     | Some a => [a]
                     | None => []
                     end) ps.

(** the rows at the positions [ps], in that order *)
Definition take (df : t) (ps : list nat) : t :=
  {| index := pick (index df) ps;
     columns := List.map (fun nc => (fst nc, pick (snd nc) ps)) (columns df) |}.

(** [df.iloc[mask]] with a boolean array *)
Definition iloc_mask (df : t) (mask : list bool) : result t :=
  if Nat.eqb (List.length mask) (nrows df)
  then Ok (take df (positions 0 mask))
  else Raise IndexError.

(** [df[name]], which raises [KeyError] *)
Definition getitem (df : t) (name : string) : result (list cell) :=
  match column name (columns df) with
  | Some c => Ok c
  | None => Raise KeyError
  end.

(** [df.name], which raises [AttributeError] *)
Definition getattr (df : t) (name : string) : result (list cell) :=
  match column name (columns df) with
  | Some c => Ok c
  | None => Raise AttributeError
  end.

(** [s.min()] and [s.max()] of a column: missing cells are skipped *)
Definition col_min (c : list cell) : cell :=
  fold_left (fun acc v => if isna v then acc
                          else if isna acc then v
                          else if cell_ltb v acc then v else acc) c NA.

Definition col_max (c : list cell) : cell :=
  fold_left (fun acc v => if isna v then acc
                          else if isna acc then v
                          else if cell_ltb acc v then v else acc) c NA.

(** a row, as [df.iloc[i]] gives it *)
Definition row : Type := list (string * cell).

(** [df.iloc[i]] *)
Definition iloc (df : t) (i : nat) : result row :=
  if Nat.ltb i (nrows df)
  then Ok (List.map (fun nc => (fst nc, nth i (snd nc) NA)) (columns df))
  else Raise IndexError.

(** [row.name] *)
Fixpoint row_attr (r : row) (name : string) : result cell :=
  match r with
  | [] => Raise AttributeError
  | (n, c) :: r' => if String.eqb n name then Ok c else row_attr r' name
  end.

(** the values of a column without repetition *)
Fixpoint distinct (l : list cell) : list cell :=
  match l with
  | [] => []
  | c :: l' => c :: filter (fun d => negb (cell_eqb c d)) (distinct l')
  end.

(** [df.groupby(by)]: the groups in the order of their keys; rows with a
    missing key belong to no group *)
Definition groupby (df : t) (by_ : string) : result (list (cell * t)) :=
  keycol <- getitem df by_ ;;
  let keys :=
    sorted cell_ltb (distinct (filter (fun c => negb (isna c)) keycol)) in
  Ok (List.map (fun k => (k, take df (positions 0 (List.map (cell_eqb k) keycol))))
        keys).

(** the order of [sort_values]: missing values last *)
Definition na_last_ltb (a b : cell) : bool :=
  if isna a then false else if isna b then true else cell_ltb a b.

(** [df.sort_values(by)].  Rows with equal keys keep their order here;
    pandas sorts with numpy's quicksort, which leaves the order of equal
    keys open on long columns.  [calculated_metadata] reads [t], [x] and
    [y] of the first row of each sorted group. *)
Definition sort_values (df : t) (by_ : string) : result t :=
  c <- getitem df by_ ;;
  let order := sorted (fun a b : nat * cell => na_last_ltb (snd a) (snd b))
                 (combine (seq 0 (List.length c)) c) in
  Ok (take df (List.map fst order)).

End DataFrame.

(* ================================================================= *)
(** * [pyaxiom/urn.py] *)

(** Modelled from the spec: the class [IoosUrn] of [pyaxiom/urn.py] is not
    among the sources.  The spec gives the identifier's form,
    [urn:ioos:sensor:{authority}:{station_label}:{name_with_clauses}], and
    its decoding: split on [:] to recover authority, station and component;
    the component keeps the colons of its own clauses.  A string without the
    [urn:ioos:] prefix or with fewer than five fields is not valid
    ([from_string] gives [None], for [valid()] being false). *)
Module IoosUrn.

Record t : Type := {
  asset_type : string;
  authority : string;
  label : string;
  component : option string
}.

Definition urn (u : t) : string :=
  "urn:ioos:" ++ asset_type u ++ ":" ++ authority u ++ ":" ++ label u ++
  match component u with
  | Some c => ":" ++ c
  | None => ""
  end.

Definition from_string (s : string) : option t :=
  match Str.split ":" s with
  | "urn" :: "ioos" :: a :: au :: l :: rest =>
      Some {| asset_type := a; authority := au; label := l;
              component := match rest with
                           | [] => None
                           | _ => Some (Str.join ":" rest)
                           end |}
  | _ => None
  end.

End IoosUrn.

(* ================================================================= *)
(** * [pyaxiom/utils.py] *)

Module Utils.

(** ** [unique_justseen] *)

(** [map(next, map(itemgetter(1), groupby(iterable, key)))] with the
    default [key=None]: the first element of every run. *)
Definition unique_justseen {A : Type} (eqb : A -> A -> bool) (iterable : list A)
  : list A :=
  flat_map (fun kg => firstn 1 (snd kg)) (groupby (fun x => x) eqb iterable).

(** ** [urnify_from_dict] *)

(** the value under the key [interval]: a [str], or a list or tuple *)
Inductive interval_value : Type :=
| IntervalStr (s : string)
| IntervalList (l : list string).

(** [data_dict]; [None] is an absent key *)
Record data_dict : Type := {
  standard_name : option string;
  name : option string;
  discriminant : option string;
  cell_methods : option string;
  bounds : option string;
  vertical_datum : option string;
  interval : option interval_value
}.

(** ['k' in data_dict and data_dict['k']] *)
Definition present (o : option string) : option string :=
  match o with
  | Some EmptyString => None
  | _ => o
  end.

Definition clean_value (v : string) : string :=
  Str.replace " " "_" (Str.strip (Str.replace ")" "" (Str.replace "(" "" v))).

(** [for j in reversed(range(0, i)): if cm[j] == " ": ...; break] *)
Fixpoint rfind_space (cm : string) (i : nat) : option nat :=
  match i with
  | O => None
  | S j =>
      match String.get j cm with
      | Some c => if Ascii.eqb c " " then Some j else rfind_space cm j
      | None => rfind_space cm j
      end
  end.

(** the loop [for i, c in enumerate(cm)], at index [i] with [rest = cm[i:]] *)
Fixpoint cm_scan (cm rest : string) (i : nat) (keys values : list string)
  (sofar : string) : list string * list string * string :=
  match rest with
  | EmptyString => (keys, values, sofar)
  | String c rest' =>
      if Ascii.eqb c ":" then
        if Nat.eqb (List.length keys) (List.length values)
        then cm_scan cm rest' (S i) (append keys (clean_value sofar)) values ""
        else
          match rfind_space cm i with
          | Some j =>
              let key := clean_value (Str.slice (j + 1) i cm) in
              cm_scan cm rest' (S i) (append keys key)
                (append values (clean_value (Str.replace key "" sofar))) ""
          | None => cm_scan cm rest' (S i) keys values ""
          end
      else cm_scan cm rest' (S i) keys values (sofar ++ String c "")
  end.

(** [<] on the tuples [(key, value)] *)
Definition pair_ltb (a b : string * string) : bool :=
  if String.eqb (fst a) (fst b) then Str.ltb (snd a) (snd b)
  else Str.ltb (fst a) (fst b).

(** the loop over [itertools.groupby(pairs, lambda x: x[0])]; the state is
    [(mems, cell_intervals)] *)
Definition group_step (st : list string * list string)
  (g : string * list (string * string)) : list string * list string :=
  let '(mems, cell_intervals) := st in
  let '(group, members) := g in
  if String.eqb group "interval" then (mems, List.map snd members)
  else if String.eqb group "time" || String.eqb group "area" then
    (append mems (Str.join "," (List.map (fun m => group ++ ":" ++ snd m) members)),
     cell_intervals)
  else (mems, cell_intervals).

(** the block under [if 'cell_methods' in data_dict and ...]: the clause
    appended to [extras], if any, and the intervals found *)
Definition cell_methods_clause (cm : string) : list string * list string :=
  let '(keys, values, sofar) := cm_scan cm cm 0 [] [] "" in
  let values := append values (clean_value sofar) in
  let pairs := sorted pair_ltb (combine keys values) in
  let '(mems, cell_intervals) :=
    fold_left group_step (groupby fst String.eqb pairs) ([], []) in
  (match mems with
   | [] => []
   | _ => ["cell_methods=" ++ Str.join "," mems]
   end,
   cell_intervals).

(** [random_name] stands for the eight letters drawn with [random.choice]
    when neither [standard_name] nor [name] is given. *)
Definition urnify_from_dict `{SetOrder} (random_name : string)
  (naming_authority station_identifier : string) (data_dict : data_dict)
  : string :=
  let '(extras, intervals) :=
    match present (cell_methods data_dict) with
    | Some cm => cell_methods_clause cm
    | None => ([], [])
    end in
  let extras :=
    match present (bounds data_dict) with
    | Some b => append extras ("bounds=" ++ b)
    | None => extras
    end in
  let extras :=
    match present (vertical_datum data_dict) with
    | Some v => append extras ("vertical_datum=" ++ v)
    | None => extras
    end in
  let intervals :=
    match interval data_dict with
    | Some (IntervalList l) => (intervals ++ l)%list
    | Some (IntervalStr EmptyString) => intervals
    | Some (IntervalStr s) => append intervals s
    | None => intervals
    end in
  let variable_name :=
    match present (standard_name data_dict) with
    | Some sn => sn
    | None =>
        match present (name data_dict) with
        | Some n => n
        | None => Str.lower random_name
        end
    end in
  let variable_name :=
    match present (discriminant data_dict) with
    | Some d => variable_name ++ "-" ++ d
    | None => variable_name
    end in
  let extras :=
    match intervals with
    | [] => extras
    | _ => append extras ("interval=" ++ Str.join "," (list_set intervals))
    end in
  let variable_name :=
    match extras with
    | [] => variable_name
    | _ => variable_name ++ "#" ++ Str.join ";" extras
    end in
  IoosUrn.urn {| IoosUrn.asset_type := "sensor";
                 IoosUrn.authority := naming_authority;
                 IoosUrn.label := station_identifier;
                 IoosUrn.component := Some variable_name |}.

(** ** [dictify_urn] *)

(** [a, b = l], with the messages of Python 3 *)
Definition unpack2 (l : list string) : result (string * string) :=
  match l with
  | [] => Raise (ValueError "not enough values to unpack (expected 2, got 0)")
  | [_] => Raise (ValueError "not enough values to unpack (expected 2, got 1)")
  | [a; b] => Ok (a, b)
  | _ :: _ :: _ :: _ => Raise (ValueError "too many values to unpack (expected 2)")
  end.

(** [x.replace('_', ' ').replace(':', ': ')] *)
Definition respace (x : string) : string :=
  Str.replace ":" ": " (Str.replace "_" " " x).

(** one turn of [for section in extras.split(';')]; the state is
    [(d, intervals, cell_methods)] *)
Definition section_step (st : dict * list string * list string)
  (section : string) : result (dict * list string * list string) :=
  let '(d, intervals, cell_methods) := st in
  '(key, values) <- unpack2 (Str.split "=" section) ;;
  if String.eqb key "interval" then
    Ok (d, (intervals ++ Str.split "," values)%list, cell_methods)
  else if String.eqb key "cell_methods" then
    Ok (d, intervals, List.map respace (Str.split "," values))
  else
    Ok (dict_set key (Str.join " " (List.map respace (Str.split "," values))) d,
        intervals, cell_methods).

Fixpoint sections_loop (st : dict * list string * list string)
  (sections : list string) : result (dict * list string * list string) :=
  match sections with
  | [] => Ok st
  | s :: rest => st' <- section_step st s ;; sections_loop st' rest
  end.

(** [d['cell_methods'] += ' (interval: {})'.format(i.upper())] for every
    [i] *)
Definition append_intervals (cm : string) (intervals : list string) : string :=
  fold_left (fun acc i => acc ++ " (interval: " ++ Str.upper i ++ ")")
            intervals cm.

Definition interval_error : exn :=
  ValueError "An interval without a cell_method is not allowed!  Not possible!".

Definition dictify_urn (urn : string) (combine_interval : bool) : result dict :=
  match IoosUrn.from_string urn with
  | None => Ok []
  | Some ioos_urn =>
      if negb (String.eqb (IoosUrn.asset_type ioos_urn) "sensor") then Ok []
      else
        match IoosUrn.component ioos_urn with
        | None => Raise TypeError
        | Some component =>
            '(standard_name, extras) <-
               (if Str.contains "#" component
                then unpack2 (Str.split "#" component)
                else Ok (component, "")) ;;
            let d := [("standard_name", standard_name)] in
            d <- (if Str.contains "-" component then
                    sn0 <- getitem (Str.split "-" standard_name) 0 ;;
                    Ok (dict_set "standard_name" sn0
                          (dict_set "discriminant"
                             (last (Str.split "-" standard_name) "") d))
                  else Ok d) ;;
            '(d, intervals, cell_methods) <-
               (match extras with
                | EmptyString => Ok (d, [], [])
                | _ => sections_loop (d, [], []) (Str.split ";" extras)
                end) ;;
            d <- (if combine_interval then
                    match cell_methods, intervals with
                    | _ :: _, _ :: _ =>
                        if Nat.eqb (List.length cell_methods) (List.length intervals)
                        then Ok (dict_set "cell_methods"
                                   (Str.join " "
                                      (List.map (fun x => fst x ++ " (interval: "
                                                          ++ Str.upper (snd x) ++ ")")
                                         (combine cell_methods intervals))) d)
                        else Ok (dict_set "cell_methods"
                                   (append_intervals (Str.join " " cell_methods)
                                      intervals) d)
                    | _ :: _, [] =>
                        Ok (dict_set "cell_methods"
                              (append_intervals (Str.join " " cell_methods)
                                 intervals) d)
                    | [], _ :: _ => Raise interval_error
                    | [], [] => Ok d
                    end
                  else
                    Ok (dict_set "interval" (Str.upper (Str.join "," intervals))
                          (dict_set "cell_methods" (Str.join " " cell_methods) d))) ;;
            match dict_get "vertical_datum" d with
            | Some v => Ok (dict_set "vertical_datum" (Str.upper v) d)
            | None => Ok d
            end
        end
  end.

(** ** [generic_masked] *)

(** The attributes [generic_masked] reads.  [None] is an absent key; the
    value is what [safe_attribute_typing(arr.dtype, value)] returns: the
    number, or [None] when the array's type rejects it. *)
Record attrs : Type := {
  valid_min : option (option float);
  valid_max : option (option float);
  valid_range : option (option float * option float)
}.

(** [np.finfo(np.float64)]: the arrays of this development are [float64] *)
Definition info_max : float := 0x1.fffffffffffffp+1023%float.
Definition info_min : float := (- info_max)%float.

(** [np.ma.masked_outside(arr, v1, v2)], for [arr] with its [fill_value] *)
Definition masked_outside (arr : masked_array) (fill_value : float)
  (v1 v2 : float) : masked_array :=
  let '(v1, v2) := if PrimFloat.ltb v2 v1 then (v2, v1) else (v1, v2) in
  List.map (fun c : float * bool =>
              let xf := if snd c then fill_value else fst c in
              (fst c, snd c || PrimFloat.ltb xf v1 || PrimFloat.ltb v2 xf)) arr.

(** [arr] is a masked array: its cells and its [fill_value] *)
Definition generic_masked (arr : masked_array) (fill_value : float)
  (attrs : option attrs) (minv maxv : option float) (mask_nan : bool)
  : masked_array :=
  let attrs := match attrs with
               | Some a => a
               | None => {| valid_min := None; valid_max := None;
                            valid_range := None |}
               end in
  let minv := match valid_min attrs with
              | Some v => v
              | None => minv
              end in
  let maxv := match valid_max attrs with
              | Some v => v
              | None => maxv
              end in
  let '(minv, maxv) := match valid_range attrs with
                       | Some vr => vr
                       | None => (minv, maxv)
                       end in
  let minv := match minv with
              | Some v => v
              | None => info_min
              end in
  let maxv := match maxv with
              | Some v => v
              | None => info_max
              end in
  let arr := if mask_nan then fix_invalid fill_value arr else arr in
  masked_outside arr fill_value minv maxv.

End Utils.

(* ================================================================= *)
(** * The dataset, as [netCDF4] and [CFDataset] give it *)

(** the kinds of element type the sources tell apart *)
Inductive dtype : Type :=
| int_t
| float_t
| bytes_t.  (* [np.issubdtype(dtype, 'S')] *)

(** a [netCDF4.Variable] *)
Module Var.

Record t : Type := {
  name : string;
  dtype : dtype;
  dimensions : list string;
  size : nat;
  cf_role : option string;
  sample_dimension : option string;
  instance_dimension : option string;
  units : option string;
  calendar : option string;
  (** the attributes [valid_min], [valid_max] and [valid_range] *)
  valid : Utils.attrs;
  (** [var[:]], flattened in C order, with the mask set by the reader: it
      hides the cells that hold the fill value of the variable and those
      outside the valid range the variable declares *)
  values : masked_array;
  (** the [fill_value] of that masked array: the one of the variable, or
      the default one *)
  fill_value : float
}.

End Var.

(** the value of an attribute, as the reader gives it: text, or a number
    (or an array of numbers) *)
Inductive attribute : Type :=
| Text (s : string)
| Number.

(** [a.lower()]: a number has no such method *)
Definition attribute_lower (a : attribute) : result string :=
  match a with
  | Text s => Ok (Str.lower s)
  | Number => Raise AttributeError
  end.

Module Dataset.

Record t : Type := {
  (** the global attribute [featureType], when there is one *)
  featureType : option attribute;
  (** [dimensions]: the name and size of every dimension *)
  dimensions : list (string * nat);
  variables : list Var.t;
  t_axes : list Var.t;
  x_axes : list Var.t;
  y_axes : list Var.t;
  z_axes : list Var.t;
  datavars : list Var.t
}.

(** [get_variables_by_attributes(cf_role=role)] *)
Definition by_cf_role (ds : t) (role : string) : list Var.t :=
  filter (fun v => match Var.cf_role v with
                   | Some r => String.eqb r role
                   | None => false
                   end) (variables ds).

(** [get_variables_by_attributes(a=lambda x: x is not None)] *)
Definition by_attribute_present (ds : t) (a : Var.t -> option string)
  : list Var.t :=
  filter (fun v => match a v with
                   | Some _ => true
                   | None => false
                   end) (variables ds).

(** [ds.dimensions[name]]: the dimension's name and size *)
Fixpoint lookup (name : string) (dims : list (string * nat))
  : result (string * nat) :=
  match dims with
  | [] => Raise KeyError
  | (n, s) :: dims' => if String.eqb n name then Ok (n, s) else lookup name dims'
  end.

Definition dimension (ds : t) (name : string) : result (string * nat) :=
  lookup name (dimensions ds).

End Dataset.

(** an attribute read as [obj.attr] *)
Definition getattr {A : Type} (o : option A) : result A :=
  match o with
  | Some a => Ok a
  | None => Raise AttributeError
  end.

(** What the sources take from numpy, netCDF4 and pygc. *)
Class External : Type := {
  (** [np.round(x, decimals)] on one [float64] *)
  around : nat -> float -> float;
  (** [np.ma.MaskedArray(var[:]).astype(int)]: the conversion of every
      element, or [None] when numpy raises [ValueError] (text that is no
      integer) *)
  astype_int : Var.t -> option (float -> Z);
  (** [nc4.num2date(x, units, calendar)] on one number *)
  num2date : string -> string -> float -> Z;
  (** [pygc.great_distance(...)['distance']] on one pair of positions:
      start latitude, end latitude, start longitude, end longitude *)
  great_distance : float -> float -> float -> float -> float
}.

(* ================================================================= *)
(** * shapely geometries *)

Inductive Geometry : Type :=
| Point (x y : cell)
| LineString (coords : list (cell * cell)).

(* ================================================================= *)
(** * [pyaxiom/netcdf/sensors/dsg/profile/im.py] *)

Module IncompleteMultidimensionalProfile.

(** the loop [for dv in dsg.datavars() + [z]] of [is_mine] *)
Fixpoint datavars_checks (p_dim z_dim : string * nat) (dvs : list Var.t)
  : result unit :=
  match dvs with
  | [] => Ok tt
  | dv :: dvs' =>
      _ <- assert (Nat.eqb (List.length (Var.dimensions dv)) 2) ;;
      _ <- assert (existsb (String.eqb (fst z_dim)) (Var.dimensions dv)) ;;
      _ <- assert (existsb (String.eqb (fst p_dim)) (Var.dimensions dv)) ;;
      _ <- assert (Nat.eqb (Var.size dv) (snd z_dim * snd p_dim)) ;;
      datavars_checks p_dim z_dim dvs'
  end.

(** the body of the [try] block of [is_mine] *)
Definition is_mine_checks (dsg : Dataset.t) : result unit :=
  let pvars := Dataset.by_cf_role dsg "profile_id" in
  _ <- assert (Nat.eqb (List.length pvars) 1) ;;
  ft <- getattr (Dataset.featureType dsg) ;;
  ft <- attribute_lower ft ;;
  _ <- assert (String.eqb ft "profile") ;;
  _ <- assert (Nat.eqb (List.length (Dataset.t_axes dsg)) 1) ;;
  _ <- assert (Nat.eqb (List.length (Dataset.x_axes dsg)) 1) ;;
  _ <- assert (Nat.eqb (List.length (Dataset.y_axes dsg)) 1) ;;
  _ <- assert (Nat.eqb (List.length (Dataset.z_axes dsg)) 1) ;;
  pvar <- getitem pvars 0 ;;
  let '(minimum_dimensions, maximum_dimensions) :=
    match Var.dtype pvar with
    | bytes_t => (2, 3)
    | _ => (1, 2)
    end in
  _ <- assert (Nat.leb minimum_dimensions (List.length (Var.dimensions pvar))
               && Nat.leb (List.length (Var.dimensions pvar)) maximum_dimensions) ;;
  t <- getitem (Dataset.t_axes dsg) 0 ;;
  x <- getitem (Dataset.x_axes dsg) 0 ;;
  y <- getitem (Dataset.y_axes dsg) 0 ;;
  z <- getitem (Dataset.z_axes dsg) 0 ;;
  _ <- assert (Nat.eqb (Var.size t) (Var.size pvar)) ;;
  _ <- assert (Nat.eqb (Var.size x) (Var.size pvar)) ;;
  _ <- assert (Nat.eqb (Var.size y) (Var.size pvar)) ;;
  pd <- getitem (Var.dimensions pvar) 0 ;;
  p_dim <- Dataset.dimension dsg pd ;;
  zd <- getitem (filter (fun d => negb (String.eqb d (fst p_dim)))
                   (Var.dimensions z)) 0 ;;
  z_dim <- Dataset.dimension dsg zd ;;
  datavars_checks p_dim z_dim (Dataset.datavars dsg ++ [z])%list.

(** [except BaseException: return False] *)
Definition is_mine (dsg : Dataset.t) : bool :=
  match is_mine_checks dsg with
  | Ok _ => true
  | Raise _ => false
  end.

Record Profile : Type := {
  min_z : cell;
  max_z : cell;
  t : cell;
  x : cell;
  y : cell;
  loc : Geometry
}.

Record Metadata : Type := {
  min_t : cell;
  max_t : cell;
  profiles : list (cell * Profile);
  first_loc : option Geometry;
  geometry : option Geometry
}.

(** the loop [for pid, pgroup in df.groupby('profile')] *)
Fixpoint profiles_loop (groups : list (cell * DataFrame.t))
  (profiles : list (cell * Profile)) : result (list (cell * Profile)) :=
  match groups with
  | [] => Ok profiles
  | (pid, pgroup) :: groups' =>
      pgroup <- DataFrame.sort_values pgroup "t" ;;
      first_row <- DataFrame.iloc pgroup 0 ;;
      zmin <- DataFrame.getattr pgroup "z" ;;
      zmax <- DataFrame.getattr pgroup "z" ;;
      rt <- DataFrame.row_attr first_row "t" ;;
      rx <- DataFrame.row_attr first_row "x" ;;
      ry <- DataFrame.row_attr first_row "y" ;;
      profiles_loop groups'
        (append profiles
           (pid, {| min_z := DataFrame.col_min zmin;
                    max_z := DataFrame.col_max zmax;
                    t := rt; x := rx; y := ry; loc := Point rx ry |}))
  end.

(** [==] on the tuples of [zip(df.x, df.y)] *)
Definition coord_eqb (a b : cell * cell) : bool :=
  cell_eqb (fst a) (fst b) && cell_eqb (snd a) (snd b).

(** the body of [calculated_metadata] once [df] is there *)
Definition calculated_metadata_of (df : DataFrame.t) (geometries : bool)
  : result Metadata :=
  groups <- DataFrame.groupby df "profile" ;;
  profiles <- profiles_loop groups [] ;;
  '(first_loc, geometry) <-
     (if geometries then
        first_row <- DataFrame.iloc df 0 ;;
        rx <- DataFrame.row_attr first_row "x" ;;
        ry <- DataFrame.row_attr first_row "y" ;;
        let first_loc := Point rx ry in
        xs <- DataFrame.getattr df "x" ;;
        ys <- DataFrame.getattr df "y" ;;
        let coords := Utils.unique_justseen coord_eqb (combine xs ys) in
        Ok (Some first_loc,
            if Nat.ltb 1 (List.length coords) then Some (LineString coords)
            else if Nat.eqb (List.length coords) 1 then Some first_loc
            else None)
      else Ok (None, None)) ;;
  tmin <- DataFrame.getattr df "t" ;;
  tmax <- DataFrame.getattr df "t" ;;
  Ok {| min_t := DataFrame.col_min tmin;
        max_t := DataFrame.col_max tmax;
        profiles := profiles;
        first_loc := first_loc;
        geometry := geometry |}.

Section ToDataframe.

Context `{External}.

(** [a.round(decimals)] on a masked array: the data are rounded, the mask
    is kept *)
Definition ma_round (decimals : nat) (a : masked_array) : masked_array :=
  List.map (fun c : float * bool => (around decimals (fst c), snd c)) a.

(** the distances between consecutive positions of [x] and [y]:
    [great_distance(start_latitude=y[0:-1], end_latitude=y[1:],
                    start_longitude=x[0:-1], end_longitude=x[1:])] *)
Definition track_steps (x y : list float) : list float :=
  List.map (fun q : (float * float) * (float * float) =>
              great_distance (fst (fst q)) (snd (fst q))
                             (fst (snd q)) (snd (snd q)))
    (combine (combine (removelast y) (tl y)) (combine (removelast x) (tl x))).

(** the blocks of [to_dataframe], one array each *)

(** [# Profiles] *)
Definition profile_array (pvar : Var.t) (ps zs : nat) : list (Z * bool) :=
  let p := match astype_int pvar with
           | Some to_int =>
               List.map (fun c : float * bool => (to_int (fst c), snd c))
                 (Var.values pvar)
           | None => List.map (fun i => (Z.of_nat i, false)) (seq 0 ps)
           end in
  repeat_each zs p.

(** [# Z] *)
Definition z_array (zvar : Var.t) : masked_array :=
  ma_round 5 (fix_invalid (Var.fill_value zvar) (Var.values zvar)).

(** [# T] *)
Definition t_array (tvar : Var.t) (units : string) (zs : nat) : list cell :=
  let calendar := match Var.calendar tvar with
                  | Some c => c
                  | None => "standard"
                  end in
  let t := List.map (fun c : float * bool =>
                       if snd c then NA else Time (num2date units calendar (fst c)))
             (Var.values tvar) in
  repeat_each zs t.

(** [# X] and [# Y] *)
Definition xy_array (var : Var.t) (zs : nat) : masked_array :=
  ma_round 5 (repeat_each zs (fix_invalid (Var.fill_value var) (Var.values var))).

(** [# Distance] *)
Definition distance_array (x y : masked_array) : masked_array :=
  let d := (0%float :: track_steps (List.map fst x) (List.map fst y))%list in
  fix_invalid default_fill_value
    (List.map (fun v => (around 2 v, false)) (cumsum d)).

(** [vdata] of a data variable *)
Definition data_array (x : Var.t) : masked_array :=
  fix_invalid (Var.fill_value x) (ma_round 3 (Var.values x)).

(** the loop over [self.datavars()]; the state is [building_index_to_drop]
    and [df_data] *)
Fixpoint datavars_loop (dvs : list Var.t) (building_index_to_drop : list bool)
  (df_data : list (string * list cell))
  : result (list bool * list (string * list cell)) :=
  match dvs with
  | [] => Ok (building_index_to_drop, df_data)
  | x :: dvs' =>
      let vdata := data_array x in
      b <- mask_and building_index_to_drop (List.map snd vdata) ;;
      datavars_loop dvs' b
        (DataFrame.set_column (Var.name x) (float_column vdata) df_data)
  end.

Definition to_dataframe (self : Dataset.t) (clean_cols clean_rows : bool)
  : result DataFrame.t :=
  pvar <- getitem (Dataset.by_cf_role self "profile_id") 0 ;;
  pd <- getitem (Var.dimensions pvar) 0 ;;
  p_dim <- Dataset.dimension self pd ;;
  let ps := snd p_dim in
  zvar <- getitem (Dataset.z_axes self) 0 ;;
  zd <- getitem (filter (fun d => negb (String.eqb d (fst p_dim)))
                   (Var.dimensions zvar)) 0 ;;
  z_dim <- Dataset.dimension self zd ;;
  let zs := snd z_dim in
  let p := profile_array pvar ps zs in
  let z := z_array zvar in
  tvar <- getitem (Dataset.t_axes self) 0 ;;
  units <- getattr (Var.units tvar) ;;
  let t := t_array tvar units zs in
  xvar <- getitem (Dataset.x_axes self) 0 ;;
  let x := xy_array xvar zs in
  yvar <- getitem (Dataset.y_axes self) 0 ;;
  let y := xy_array yvar zs in
  let d := distance_array x y in
  let df_data :=
    [("t", t); ("x", float_column x); ("y", float_column y);
     ("z", float_column z);
     ("profile", List.map (fun c : Z * bool => if snd c then NA else Int (fst c)) p);
     ("distance", float_column d)] in
  let building_index_to_drop := List.repeat true (List.length t) in
  '(building_index_to_drop, df_data) <-
     datavars_loop (Dataset.datavars self) building_index_to_drop df_data ;;
  df <- DataFrame.make df_data ;;
  (* Drop all data columns with no data *)
  let df := if clean_cols then DataFrame.dropna_columns df else df in
  (* Drop all data rows with no data variable data *)
  if clean_rows
  then DataFrame.iloc_mask df (List.map negb building_index_to_drop)
  else Ok df.

Definition calculated_metadata (self : Dataset.t)
  (geometries clean_cols clean_rows : bool) : result Metadata :=
  df <- to_dataframe self clean_cols clean_rows ;;
  calculated_metadata_of df geometries.

End ToDataframe.

End IncompleteMultidimensionalProfile.

(* ================================================================= *)
(** * [pyaxiom/netcdf/sensors/dsg/timeseries/im.py] *)

Module IncompleteMultidimensionalTimeseries.

(** the body of the [try] block of [is_mine] *)
Definition is_mine_checks (dsg : Dataset.t) : result unit :=
  let rvars := Dataset.by_cf_role dsg "timeseries_id" in
  _ <- assert (Nat.eqb (List.length rvars) 1) ;;
  ft <- getattr (Dataset.featureType dsg) ;;
  ft <- attribute_lower ft ;;
  _ <- assert (String.eqb ft "timeseries") ;;
  _ <- assert (Nat.leb 1 (List.length (Dataset.t_axes dsg))) ;;
  _ <- assert (Nat.leb 1 (List.length (Dataset.x_axes dsg))) ;;
  _ <- assert (Nat.leb 1 (List.length (Dataset.y_axes dsg))) ;;
  (* Not a CR *)
  _ <- assert (Nat.eqb (List.length
                          (Dataset.by_attribute_present dsg Var.sample_dimension)) 0) ;;
  (* Not an IR *)
  _ <- assert (Nat.eqb (List.length
                          (Dataset.by_attribute_present dsg Var.instance_dimension)) 0) ;;
  t0 <- getitem (Dataset.t_axes dsg) 0 ;;
  _ <- assert (Nat.eqb (List.length (Var.dimensions t0)) 2) ;;
  rvar <- getitem rvars 0 ;;
  assert (Nat.leb 0 (List.length (Var.dimensions rvar))
          && Nat.leb (List.length (Var.dimensions rvar)) 2).

(** [except AssertionError: return False]: any other exception leaves
    [is_mine] *)
Definition is_mine (dsg : Dataset.t) : result bool :=
  match is_mine_checks dsg with
  | Ok _ => Ok true
  | Raise AssertionError => Ok false
  | Raise e => Raise e
  end.

End IncompleteMultidimensionalTimeseries.

(* ================================================================= *)
(** * Concrete externals and data for the examples *)

Module Examples.

(** [np.rint] on binary64, by the addition of 2^52 *)
Definition rint (x : float) : float :=
  if PrimFloat.ltb (abs x) 0x1p+52%float then
    let r := (abs x + 0x1p+52 - 0x1p+52)%float in
    if PrimFloat.ltb x 0%float then (- r)%float else r
  else x.

Fixpoint pow10 (d : nat) : float :=
  match d with
  | O => 1%float
  | S d' => (10 * pow10 d')%float
  end.

(** numpy rounds to [d] decimals as [rint(x * 10**d) / 10**d] *)
Definition np_around (d : nat) (x : float) : float :=
  match d with
  | O => rint x
  | _ => (rint (x * pow10 d) / pow10 d)%float
  end.

(** the integer part of a float; numpy gives the least integer for a
    non-finite one *)
Definition float_to_Z (x : float) : Z :=
  match Prim2SF x with
  | S754_finite s m e =>
      let v := (if Z.leb 0 e then Z.pos m * 2 ^ e else Z.pos m / 2 ^ (- e))%Z in
      if s then (- v)%Z else v
  | S754_zero _ => 0%Z
  | _ => (- 2 ^ 63)%Z
  end.

(** numbers convert; byte strings stand for identifiers that are no
    integers *)
Definition np_astype_int (v : Var.t) : option (float -> Z) :=
  match Var.dtype v with
  | bytes_t => None
  | _ => Some float_to_Z
  end.

(** stand-ins for netCDF4 and pygc: a count of whole time units, and the
    sum of the differences in latitude and longitude *)
Definition count_units (units calendar : string) (x : float) : Z :=
  float_to_Z x.

Definition taxicab (start_latitude end_latitude start_longitude end_longitude
  : float) : float :=
  (abs (end_latitude - start_latitude)
   + abs (end_longitude - start_longitude))%float.

#[export] Instance externals : External := {|
  around := np_around;
  astype_int := np_astype_int;
  num2date := count_units;
  great_distance := taxicab
|}.

(** an order for [list(set(l))]: the first occurrences, in the order of
    [l] *)
Fixpoint first_occurrences (l : list string) : list string :=
  match l with
  | [] => []
  | x :: l' => x :: filter (fun y => negb (String.eqb x y)) (first_occurrences l')
  end.

#[export] Instance first_seen : SetOrder := {|
  list_set := first_occurrences
|}.

Definition variable (name : string) (dt : dtype) (dims : list string)
  (cf_role : option string) (data : masked_array) : Var.t :=
  {| Var.name := name; Var.dtype := dt; Var.dimensions := dims;
     Var.size := List.length data; Var.cf_role := cf_role;
     Var.sample_dimension := None; Var.instance_dimension := None;
     Var.units := Some "seconds since 1970-01-01";
     Var.calendar := None;
     Var.valid := {| Utils.valid_min := None; Utils.valid_max := None;
                     Utils.valid_range := None |};
     Var.values := data; Var.fill_value := default_fill_value |}.

(** the variable [v] with other attributes and values *)
Definition with_values (v : Var.t) (valid : Utils.attrs) (data : masked_array)
  : Var.t :=
  {| Var.name := Var.name v; Var.dtype := Var.dtype v;
     Var.dimensions := Var.dimensions v; Var.size := List.length data;
     Var.cf_role := Var.cf_role v;
     Var.sample_dimension := Var.sample_dimension v;
     Var.instance_dimension := Var.instance_dimension v;
     Var.units := Var.units v; Var.calendar := Var.calendar v;
     Var.valid := valid; Var.values := data;
     Var.fill_value := Var.fill_value v |}.

Definition plain (l : list float) : masked_array :=
  List.map (fun v => (v, false)) l.

(** two profiles of two levels, with the given vertical axis and data
    variables *)
Definition grid (z : Var.t) (datavars : list Var.t) : Dataset.t :=
  let profile := variable "profile" int_t ["profile"] (Some "profile_id")
                   (plain [7; 9]%float) in
  let time := variable "time" float_t ["profile"] None (plain [0; 60]%float) in
  let lon := variable "lon" float_t ["profile"] None (plain [1; 2]%float) in
  let lat := variable "lat" float_t ["profile"] None (plain [1; 2]%float) in
  {| Dataset.featureType := Some (Text "profile");
     Dataset.dimensions := [("profile", 2); ("z", 2)];
     Dataset.variables := ([profile; time; lon; lat; z] ++ datavars)%list;
     Dataset.t_axes := [time]; Dataset.x_axes := [lon];
     Dataset.y_axes := [lat]; Dataset.z_axes := [z];
     Dataset.datavars := datavars |}.

Definition depth : Var.t :=
  variable "z" float_t ["profile"; "z"] None (plain [0; 5; 3; 9]%float).

Definition temperature : Var.t :=
  variable "temperature" float_t ["profile"; "z"] None
    (plain [10.5; 11.25; 12; 13]%float).

Definition no_range : Utils.attrs :=
  {| Utils.valid_min := None; Utils.valid_max := None;
     Utils.valid_range := None |}.

(** one data variable, valid everywhere *)
Definition grid_2x2 : Dataset.t := grid depth [temperature].

(** a second data variable; the last row has no valid datum, and
    [salinity] has none at all *)
Definition salinity : Var.t :=
  with_values (variable "salinity" float_t ["profile"; "z"] None [])
    no_range [(35%float, true); (nan, false); (infinity, false); (nan, false)].

Definition grid_with_gaps : Dataset.t :=
  grid depth
    [with_values temperature no_range
       (plain [10.5; 11.25; 12; nan]%float);
     salinity].

(** the vertical axis without a valid value *)
Definition grid_without_depth : Dataset.t :=
  grid (with_values depth no_range (plain [nan; nan; nan; nan])) [temperature].


(** a table with the given (longitude, latitude) sequence: one instance,
    one row per position *)
Definition table (lonlat : list (float * float)) : DataFrame.t :=
  let n := List.length lonlat in
  {| DataFrame.index := seq 0 n;
     DataFrame.columns :=
       [("t", List.map (fun i => Time (Z.of_nat i)) (seq 0 n));
        ("x", List.map (fun q => Float (fst q)) lonlat);
        ("y", List.map (fun q => Float (snd q)) lonlat);
        ("z", List.repeat (Float 0) n);
        ("profile", List.repeat (Int 1) n);
        ("distance", List.repeat (Float 0) n)] |}.

(** no data variable *)
Definition grid_no_datavars : Dataset.t := grid depth [].

(** one station variable, and no global attribute [featureType] *)
Definition no_feature_type : Dataset.t :=
  let station := variable "station" int_t ["station"] (Some "timeseries_id")
                   (plain [1; 2]%float) in
  let time := variable "time" float_t ["station"; "time"] None
                (plain [0; 60; 0; 60]%float) in
  let lon := variable "lon" float_t ["station"] None (plain [1; 2]%float) in
  let lat := variable "lat" float_t ["station"] None (plain [1; 2]%float) in
  {| Dataset.featureType := None;
     Dataset.dimensions := [("station", 2); ("time", 2)];
     Dataset.variables := [station; time; lon; lat];
     Dataset.t_axes := [time]; Dataset.x_axes := [lon];
     Dataset.y_axes := [lat]; Dataset.z_axes := [];
     Dataset.datavars := [] |}.

End Examples.

(* ================================================================= *)
(** * Notions used in the statements *)

(** [unique_justseen] told directly: the elements that differ from the one
    kept last *)
Fixpoint justseen_from {A : Type} (eqb : A -> A -> bool) (tgt : A)
  (l : list A) : list A :=
  match l with
  | [] => []
  | x :: l' =>
      if eqb tgt x then justseen_from eqb tgt l' else x :: justseen_from eqb x l'
  end.

(** no element equals its successor *)
Fixpoint no_repeat {A : Type} (eqb : A -> A -> bool) (l : list A) : Prop :=
  match l with
  | x :: ((y :: _) as l') => eqb x y = false /\ no_repeat eqb l'
  | _ => True
  end.

(** [fmap f r]: [f] on the value returned, the exception kept *)
Definition fmap {A B : Type} (f : A -> B) (r : result A) : result B :=
  match r with
  | Ok a => Ok (f a)
  | Raise e => Raise e
  end.

(** the record with a standard name, a [cell_methods] text and an
    [interval] value, and no other key *)
Definition sensor_record (standard_name : string) (cell_methods : option string)
  (interval : option Utils.interval_value) : Utils.data_dict :=
  {| Utils.standard_name := Some standard_name;
     Utils.name := None;
     Utils.discriminant := None;
     Utils.cell_methods := cell_methods;
     Utils.bounds := None;
     Utils.vertical_datum := None;
     Utils.interval := interval |}.

(** the name before [#] in a component, and the keys of the clauses after
    it *)
Definition base_name (component : string) : string :=
  hd "" (Str.split "#" component).

Definition clause_keys (component : string) : list string :=
  List.map (fun section => hd "" (Str.split "=" section))
    (Str.split ";" (nth 1 (Str.split "#" component) "")).

(** what [list(set(l))] gives in any order: the strings of [l], none
    twice *)
Definition set_of `{SetOrder} : Prop :=
  forall l : list string,
    NoDup (list_set l) /\ forall x, In x (list_set l) <-> In x l.

(** [lacks chars s]: no character of [chars] occurs in [s] *)
Definition lacks (chars s : string) : bool :=
  Str.all (fun c => negb (Str.has c chars)) s.

Section GridNotions.

Context `{External}.

(** the profile variable and the sizes of the two dimensions, resolved as
    [to_dataframe] does *)
Definition grid_shape (ds : Dataset.t) : result (Var.t * nat * nat) :=
  pvar <- getitem (Dataset.by_cf_role ds "profile_id") 0 ;;
  pd <- getitem (Var.dimensions pvar) 0 ;;
  p_dim <- Dataset.dimension ds pd ;;
  zvar <- getitem (Dataset.z_axes ds) 0 ;;
  zd <- getitem (filter (fun d => negb (String.eqb d (fst p_dim)))
                   (Var.dimensions zvar)) 0 ;;
  z_dim <- Dataset.dimension ds zd ;;
  Ok (pvar, snd p_dim, snd z_dim).

(** the array read has as many elements as the variable declares *)
Definition whole (v : Var.t) : bool :=
  Nat.eqb (List.length (Var.values v)) (Var.size v).

Fixpoint distinct_names (l : list string) : bool :=
  match l with
  | [] => true
  | x :: l' => negb (existsb (String.eqb x) l') && distinct_names l'
  end.

(** the names of the columns [to_dataframe] builds before the data
    variables *)
Definition coordinate_names : list string :=
  ["t"; "x"; "y"; "z"; "profile"; "distance"].

(** A padded grid of [P] profiles and [Zs] levels: the dataset is classified
    as one, its profile variable holds one identifier per profile along a
    dimension of size [P], the other dimension of the vertical axis has
    size [Zs], every array is read whole, the time axis has units, and the
    data variables are named apart from one another and from the
    coordinate columns. *)
Definition profile_grid (P Zs : nat) (ds : Dataset.t) : bool :=
  IncompleteMultidimensionalProfile.is_mine ds
  && match grid_shape ds with
     | Ok (pvar, p, z) =>
         Nat.eqb p P && Nat.eqb z Zs && Nat.eqb (Var.size pvar) P
     | Raise _ => false
     end
  && forallb whole (Dataset.by_cf_role ds "profile_id" ++ Dataset.t_axes ds
                    ++ Dataset.x_axes ds ++ Dataset.y_axes ds
                    ++ Dataset.z_axes ds ++ Dataset.datavars ds)%list
  && forallb (fun v => match Var.units v with
                       | Some _ => true
                       | None => false
                       end) (Dataset.t_axes ds)
  && distinct_names (coordinate_names
                     ++ List.map Var.name (Dataset.datavars ds))%list.




(** the data variable [dv] is invalid at row [i] *)
Definition invalid_at (dv : Var.t) (i : nat) : bool :=
  match nth_error (Var.values dv) i with
  | Some c => snd c || negb (is_finite (around 3 (fst c)))
  | None => true
  end.

(** all the data variables are invalid at row [i] *)
Definition empty_row (dvs : list Var.t) (i : nat) : bool :=
  forallb (fun dv => invalid_at dv i) dvs.

End GridNotions.

Section FlatFrame.

Context `{External}.

(** the frame [to_dataframe] assembles from the five coordinate variables
    and the data variables of a grid of [P] profiles and [Zs] levels, before
    any pruning *)
Definition flat_frame (pvar tvar xvar yvar zvar : Var.t) (units : string)
  (P Zs : nat) (dvs : list Var.t) : DataFrame.t :=
  {| DataFrame.index := seq 0 (P * Zs);
     DataFrame.columns :=
       ([("t", IncompleteMultidimensionalProfile.t_array tvar units Zs);
         ("x", float_column (IncompleteMultidimensionalProfile.xy_array xvar Zs));
         ("y", float_column (IncompleteMultidimensionalProfile.xy_array yvar Zs));
         ("z", float_column (IncompleteMultidimensionalProfile.z_array zvar));
         ("profile",
          List.map (fun c : Z * bool => if snd c then NA else Int (fst c))
            (IncompleteMultidimensionalProfile.profile_array pvar P Zs));
         ("distance",
          float_column
            (IncompleteMultidimensionalProfile.distance_array
               (IncompleteMultidimensionalProfile.xy_array xvar Zs)
               (IncompleteMultidimensionalProfile.xy_array yvar Zs)))]
        ++ List.map (fun dv =>
                       (Var.name dv,
                        float_column
                          (IncompleteMultidimensionalProfile.data_array dv)))
             dvs)%list |}.

(** the pruning of [to_dataframe]: the columns missing in every row, and
    the rows at which all the data variables [dvs] are invalid *)
Definition pruned (clean_cols clean_rows : bool) (dvs : list Var.t)
  (df : DataFrame.t) : DataFrame.t :=
  let df := if clean_cols then DataFrame.dropna_columns df else df in
  if clean_rows
  then DataFrame.take df
         (filter (fun i => negb (empty_row dvs i))
            (seq 0 (DataFrame.nrows df)))
  else df.

End FlatFrame.

(** [s.replace(c, new)] for a single character [c], told directly *)
Fixpoint subst_char (c : ascii) (new s : string) : string :=
  match s with
  | EmptyString => EmptyString
  | String x s' =>
      if Ascii.eqb x c then new ++ subst_char c new s'
      else String x (subst_char c new s')
  end.

(** A name holds neither [#] nor [-], and is not empty. *)
Definition name_like (s : string) : bool :=
  lacks "#-" s && negb (String.eqb s "").

(** the text [domain: method (interval: token)] of one cell method with
    its interval *)
Definition cell_method_text (domain method token : string) : string :=
  domain ++ ": " ++ method ++ " (interval: " ++ token ++ ")".

(** [s.strip() == s]: no white space at either end *)
Definition trimmed (s : string) : bool := String.eqb (Str.strip s) s.

(** the ways a record holds one cell method with one interval token: the
    token in the text of [cell_methods], or under the key [interval], as a
    string or as a list of one string *)
Inductive record_form : Type :=
| Fused
| IntervalText
| IntervalItems.

(** the record with one cell method and one interval token, in the form
    [f], with any [name], [bounds] and [vertical_datum] *)
Definition method_record (f : record_form) (standard_name : string)
  (name discriminant bounds vertical_datum : option string)
  (domain method token : string) : Utils.data_dict :=
  {| Utils.standard_name := Some standard_name;
     Utils.name := name;
     Utils.discriminant := discriminant;
     Utils.cell_methods :=
       Some (match f with
             | Fused => cell_method_text domain method token
             | _ => domain ++ ": " ++ method
             end);
     Utils.bounds := bounds;
     Utils.vertical_datum := vertical_datum;
     Utils.interval :=
       match f with
       | Fused => None
       | IntervalText => Some (Utils.IntervalStr token)
       | IntervalItems => Some (Utils.IntervalList [token])
       end |}.

(** The methods of the round trip: no separator of the grammar, no
    parenthesis, no underscore, no white space at either end, and, where
    the interval is in the text, not the word [interval]. *)
Definition method_ok (f : record_form) (m : string) : bool :=
  lacks ":()#;=,_" m && trimmed m
  && match f with
     | Fused => negb (Str.contains "interval" m)
     | _ => true
     end.

(** The interval tokens of the round trip: not empty, left as they are by
    [upper()], no separator of the clauses; where the token is in the text,
    also no colon, no parenthesis, no blank and no white space at either
    end. *)
Definition token_ok (f : record_form) (t : string) : bool :=
  negb (String.eqb t "")
  && String.eqb (Str.upper t) t
  && match f with
     | Fused => lacks ":()#;=, " t && trimmed t
     | _ => lacks "#;=," t
     end.

(** a value of [bounds] or [vertical_datum] that is absent, empty, or free
    of the separators of the clauses *)
Definition clause_ok (o : option string) : bool :=
  match Utils.present o with
  | Some v => lacks "#;=" v
  | None => true
  end.

(* ================================================================= *)
(** * More of [pyaxiom/utils.py] *)

(** ** [dict_update] *)

(** A value of a nested dictionary: a mapping, or any other value (a
    leaf, held as text). *)
#[warnings="-register-all"]
Inductive pyvalue : Type :=
| Leaf (s : string)
| Mapping (items : list (string * pyvalue)).

(** [d.get(k)] and [d[k] = v] on the items of a mapping *)
Fixpoint item_get (k : string) (d : list (string * pyvalue)) : option pyvalue :=
  match d with
  | [] => None
  | (k', v) :: d' => if String.eqb k' k then Some v else item_get k d'
  end.

Fixpoint item_set (k : string) (v : pyvalue) (d : list (string * pyvalue))
  : list (string * pyvalue) :=
  match d with
  | [] => [(k, v)]
  | (k', v') :: d' =>
      if String.eqb k' k then (k', v) :: d' else (k', v') :: item_set k v d'
  end.

(** [dict_update(d, u)].  The inner loop is [for k, v in u.items()], on the
    dictionary [d] as it stands.  A leaf for [d] has no [get] and takes no
    item; a leaf for [u] has no [items].  [collections.Mapping] is the class
    of the dictionaries, as in the Python versions that have it under this
    name (before 3.10). *)
Fixpoint dict_update (d u : pyvalue) {struct u} : result pyvalue :=
  match u with
  | Leaf _ => Raise AttributeError
  | Mapping us =>
      (fix loop (d : pyvalue) (us : list (string * pyvalue)) {struct us}
         : result pyvalue :=
         match us with
         | [] => Ok d
         | (k, v) :: us' =>
             match v, d with
             | Mapping _, Leaf _ => Raise AttributeError
             | Mapping _, Mapping ds =>
                 r <- dict_update
                        (match item_get k ds with
                         | Some x => x
                         | None => Mapping []
                         end) v ;;
                 loop (Mapping (item_set k r ds)) us'
             | Leaf _, Leaf _ => Raise TypeError
             | Leaf _, Mapping ds => loop (Mapping (item_set k v ds)) us'
             end
         end) d us
  end.

(** the loop of [dict_update], by itself *)
Fixpoint dict_update_items (d : pyvalue) (us : list (string * pyvalue))
  : result pyvalue :=
  match us with
  | [] => Ok d
  | (k, v) :: us' =>
      match v, d with
      | Mapping _, Leaf _ => Raise AttributeError
      | Mapping _, Mapping ds =>
          r <- dict_update
                 (match item_get k ds with
                  | Some x => x
                  | None => Mapping []
                  end) v ;;
          dict_update_items (Mapping (item_set k r ds)) us'
      | Leaf _, Leaf _ => Raise TypeError
      | Leaf _, Mapping ds => dict_update_items (Mapping (item_set k v ds)) us'
      end
  end.

(** the keys of a dictionary are distinct, at every depth *)
Fixpoint well_keyed (v : pyvalue) : Prop :=
  match v with
  | Leaf _ => True
  | Mapping items =>
      NoDup (List.map fst items) /\
      (fix all (l : list (string * pyvalue)) : Prop :=
         match l with
         | [] => True
         | (_, x) :: l' => well_keyed x /\ all l'
         end) items
  end.

(** what [d.get(k, {})] gives *)
Definition get_or_empty (k : string) (ds : list (string * pyvalue)) : pyvalue :=
  match item_get k ds with
  | Some x => x
  | None => Mapping []
  end.

(** ** Records for the identifier of a name *)

(** the record with the keys [standard_name], [name] and [discriminant]
    as given, and no other *)
Definition identity_record (standard_name name discriminant : option string)
  : Utils.data_dict :=
  {| Utils.standard_name := standard_name;
     Utils.name := name;
     Utils.discriminant := discriminant;
     Utils.cell_methods := None;
     Utils.bounds := None;
     Utils.vertical_datum := None;
     Utils.interval := None |}.

(** the name the encoder picks: [standard_name], else [name], else the
    random letters in lower case *)
Definition chosen_name (rnd : string) (standard_name name : option string)
  : string :=
  match Utils.present standard_name with
  | Some s => s
  | None => match Utils.present name with
            | Some n => n
            | None => Str.lower rnd
            end
  end.

(** the record with a standard name, bounds and a vertical datum *)
Definition datum_record (standard_name bounds vertical_datum : string)
  : Utils.data_dict :=
  {| Utils.standard_name := Some standard_name;
     Utils.name := None;
     Utils.discriminant := None;
     Utils.cell_methods := None;
     Utils.bounds := Some bounds;
     Utils.vertical_datum := Some vertical_datum;
     Utils.interval := None |}.

(** ** A grid whose time axis has no units *)

Definition without_units (v : Var.t) : Var.t :=
  {| Var.name := Var.name v; Var.dtype := Var.dtype v;
     Var.dimensions := Var.dimensions v; Var.size := Var.size v;
     Var.cf_role := Var.cf_role v;
     Var.sample_dimension := Var.sample_dimension v;
     Var.instance_dimension := Var.instance_dimension v;
     Var.units := None; Var.calendar := Var.calendar v;
     Var.valid := Var.valid v; Var.values := Var.values v;
     Var.fill_value := Var.fill_value v |}.

Definition grid_without_units : Dataset.t :=
  let profile := Examples.variable "profile" int_t ["profile"]
                   (Some "profile_id") (Examples.plain [7; 9]%float) in
  let time := without_units
                (Examples.variable "time" float_t ["profile"] None
                   (Examples.plain [0; 60]%float)) in
  let lon := Examples.variable "lon" float_t ["profile"] None
               (Examples.plain [1; 2]%float) in
  let lat := Examples.variable "lat" float_t ["profile"] None
               (Examples.plain [1; 2]%float) in
  {| Dataset.featureType := Some (Text "profile");
     Dataset.dimensions := [("profile", 2); ("z", 2)];
     Dataset.variables :=
       [profile; time; lon; lat; Examples.depth; Examples.temperature];
     Dataset.t_axes := [time]; Dataset.x_axes := [lon];
     Dataset.y_axes := [lat]; Dataset.z_axes := [Examples.depth];
     Dataset.datavars := [Examples.temperature] |}.

(** ** A grid with a data variable named like a coordinate column *)

Definition range : Var.t :=
  Examples.variable "distance" float_t ["profile"; "z"] None
    (Examples.plain [1; 2; 3; 4]%float).

Definition grid_shadowed : Dataset.t := Examples.grid Examples.depth [range].

(** ** [fix_int_dtypes] *)

(** the element types [fix_int_dtypes] tells apart, and any other by its
    name *)
Inductive np_dtype : Type :=
| np_int32
| np_int64
| np_uint64
| np_float64
| np_other (name : string).

(** an array: its element type, and its elements when they are integers *)
Record ndarray : Type := {
  nd_dtype : np_dtype;
  nd_values : list Z
}.

(** [np.iinfo(np.int32)] *)
Definition int32_max : Z := 2147483647.
Definition int32_min : Z := (-2147483648).

Definition fix_int_dtypes (obj : ndarray) : np_dtype :=
  match nd_dtype obj with
  | np_int64 | np_uint64 =>
      if existsb (fun v => Z.ltb int32_max v) (nd_values obj)
         || existsb (fun v => Z.ltb v int32_min) (nd_values obj)
      then np_float64   (* Data can't fit in an int32 *)
      else np_int32
  | d => d
  end.

(** ** A record without its cell methods *)

Definition without_cell_methods (r : Utils.data_dict) : Utils.data_dict :=
  {| Utils.standard_name := Utils.standard_name r;
     Utils.name := Utils.name r;
     Utils.discriminant := Utils.discriminant r;
     Utils.cell_methods := None;
     Utils.bounds := Utils.bounds r;
     Utils.vertical_datum := Utils.vertical_datum r;
     Utils.interval := Utils.interval r |}.

(** ** The clauses of one cell method *)

(** the clause [key=value] *)
Definition clause (key value : string) : string := key ++ String "=" value.

(** the clauses the encoder writes for [method_record] *)
Definition method_clauses (bounds vertical_datum : option string)
  (domain method token : string) : list string :=
  ([clause "cell_methods"
      (domain ++ String ":" (subst_char " " "_" method))]
   ++ match Utils.present bounds with
      | Some b => [clause "bounds" b]
      | None => []
      end
   ++ match Utils.present vertical_datum with
      | Some v => [clause "vertical_datum" v]
      | None => []
      end
   ++ [clause "interval" token])%list.

(** ** Grids read by the flattener, whatever the names of their data
    variables *)



Section ReadableGrid.

Context `{External}.

(** As [profile_grid], without the condition on the names of the data
    variables: the dataset is classified as a padded grid, its profile
    variable holds one identifier per profile along a dimension of size
    [P], the other dimension of the vertical axis has size [Zs], every
    array is read whole, and the time axis has units. *)
Definition readable_grid (P Zs : nat) (ds : Dataset.t) : bool :=
  IncompleteMultidimensionalProfile.is_mine ds
  && match grid_shape ds with
     | Ok (pvar, p, z) =>
         Nat.eqb p P && Nat.eqb z Zs && Nat.eqb (Var.size pvar) P
     | Raise _ => false
     end
  && forallb whole (Dataset.by_cf_role ds "profile_id" ++ Dataset.t_axes ds
                    ++ Dataset.x_axes ds ++ Dataset.y_axes ds
                    ++ Dataset.z_axes ds ++ Dataset.datavars ds)%list
  && forallb (fun v => match Var.units v with
                       | Some _ => true
                       | None => false
                       end) (Dataset.t_axes ds).

(** the dictionary [df_data] after the loop over the data variables: a
    data variable named like a column already there takes its place *)
Definition built_columns (pvar tvar xvar yvar zvar : Var.t) (units : string)
  (P Zs : nat) (dvs : list Var.t) : list (string * list cell) :=
  fold_left
    (fun acc dv =>
       DataFrame.set_column (Var.name dv)
         (float_column (IncompleteMultidimensionalProfile.data_array dv)) acc)
    dvs
    [("t", IncompleteMultidimensionalProfile.t_array tvar units Zs);
     ("x", float_column (IncompleteMultidimensionalProfile.xy_array xvar Zs));
     ("y", float_column (IncompleteMultidimensionalProfile.xy_array yvar Zs));
     ("z", float_column (IncompleteMultidimensionalProfile.z_array zvar));
     ("profile",
      List.map (fun c : Z * bool => if snd c then NA else Int (fst c))
        (IncompleteMultidimensionalProfile.profile_array pvar P Zs));
     ("distance",
      float_column
        (IncompleteMultidimensionalProfile.distance_array
           (IncompleteMultidimensionalProfile.xy_array xvar Zs)
           (IncompleteMultidimensionalProfile.xy_array yvar Zs)))].

End ReadableGrid.







(* ================================================================= *)
(** * Properties *)

(** ** The result monad *)

Lemma bind_Ok {A B : Type} (r : result A) (k : A -> result B) (b : B) :
  bind r k = Ok b -> exists a, r = Ok a /\ k a = Ok b.
Proof.
  destruct r as [a|e]; simpl; intro E; [exists a; auto | discriminate].
Qed.

Lemma assert_Ok (b : bool) (u : unit) : assert b = Ok u -> b = true.
Proof. destruct b; simpl; [reflexivity | discriminate]. Qed.

(** ** [unique_justseen] and the geometry *)

Section JustSeen.

Context {A : Type} (eqb : A -> A -> bool).

Lemma groupby_from_firsts (tgt : A) (l : list A) :
  flat_map (fun kg : A * list A => firstn 1 (snd kg))
    (snd (groupby_from (fun x => x) eqb tgt l)) = justseen_from eqb tgt l.
Proof.
  revert tgt. induction l as [|x l IH]; intro tgt; simpl; [reflexivity|].
  destruct (eqb tgt x).
  - specialize (IH tgt).
    destruct (groupby_from (fun x => x) eqb tgt l) as [g gs]. exact IH.
  - specialize (IH x).
    destruct (groupby_from (fun x => x) eqb x l) as [g gs].
    simpl in *. now rewrite IH.
Qed.

Lemma unique_justseen_cons (x : A) (l : list A) :
  Utils.unique_justseen eqb (x :: l) = x :: justseen_from eqb x l.
Proof.
  unfold Utils.unique_justseen, groupby.
  pose proof (groupby_from_firsts x l) as E.
  destruct (groupby_from (fun x => x) eqb x l) as [g gs].
  simpl in *. now rewrite E.
Qed.

Lemma justseen_from_no_repeat (x : A) (l : list A) :
  no_repeat eqb (x :: l) -> justseen_from eqb x l = l.
Proof.
  revert x. induction l as [|y l IH]; intros x Hn; [reflexivity|].
  destruct Hn as [Hxy Hn]. simpl. rewrite Hxy. now rewrite IH.
Qed.

Lemma unique_justseen_no_repeat (l : list A) :
  no_repeat eqb l -> Utils.unique_justseen eqb l = l.
Proof.
  destruct l as [|x l]; [reflexivity|].
  intro Hn. rewrite unique_justseen_cons.
  now rewrite justseen_from_no_repeat.
Qed.

Lemma justseen_from_output (x : A) (l : list A) :
  no_repeat eqb (x :: justseen_from eqb x l).
Proof.
  revert x. induction l as [|y l IH]; intro x; simpl; [exact I|].
  destruct (eqb x y) eqn:E.
  - apply IH.
  - split; [exact E | apply IH].
Qed.

Lemma unique_justseen_output (l : list A) :
  no_repeat eqb (Utils.unique_justseen eqb l).
Proof.
  destruct l as [|x l]; [exact I|].
  rewrite unique_justseen_cons. apply justseen_from_output.
Qed.

End JustSeen.

Import IncompleteMultidimensionalProfile.


(** C7. On a table without rows the aggregator, with its default
    [geometries=True], raises [IndexError] at [df.iloc[0]]: on the empty
    table itself, and on the table flattened from a grid without data
    variables. *)
Theorem calculated_metadata_empty_table_raises :
  calculated_metadata_of (Examples.table []) true = Raise IndexError /\
  fmap DataFrame.nrows
    (to_dataframe (H := Examples.externals) Examples.grid_no_datavars true true)
  = Ok 0 /\
  calculated_metadata (H := Examples.externals)
    Examples.grid_no_datavars true true true = Raise IndexError.
Proof. repeat split; vm_compute; reflexivity. Qed.

(** without the geometries the same table is summarized, with no geometry *)
Example calculated_metadata_empty_table_no_geometries :
  fmap geometry (calculated_metadata_of (Examples.table []) false) = Ok None.
Proof. vm_compute. reflexivity. Qed.

(** ** The classifiers *)

(** the profile classifier turns every exception into [False] *)
Lemma profile_is_mine_total (dsg : Dataset.t) (e : exn) :
  is_mine_checks dsg = Raise e -> is_mine dsg = false.
Proof. unfold is_mine. now intros ->. Qed.

(** C4. The timeseries classifier lets an exception through: on a dataset
    with one [timeseries_id] variable and no [featureType] attribute,
    [is_mine] raises [AttributeError], where the profile classifier
    answers [False]. *)
Theorem timeseries_is_mine_raises :
  IncompleteMultidimensionalTimeseries.is_mine Examples.no_feature_type
  = Raise AttributeError /\
  is_mine Examples.no_feature_type = false.
Proof. split; vm_compute; reflexivity. Qed.

(** so it is for every dataset of that kind *)
Lemma timeseries_is_mine_without_feature_type (dsg : Dataset.t) :
  Dataset.featureType dsg = None ->
  List.length (Dataset.by_cf_role dsg "timeseries_id") = 1 ->
  IncompleteMultidimensionalTimeseries.is_mine dsg = Raise AttributeError.
Proof.
  intros Hf Hl.
  unfold IncompleteMultidimensionalTimeseries.is_mine,
    IncompleteMultidimensionalTimeseries.is_mine_checks.
  rewrite Hl, Hf. reflexivity.
Qed.

(** ** Strings *)

Lemma append_assoc (a b c : string) : (a ++ b) ++ c = a ++ (b ++ c).
Proof. induction a as [|x a IH]; simpl; [reflexivity | now rewrite IH]. Qed.

Lemma append_empty_r (a : string) : a ++ "" = a.
Proof. induction a as [|x a IH]; simpl; [reflexivity | now rewrite IH]. Qed.

Lemma has_append (c : ascii) (a b : string) :
  Str.has c (a ++ b) = Str.has c a || Str.has c b.
Proof.
  induction a as [|x a IH]; simpl; [reflexivity|].
  rewrite IH. now rewrite orb_assoc.
Qed.

Lemma contains_char (c : ascii) (s : string) :
  Str.contains (String c "") s = Str.has c s.
Proof.
  induction s as [|x s IH]; simpl; [reflexivity|].
  rewrite IH, andb_true_r. now rewrite Ascii.eqb_sym.
Qed.

Lemma split_not_nil (c : ascii) (s : string) : Str.split c s <> [].
Proof.
  induction s as [|x s IH]; simpl; [discriminate|].
  destruct (Ascii.eqb x c); [discriminate|].
  destruct (Str.split c s); discriminate.
Qed.

Lemma split_without (c : ascii) (s : string) :
  Str.has c s = false -> Str.split c s = [s].
Proof.
  induction s as [|x s IH]; simpl; [reflexivity|].
  intro Hh. apply orb_false_elim in Hh as [Hx Hs].
  rewrite Hx, (IH Hs). reflexivity.
Qed.

Lemma split_append (c : ascii) (a b : string) :
  Str.has c a = false ->
  Str.split c (a ++ String c b) = a :: Str.split c b.
Proof.
  induction a as [|x a IH]; simpl.
  - intros _. now rewrite Ascii.eqb_refl.
  - intro Hh. apply orb_false_elim in Hh as [Hx Ha].
    rewrite Hx, (IH Ha). reflexivity.
Qed.

Lemma join_split (c : ascii) (s : string) :
  Str.join (String c "") (Str.split c s) = s.
Proof.
  unfold Str.join.
  induction s as [|x s IH]; simpl; [reflexivity|].
  destruct (Ascii.eqb x c) eqn:E.
  - apply Ascii.eqb_eq in E. subst x.
    pose proof (split_not_nil c s) as Hn.
    destruct (Str.split c s) as [|w ws]; [contradiction|].
    simpl in *. now rewrite IH.
  - pose proof (split_not_nil c s) as Hn.
    destruct (Str.split c s) as [|w ws]; [contradiction|].
    simpl in *. destruct ws; simpl in *; now rewrite <- IH.
Qed.

Lemma has_join (c : ascii) (sep : string) (l : list string) :
  Str.has c sep = false ->
  Forall (fun s => Str.has c s = false) l ->
  Str.has c (Str.join sep l) = false.
Proof.
  intros Hsep Hl. unfold Str.join.
  induction Hl as [|s l Hs Hl IH]; simpl; [reflexivity|].
  destruct l as [|s' l']; [exact Hs|].
  rewrite !has_append, Hs, Hsep. exact IH.
Qed.

(** ** The order of a set *)

Lemma first_occurrences_In (l : list string) (x : string) :
  In x (Examples.first_occurrences l) <-> In x l.
Proof.
  induction l as [|y l IH]; simpl; [tauto|].
  rewrite filter_In, IH. split.
  - tauto.
  - intros [->|Hx]; [now left|].
    destruct (String.eqb_spec y x) as [->|Hn]; [now left|].
    right. split; [exact Hx|].
    destruct (String.eqb_spec y x); [contradiction | reflexivity].
Qed.

Lemma first_occurrences_NoDup (l : list string) :
  NoDup (Examples.first_occurrences l).
Proof.
  induction l as [|y l IH]; simpl; constructor.
  - rewrite filter_In. intros [_ Hy]. now rewrite String.eqb_refl in Hy.
  - now apply NoDup_filter.
Qed.

Lemma first_seen_set_of : set_of (H := Examples.first_seen).
Proof.
  intro l. split; [apply first_occurrences_NoDup|].
  intro x. apply first_occurrences_In.
Qed.


(** the set of one string, in any order *)
Lemma list_set_one `{SetOrder} (x : string) : set_of -> list_set [x] = [x].
Proof.
  intro Hs. destruct (Hs [x]) as [Hn Hi].
  destruct (list_set [x]) as [|y [|z l]].
  - exfalso. apply (Hi x). now left.
  - f_equal. destruct (proj1 (Hi y) (or_introl eq_refl)) as [E|[]]. now subst.
  - exfalso.
    assert (Ey : y = x)
      by (destruct (proj1 (Hi y) (or_introl eq_refl)) as [E|[]]; now subst).
    assert (Ez : z = x)
      by (destruct (proj1 (Hi z) (or_intror (or_introl eq_refl))) as [E|[]];
          now subst).
    subst. inversion Hn as [|? ? Hx _]. apply Hx. now left.
Qed.

(** ** Dictionaries *)

Lemma dict_get_set_other (k k' v : string) (d : dict) :
  k <> k' -> dict_get k (dict_set k' v d) = dict_get k d.
Proof.
  intro Hk. induction d as [|[k0 v0] d IH]; simpl.
  - destruct (String.eqb_spec k' k); [congruence | reflexivity].
  - destruct (String.eqb_spec k0 k'); simpl.
    + subst k0. destruct (String.eqb_spec k' k); [congruence | reflexivity].
    + destruct (String.eqb_spec k0 k); [reflexivity | exact IH].
Qed.

(** ** The identifier and its fields *)

Lemma from_string_urn (authority label component : string) :
  Str.has ":" authority = false ->
  Str.has ":" label = false ->
  IoosUrn.from_string
    (IoosUrn.urn {| IoosUrn.asset_type := "sensor";
                    IoosUrn.authority := authority;
                    IoosUrn.label := label;
                    IoosUrn.component := Some component |})
  = Some {| IoosUrn.asset_type := "sensor";
            IoosUrn.authority := authority;
            IoosUrn.label := label;
            IoosUrn.component := Some component |}.
Proof.
  intros Ha Hl. unfold IoosUrn.from_string, IoosUrn.urn. simpl.
  rewrite (split_append ":" authority _ Ha).
  rewrite (split_append ":" label _ Hl).
  pose proof (split_not_nil ":" component) as Hn.
  pose proof (join_split ":" component) as Hj.
  destruct (Str.split ":" component) as [|w ws]; [contradiction|].
  now rewrite Hj.
Qed.

(** ** Intervals without cell methods *)

Lemma sensor_urn_text (authority label component : string) :
  IoosUrn.urn {| IoosUrn.asset_type := "sensor";
                 IoosUrn.authority := authority;
                 IoosUrn.label := label;
                 IoosUrn.component := Some component |}
  = "urn:ioos:sensor:" ++ authority ++ ":" ++ label ++ ":" ++ component.
Proof. reflexivity. Qed.



Lemma lacks_has (c : ascii) (chars s : string) :
  lacks chars s = true -> Str.has c chars = true -> Str.has c s = false.
Proof.
  intros Hl Hc. induction s as [|x s IH]; [reflexivity|].
  simpl in Hl. apply andb_prop in Hl as [Hx Hs]. simpl.
  rewrite (IH Hs), orb_false_r.
  destruct (Ascii.eqb_spec x c) as [->|]; [|reflexivity].
  now rewrite Hc in Hx.
Qed.






(** ** The discriminant *)

Lemma section_step_keeps (k : string) (d d' : dict)
  (i i' c c' : list string) (section : string) :
  Utils.section_step (d, i, c) section = Ok (d', i', c') ->
  hd "" (Str.split "=" section) <> k ->
  dict_get k d' = dict_get k d.
Proof.
  unfold Utils.section_step. intros E Hk.
  apply bind_Ok in E as [[key values] [Eu E]].
  assert (Hkey : hd "" (Str.split "=" section) = key).
  { unfold Utils.unpack2 in Eu.
    destruct (Str.split "=" section) as [|a [|b [|? ?]]]; try discriminate.
    now inversion Eu. }
  simpl in E.
  destruct (key =? "interval"); [now inversion E|].
  destruct (key =? "cell_methods"); [now inversion E|].
  inversion E; subst. apply dict_get_set_other. congruence.
Qed.

Lemma sections_loop_keeps (k : string) (sections : list string) :
  forall (d d' : dict) (i i' c c' : list string),
  Utils.sections_loop (d, i, c) sections = Ok (d', i', c') ->
  ~ In k (List.map (fun s => hd "" (Str.split "=" s)) sections) ->
  dict_get k d' = dict_get k d.
Proof.
  induction sections as [|s sections IH]; intros d d' i i' c c' E Hk.
  - now inversion E.
  - simpl in E. apply bind_Ok in E as [[[d1 i1] c1] [E1 E2]].
    simpl in Hk.
    rewrite (IH _ _ _ _ _ _ E2); [|tauto].
    apply (section_step_keeps k _ _ _ _ _ _ _ E1). tauto.
Qed.

Lemma dict_mem_set (k k' v : string) (d : dict) :
  dict_mem k d = true -> dict_mem k (dict_set k' v d) = true.
Proof.
  unfold dict_mem. induction d as [|[k0 v0] d IH]; simpl; [discriminate|].
  destruct (String.eqb_spec k0 k') as [->|Hn]; simpl.
  - now destruct (k' =? k).
  - destruct (k0 =? k); [reflexivity | exact IH].
Qed.

Lemma section_step_mem (k : string) (d d' : dict)
  (i i' c c' : list string) (section : string) :
  Utils.section_step (d, i, c) section = Ok (d', i', c') ->
  dict_mem k d = true -> dict_mem k d' = true.
Proof.
  unfold Utils.section_step. intros E Hk.
  apply bind_Ok in E as [[key values] [_ E]]. simpl in E.
  destruct (key =? "interval"); [now inversion E; subst|].
  destruct (key =? "cell_methods"); [now inversion E; subst|].
  inversion E; subst. now apply dict_mem_set.
Qed.

Lemma sections_loop_mem (k : string) (sections : list string) :
  forall (d d' : dict) (i i' c c' : list string),
  Utils.sections_loop (d, i, c) sections = Ok (d', i', c') ->
  dict_mem k d = true -> dict_mem k d' = true.
Proof.
  induction sections as [|s sections IH]; intros d d' i i' c c' E Hk.
  - now inversion E; subst.
  - simpl in E. apply bind_Ok in E as [[[d1 i1] c1] [E1 E2]].
    apply (IH _ _ _ _ _ _ E2).
    now apply (section_step_mem k _ _ _ _ _ _ _ E1).
Qed.

(** C10 (amended). Whenever [-] occurs in the component of a sensor
    identifier, after [#] as well as before it, the decoder reports a
    discriminant; when the name before [#] holds no [-], and no clause
    after [#] is keyed [discriminant] or [standard_name], that discriminant
    and the standard name returned are both the whole name before [#]. *)
Theorem discriminant_from_any_hyphen
  (urn component : string) (u : IoosUrn.t) (combine_interval : bool) (d : dict) :
  IoosUrn.from_string urn = Some u ->
  IoosUrn.asset_type u = "sensor" ->
  IoosUrn.component u = Some component ->
  Utils.dictify_urn urn combine_interval = Ok d ->
  Str.contains "-" component = true ->
  dict_mem "discriminant" d = true /\
  (Str.has "-" (base_name component) = false ->
   ~ In "discriminant" (clause_keys component) ->
   ~ In "standard_name" (clause_keys component) ->
   dict_get "discriminant" d = Some (base_name component) /\
   dict_get "standard_name" d = Some (base_name component)).
Proof.
  intros Hf Ha Hc E Hm.
  unfold Utils.dictify_urn in E. rewrite Hf, Ha, Hc in E.
  change (negb ("sensor" =? "sensor")) with false in E. cbv iota in E.
  apply bind_Ok in E as [[sn extras] [E1 E]].
  assert (Hsplit : base_name component = sn
                   /\ nth 1 (Str.split "#" component) "" = extras).
  { unfold base_name. destruct (Str.contains "#" component) eqn:Hh.
    - unfold Utils.unpack2 in E1.
      destruct (Str.split "#" component) as [|a [|b [|? ?]]]; try discriminate.
      inversion E1; subst. now split.
    - inversion E1; subst. rewrite contains_char in Hh.
      rewrite (split_without "#" _ Hh). now split. }
  destruct Hsplit as [Hbase Hext].
  unfold clause_keys. rewrite Hext, Hbase. clear E1 Hbase Hext.
  rewrite Hm in E.
  apply bind_Ok in E as [d1 [E1 E]].
  apply bind_Ok in E1 as [sn0 [E0 E1]].
  assert (M1 : dict_mem "discriminant" d1 = true)
    by (inversion E1; subst; reflexivity).
  assert (H1 : Str.has "-" sn = false ->
               dict_get "discriminant" d1 = Some sn
               /\ dict_get "standard_name" d1 = Some sn).
  { intro Hb. rewrite (split_without "-" _ Hb) in E0, E1.
    inversion E0; subst. inversion E1; subst. split; reflexivity. }
  clear E0 E1.
  apply bind_Ok in E as [[[d2 ints] cms] [E2 E]].
  assert (M2 : dict_mem "discriminant" d2 = true).
  { destruct extras as [|c extras]; [now inversion E2; subst|].
    now apply (sections_loop_mem _ _ _ _ _ _ _ _ E2). }
  assert (H2 : forall k,
             ~ In k (List.map (fun s => hd "" (Str.split "=" s))
                       (Str.split ";" extras)) ->
             dict_get k d2 = dict_get k d1).
  { intros k Hk. destruct extras as [|c extras]; [now inversion E2; subst|].
    eapply sections_loop_keeps; eauto. }
  clear E2.
  apply bind_Ok in E as [d3 [E3 E]].
  assert (M3 : dict_mem "discriminant" d3 = true).
  { destruct combine_interval.
    - destruct cms as [|cm cms], ints as [|iv ints]; try discriminate;
        try (destruct (Nat.eqb _ _));
        inversion E3; subst; try assumption; now apply dict_mem_set.
    - inversion E3; subst. now do 2 apply dict_mem_set. }
  assert (H3 : dict_get "discriminant" d3 = dict_get "discriminant" d2
               /\ dict_get "standard_name" d3 = dict_get "standard_name" d2).
  { destruct combine_interval.
    - destruct cms as [|cm cms], ints as [|iv ints]; try discriminate;
        try (destruct (Nat.eqb _ _));
        inversion E3; subst; try (now split);
        split; apply dict_get_set_other; discriminate.
    - inversion E3; subst.
      split; rewrite !dict_get_set_other; try discriminate; reflexivity. }
  clear E3.
  assert (M4 : dict_mem "discriminant" d = true).
  { destruct (dict_get "vertical_datum" d3); inversion E; subst;
      try assumption; now apply dict_mem_set. }
  assert (H4 : dict_get "discriminant" d = dict_get "discriminant" d3
               /\ dict_get "standard_name" d = dict_get "standard_name" d3).
  { destruct (dict_get "vertical_datum" d3); inversion E; subst;
      try (now split); split; apply dict_get_set_other; discriminate. }
  split; [exact M4|].
  intros Hb Hk1 Hk2.
  destruct (H1 Hb) as [A1 B1], H3 as [A3 B3], H4 as [A4 B4].
  pose proof (H2 _ Hk1) as A2. pose proof (H2 _ Hk2) as B2.
  split; congruence.
Qed.

Lemma discriminant_from_any_hyphen_witness :
  dict_mem "discriminant"
    [("standard_name", "wind_speed"); ("discriminant", "wind_speed");
     ("bounds", "wind-bounds")] = true /\
  dict_get "discriminant"
    [("standard_name", "wind_speed"); ("discriminant", "wind_speed");
     ("bounds", "wind-bounds")] = Some (base_name "wind_speed#bounds=wind-bounds") /\
  dict_get "standard_name"
    [("standard_name", "wind_speed"); ("discriminant", "wind_speed");
     ("bounds", "wind-bounds")] = Some (base_name "wind_speed#bounds=wind-bounds").
Proof.
  destruct (discriminant_from_any_hyphen
              "urn:ioos:sensor:axiom:foo:wind_speed#bounds=wind-bounds"
              "wind_speed#bounds=wind-bounds"
              {| IoosUrn.asset_type := "sensor"; IoosUrn.authority := "axiom";
                 IoosUrn.label := "foo";
                 IoosUrn.component := Some "wind_speed#bounds=wind-bounds" |}
              true
              [("standard_name", "wind_speed"); ("discriminant", "wind_speed");
               ("bounds", "wind-bounds")]
              eq_refl eq_refl eq_refl eq_refl eq_refl) as [M G].
  split; [exact M|].
  apply G; [reflexivity | |]; simpl; intros [E|[]]; discriminate E.
Defined.

(** against the specification: a clause keyed [discriminant] replaces the
    discriminant taken from the name, so that a [-] after [#] alone, with
    none in the name, gives a discriminant that is not the standard name *)
Lemma discriminant_replaced_by_clause :
  Utils.dictify_urn "urn:ioos:sensor:axiom:foo:wind_speed#discriminant=x-y" true
  = Ok [("standard_name", "wind_speed"); ("discriminant", "x-y")] /\
  Str.contains "-" "wind_speed#discriminant=x-y" = true /\
  Str.contains "-" "wind_speed" = false.
Proof. repeat split; vm_compute; reflexivity. Qed.

(** ** The classifier of profile grids *)

Ltac bind_step E :=
  let a := fresh "a" in
  let Ea := fresh "E" a in
  apply bind_Ok in E; destruct E as [a [Ea E]].

Lemma singleton_list {A : Type} (l : list A) (a : A) :
  Nat.eqb (List.length l) 1 = true -> getitem l 0 = Ok a -> l = [a].
Proof.
  destruct l as [|x [|y l]]; simpl; try discriminate.
  intros _ E. now inversion E.
Qed.

Lemma datavars_checks_sizes (p_dim z_dim : string * nat) (dvs : list Var.t)
  (u : unit) :
  datavars_checks p_dim z_dim dvs = Ok u ->
  Forall (fun dv => Var.size dv = snd z_dim * snd p_dim) dvs.
Proof.
  induction dvs as [|dv dvs IH]; intro E; [constructor|].
  simpl in E. do 4 bind_step E.
  constructor; [|now apply IH].
  apply assert_Ok in Ea2. now apply Nat.eqb_eq.
Qed.

Lemma is_mine_inv (ds : Dataset.t) :
  is_mine ds = true ->
  exists pvar tvar xvar yvar zvar pd p_dim zd z_dim,
    Dataset.by_cf_role ds "profile_id" = [pvar] /\
    Dataset.t_axes ds = [tvar] /\ Dataset.x_axes ds = [xvar] /\
    Dataset.y_axes ds = [yvar] /\ Dataset.z_axes ds = [zvar] /\
    Var.size tvar = Var.size pvar /\ Var.size xvar = Var.size pvar /\
    Var.size yvar = Var.size pvar /\
    getitem (Var.dimensions pvar) 0 = Ok pd /\
    Dataset.dimension ds pd = Ok p_dim /\
    getitem (filter (fun d => negb (String.eqb d (fst p_dim)))
               (Var.dimensions zvar)) 0 = Ok zd /\
    Dataset.dimension ds zd = Ok z_dim /\
    Forall (fun dv => Var.size dv = snd z_dim * snd p_dim)
      (Dataset.datavars ds ++ [zvar])%list.
Proof.
  unfold is_mine. destruct (is_mine_checks ds) as [u|e] eqn:E; [|discriminate].
  intros _. unfold is_mine_checks in E.
  do 9 bind_step E.
  destruct (match Var.dtype a7 with bytes_t => (2, 3) | _ => (1, 2) end)
    as [mn mx].
  do 12 bind_step E.
  apply assert_Ok in Ea, Ea3, Ea4, Ea5, Ea6, Ea13, Ea14, Ea15.
  pose proof (singleton_list _ _ Ea Ea7) as Hp.
  pose proof (singleton_list _ _ Ea3 Ea9) as Ht.
  pose proof (singleton_list _ _ Ea4 Ea10) as Hx.
  pose proof (singleton_list _ _ Ea5 Ea11) as Hy.
  pose proof (singleton_list _ _ Ea6 Ea12) as Hz.
  apply Nat.eqb_eq in Ea13, Ea14, Ea15.
  exists a7, a9, a10, a11, a12, a16, a17, a18, a19.
  repeat (split; [assumption|]).
  now apply (datavars_checks_sizes _ _ _ u).
Qed.

(** ** Arrays *)

Lemma repeat_each_length {A : Type} (n : nat) (l : list A) :
  List.length (repeat_each n l) = List.length l * n.
Proof.
  unfold repeat_each. induction l as [|a l IH]; simpl; [reflexivity|].
  now rewrite length_app, repeat_length, IH.
Qed.



Lemma cumsum_from_length (acc : float) (a : list float) :
  List.length (cumsum_from acc a) = List.length a.
Proof.
  revert acc. induction a as [|v a IH]; intro acc; simpl; [reflexivity|].
  now rewrite IH.
Qed.

Lemma cumsum_length (a : list float) : List.length (cumsum a) = List.length a.
Proof. destruct a; simpl; [reflexivity | now rewrite cumsum_from_length]. Qed.

Lemma fix_invalid_length (fv : float) (a : masked_array) :
  List.length (fix_invalid fv a) = List.length a.
Proof. apply length_map. Qed.

Lemma float_column_length (a : masked_array) :
  List.length (float_column a) = List.length a.
Proof. apply length_map. Qed.

Lemma removelast_length {A : Type} (l : list A) :
  List.length (removelast l) = List.length l - 1.
Proof.
  induction l as [|a l IH]; [reflexivity|].
  destruct l as [|b l]; [reflexivity|].
  change (removelast (a :: b :: l)) with (a :: removelast (b :: l)).
  simpl List.length in *. rewrite IH. lia.
Qed.

Lemma tl_length {A : Type} (l : list A) :
  List.length (tl l) = List.length l - 1.
Proof. destruct l; simpl; lia. Qed.


Lemma positions_map_seq (f : nat -> bool) (k n : nat) :
  DataFrame.positions k (List.map f (seq k n)) = filter f (seq k n).
Proof.
  revert k. induction n as [|n IH]; intro k; simpl; [reflexivity|].
  rewrite IH. reflexivity.
Qed.

Lemma map_nth_seq {A : Type} (l : list A) (d : A) :
  List.map (fun i => nth i l d) (seq 0 (List.length l)) = l.
Proof.
  apply (nth_ext _ _ d d).
  - now rewrite length_map, length_seq.
  - intros i Hi. rewrite length_map, length_seq in Hi.
    rewrite (nth_indep _ d (nth 0 l d)) by (now rewrite length_map, length_seq).
    rewrite (map_nth (fun i => nth i l d)), seq_nth by exact Hi.
    reflexivity.
Qed.

(** ** Columns *)

Lemma distinct_names_NoDup (l : list string) :
  distinct_names l = true -> NoDup l.
Proof.
  induction l as [|x l IH]; simpl; intro E; constructor.
  - apply andb_prop in E as [E _]. intro Hin.
    apply negb_true_iff in E.
    assert (existsb (String.eqb x) l = true) as Hx.
    { apply existsb_exists. exists x. split; [exact Hin | apply String.eqb_refl]. }
    congruence.
  - apply andb_prop in E as [_ E]. now apply IH.
Qed.

Lemma column_None (name : string) (cols : list (string * list cell)) :
  ~ In name (List.map fst cols) -> DataFrame.column name cols = None.
Proof.
  induction cols as [|[n c] cols IH]; simpl; intro Hn; [reflexivity|].
  destruct (String.eqb_spec n name); [tauto|]. apply IH. tauto.
Qed.

Lemma set_column_fresh (name : string) (c : list cell)
  (cols : list (string * list cell)) :
  ~ In name (List.map fst cols) ->
  DataFrame.set_column name c cols = (cols ++ [(name, c)])%list.
Proof.
  induction cols as [|[n c'] cols IH]; simpl; intro Hn; [reflexivity|].
  destruct (String.eqb_spec n name); [tauto|]. rewrite IH; tauto.
Qed.

Lemma column_app_later (name : string) (cols more : list (string * list cell)) :
  ~ In name (List.map fst cols) ->
  DataFrame.column name (cols ++ more)%list = DataFrame.column name more.
Proof.
  induction cols as [|[n c] cols IH]; simpl; intro Hn; [reflexivity|].
  destruct (String.eqb_spec n name); [tauto|]. apply IH. tauto.
Qed.

Lemma column_map_NoDup {A : Type} (name_of : A -> string)
  (col_of : A -> list cell) (l : list A) (a : A) :
  NoDup (List.map name_of l) -> In a l ->
  DataFrame.column (name_of a) (List.map (fun x => (name_of x, col_of x)) l)
  = Some (col_of a).
Proof.
  induction l as [|x l IH]; simpl; intros Hnd Hin; [contradiction|].
  inversion Hnd as [|? ? Hx Hl]; subst.
  destruct Hin as [->|Hin]; [now rewrite String.eqb_refl|].
  destruct (String.eqb_spec (name_of x) (name_of a)) as [E|_]; [|now apply IH].
  exfalso. apply Hx. rewrite E. now apply in_map.
Qed.

(** ** The flattener on a padded grid *)

Section Flatten.

Context `{External}.


Lemma data_array_length (dv : Var.t) :
  List.length (data_array dv) = List.length (Var.values dv).
Proof. unfold data_array, ma_round, fix_invalid. now rewrite !length_map. Qed.





Lemma data_mask_nth (dv : Var.t) (i : nat) :
  i < List.length (Var.values dv) ->
  nth i (List.map snd (data_array dv)) false = invalid_at dv i.
Proof.
  intro Hi. unfold invalid_at, data_array, fix_invalid, ma_round.
  rewrite !map_map.
  destruct (nth_error (Var.values dv) i) as [c|] eqn:E.
  - rewrite (nth_error_nth _ _ _ (map_nth_error _ _ _ E)).
    simpl. destruct (is_finite (around 3 (fst c))); simpl;
      [now rewrite orb_false_r | now rewrite orb_true_r].
  - apply nth_error_None in E. lia.
Qed.

Lemma distance_array_length (x y : masked_array) :
  List.length x = List.length y -> 1 <= List.length x ->
  List.length (distance_array x y) = List.length x.
Proof.
  intros Hxy Hx. unfold distance_array, track_steps.
  rewrite fix_invalid_length, length_map, cumsum_length. simpl.
  rewrite length_map, !length_combine, !removelast_length, !tl_length,
    !length_map.
  lia.
Qed.

Lemma datavars_loop_spec (dvs : list Var.t) :
  forall (b : list bool) (data : list (string * list cell)) (n : nat),
  List.length b = n ->
  Forall (fun dv => List.length (Var.values dv) = n) dvs ->
  exists b',
    datavars_loop dvs b data
    = Ok (b', fold_left (fun acc dv =>
                           DataFrame.set_column (Var.name dv)
                             (float_column (data_array dv)) acc) dvs data)
    /\ List.length b' = n
    /\ forall i, i < n -> nth i b' false = nth i b false && empty_row dvs i.
Proof.
  induction dvs as [|dv dvs IH]; intros b data n Hb Hdvs.
  - exists b. repeat split; [exact Hb|].
    intros i _. simpl. now rewrite andb_true_r.
  - inversion Hdvs as [|? ? Hdv Hrest]; subst.
    simpl. unfold mask_and.
    rewrite length_map, data_array_length, Hdv, Nat.eqb_refl. cbn [bind].
    set (b1 := List.map (fun p : bool * bool => fst p && snd p)
                 (combine b (List.map snd (data_array dv)))).
    assert (Hb1 : List.length b1 = List.length b).
    { unfold b1. rewrite length_map, length_combine, length_map,
        data_array_length, Hdv. lia. }
    destruct (IH b1 (DataFrame.set_column (Var.name dv)
                       (float_column (data_array dv)) data)
                (List.length b) Hb1 Hrest) as [b' [E [Hl Hn]]].
    exists b'. repeat split; [exact E | exact Hl |].
    intros i Hi. rewrite (Hn i Hi). simpl.
    rewrite andb_assoc. f_equal.
    unfold b1.
    rewrite (nth_indep _ false (fst (false, false) && snd (false, false)))
      by (fold b1; lia).
    rewrite (map_nth (fun p : bool * bool => fst p && snd p)).
    rewrite combine_nth
      by (now rewrite length_map, data_array_length, Hdv).
    simpl. f_equal. apply data_mask_nth. lia.
Qed.

Lemma fold_set_column_fresh (col_of : Var.t -> list cell) (dvs : list Var.t) :
  forall data : list (string * list cell),
  NoDup (List.map fst data ++ List.map Var.name dvs)%list ->
  fold_left (fun acc dv => DataFrame.set_column (Var.name dv) (col_of dv) acc)
    dvs data
  = (data ++ List.map (fun dv => (Var.name dv, col_of dv)) dvs)%list.
Proof.
  induction dvs as [|dv dvs IH]; intros data Hnd; simpl.
  - now rewrite app_nil_r.
  - simpl in Hnd. pose proof (NoDup_remove_2 _ _ _ Hnd) as Hfresh.
    rewrite set_column_fresh
      by (intro Hin; apply Hfresh; apply in_or_app; now left).
    rewrite IH.
    + now rewrite <- app_assoc.
    + rewrite map_app. simpl. now rewrite <- app_assoc.
Qed.

End Flatten.

Section FlattenGrid.

Context `{External}.

Lemma profile_array_length (pvar : Var.t) (ps zs : nat) :
  List.length (Var.values pvar) = ps ->
  List.length (profile_array pvar ps zs) = ps * zs.
Proof.
  intro Hp. unfold profile_array. rewrite repeat_each_length.
  destruct (astype_int pvar); now rewrite length_map, ?length_seq, ?Hp.
Qed.

Lemma t_array_length (tvar : Var.t) (units : string) (zs : nat) :
  List.length (t_array tvar units zs) = List.length (Var.values tvar) * zs.
Proof. unfold t_array. now rewrite repeat_each_length, length_map. Qed.

Lemma xy_array_length (var : Var.t) (zs : nat) :
  List.length (xy_array var zs) = List.length (Var.values var) * zs.
Proof.
  unfold xy_array, ma_round.
  now rewrite length_map, repeat_each_length, fix_invalid_length.
Qed.

Lemma z_array_length (zvar : Var.t) :
  List.length (z_array zvar) = List.length (Var.values zvar).
Proof. unfold z_array, ma_round. now rewrite length_map, fix_invalid_length. Qed.

Lemma make_uniform (data : list (string * list cell)) (n : nat) :
  data <> [] -> Forall (fun nc => List.length (snd nc) = n) data ->
  DataFrame.make data
  = Ok {| DataFrame.index := seq 0 n; DataFrame.columns := data |}.
Proof.
  intros Hn Hu. destruct data as [|[k c] rest]; [contradiction|].
  apply Forall_cons_iff in Hu as [Hc Hrest]. simpl in Hc.
  unfold DataFrame.make.
  assert (E : forallb (fun nc => Nat.eqb (List.length (snd nc)) (List.length c))
                rest = true).
  { apply forallb_forall. intros nc Hin. apply Nat.eqb_eq.
    rewrite Forall_forall in Hrest. now rewrite (Hrest nc Hin). }
  now rewrite E, Hc.
Qed.

Lemma set_column_uniform (name : string) (c : list cell)
  (cols : list (string * list cell)) (n : nat) :
  List.length c = n ->
  Forall (fun nc => List.length (snd nc) = n) cols ->
  Forall (fun nc => List.length (snd nc) = n) (DataFrame.set_column name c cols).
Proof.
  intros Hc Hu. induction Hu as [|[k c'] cols Hk Hu IH]; simpl.
  - constructor; [exact Hc | constructor].
  - destruct (String.eqb k name); constructor; auto.
Qed.

Lemma set_column_not_nil (name : string) (c : list cell)
  (cols : list (string * list cell)) :
  DataFrame.set_column name c cols <> [].
Proof.
  destruct cols as [|[k c'] cols]; simpl; [discriminate|].
  destruct (String.eqb k name); discriminate.
Qed.

Lemma fold_set_column_uniform (col_of : Var.t -> list cell) (n : nat)
  (dvs : list Var.t) :
  Forall (fun dv => List.length (col_of dv) = n) dvs ->
  forall data : list (string * list cell),
  data <> [] -> Forall (fun nc => List.length (snd nc) = n) data ->
  let data' :=
    fold_left (fun acc dv => DataFrame.set_column (Var.name dv) (col_of dv) acc)
      dvs data in
  data' <> [] /\ Forall (fun nc => List.length (snd nc) = n) data'.
Proof.
  induction 1 as [|dv dvs Hdv _ IH]; intros data Hn Hu; simpl.
  - now split.
  - apply IH; [apply set_column_not_nil | now apply set_column_uniform].
Qed.


(** On a grid the flattener reads, [to_dataframe] returns, and what it
    returns has the columns of [df_data] and one row per cell of the grid,
    pruned as asked. *)
Lemma to_dataframe_readable (P Zs : nat) (ds : Dataset.t) :
  1 <= P -> 1 <= Zs -> readable_grid P Zs ds = true ->
  exists pvar tvar xvar yvar zvar units,
    Dataset.by_cf_role ds "profile_id" = [pvar] /\
    Dataset.t_axes ds = [tvar] /\ Dataset.x_axes ds = [xvar] /\
    Dataset.y_axes ds = [yvar] /\ Dataset.z_axes ds = [zvar] /\
    List.length (Var.values pvar) = P /\
    List.length (Var.values tvar) = P /\
    List.length (Var.values xvar) = P /\
    List.length (Var.values yvar) = P /\
    List.length (Var.values zvar) = P * Zs /\
    Forall (fun dv => List.length (Var.values dv) = P * Zs) (Dataset.datavars ds) /\
    forall clean_cols clean_rows,
      to_dataframe ds clean_cols clean_rows
      = Ok (pruned clean_cols clean_rows (Dataset.datavars ds)
              {| DataFrame.index := seq 0 (P * Zs);
                 DataFrame.columns :=
                   built_columns pvar tvar xvar yvar zvar units P Zs
                     (Dataset.datavars ds) |}).
Proof.
  intros HP HZ Hg. unfold readable_grid in Hg.
  apply andb_prop in Hg as [Hg Hunits].
  apply andb_prop in Hg as [Hg Hwhole].
  apply andb_prop in Hg as [Hmine Hshape].
  destruct (is_mine_inv ds Hmine)
    as (pvar & tvar & xvar & yvar & zvar & pd & p_dim & zd & z_dim
        & Hp & Ht & Hx & Hy & Hz & Hst & Hsx & Hsy & Hpd & Hpdim & Hzd & Hzdim
        & Hsizes).
  unfold grid_shape in Hshape. rewrite Hp, Hz in Hshape.
  cbn [getitem nth_error bind] in Hshape.
  rewrite Hpd in Hshape. cbn [bind] in Hshape.
  rewrite Hpdim in Hshape. cbn [bind] in Hshape.
  rewrite Hzd in Hshape. cbn [bind] in Hshape.
  rewrite Hzdim in Hshape. cbn [bind] in Hshape.
  apply andb_prop in Hshape as [Hshape HsP].
  apply andb_prop in Hshape as [HpP HzZ].
  apply Nat.eqb_eq in HsP, HpP, HzZ.
  rewrite Hp, Ht, Hx, Hy, Hz in Hwhole. rewrite Ht in Hunits.
  rewrite forallb_forall in Hwhole.
  assert (Hlen : forall v, In v ([pvar] ++ [tvar] ++ [xvar] ++ [yvar] ++ [zvar]
                                 ++ Dataset.datavars ds)%list ->
                           List.length (Var.values v) = Var.size v).
  { intros v Hv. apply Nat.eqb_eq. now apply Hwhole. }
  assert (Lp : List.length (Var.values pvar) = P).
  { rewrite Hlen by (simpl; tauto). exact HsP. }
  assert (Lt : List.length (Var.values tvar) = P).
  { rewrite Hlen by (simpl; tauto). congruence. }
  assert (Lx : List.length (Var.values xvar) = P).
  { rewrite Hlen by (simpl; tauto). congruence. }
  assert (Ly : List.length (Var.values yvar) = P).
  { rewrite Hlen by (simpl; tauto). congruence. }
  rewrite Forall_forall in Hsizes.
  assert (Lz : List.length (Var.values zvar) = P * Zs).
  { rewrite Hlen by (simpl; tauto).
    rewrite (Hsizes zvar) by (apply in_or_app; right; now left). lia. }
  assert (Ld : Forall (fun dv => List.length (Var.values dv) = P * Zs)
                 (Dataset.datavars ds)).
  { apply Forall_forall. intros dv Hdv.
    rewrite Hlen by (simpl; tauto).
    rewrite (Hsizes dv) by (apply in_or_app; now left). lia. }
  simpl in Hunits. rewrite andb_true_r in Hunits.
  destruct (Var.units tvar) as [units|] eqn:Hu; [|discriminate].
  exists pvar, tvar, xvar, yvar, zvar, units.
  repeat (split; [assumption|]).
  intros clean_cols clean_rows.
  unfold to_dataframe. rewrite Hp, Ht, Hx, Hy, Hz.
  cbn [getitem nth_error bind].
  rewrite Hpd. cbn [bind]. rewrite Hpdim. cbn [bind].
  rewrite Hzd. cbn [bind]. rewrite Hzdim. cbn [bind].
  rewrite Hu. cbn [getattr bind]. rewrite HpP, HzZ.
  set (coords := [("t", t_array tvar units Zs); _; _; _; _; _]).
  assert (Lt' : List.length (t_array tvar units Zs) = P * Zs)
    by (now rewrite t_array_length, Lt).
  destruct (datavars_loop_spec (Dataset.datavars ds)
              (List.repeat true (List.length (t_array tvar units Zs)))
              coords (P * Zs))
    as [b' [Eloop [Lb' Hb']]];
    [now rewrite repeat_length | exact Ld |].
  rewrite Eloop. cbn [bind].
  assert (Hcoords : Forall (fun nc => List.length (snd nc) = P * Zs) coords).
  { unfold coords. repeat constructor; cbn [snd];
      rewrite ?float_column_length, ?length_map; try exact Lt'.
    - now rewrite xy_array_length, Lx.
    - now rewrite xy_array_length, Ly.
    - now rewrite z_array_length, Lz.
    - now apply profile_array_length.
    - rewrite distance_array_length;
        rewrite !xy_array_length, ?Lx, ?Ly; try reflexivity; nia. }
  assert (Hdata : Forall (fun dv => List.length (float_column (data_array dv))
                                    = P * Zs) (Dataset.datavars ds)).
  { apply Forall_forall. intros dv Hdv.
    rewrite float_column_length, data_array_length.
    rewrite Forall_forall in Ld. now apply Ld. }
  destruct (fold_set_column_uniform (fun dv => float_column (data_array dv))
              (P * Zs) (Dataset.datavars ds) Hdata coords)
    as [Hnn Huni]; [discriminate | exact Hcoords |].
  rewrite (make_uniform _ (P * Zs) Hnn Huni). cbn [bind].
  fold coords.
  unfold pruned.
  set (df1 := if clean_cols then DataFrame.dropna_columns _ else _).
  assert (Hn1 : DataFrame.nrows df1 = P * Zs).
  { unfold df1. destruct clean_cols; unfold DataFrame.nrows; simpl;
      apply length_seq. }
  destruct clean_rows; [|reflexivity].
  unfold DataFrame.iloc_mask. rewrite length_map, Lb', Hn1, Nat.eqb_refl.
  f_equal. f_equal.
  assert (Eb : List.map negb b'
               = List.map (fun i => negb (empty_row (Dataset.datavars ds) i))
                   (seq 0 (P * Zs))).
  { apply (nth_ext _ _ true true).
    - now rewrite !length_map, length_seq.
    - intros i Hi. rewrite length_map, Lb' in Hi.
      rewrite (nth_indep _ true (negb false)) by (now rewrite length_map, Lb').
      rewrite (map_nth negb), (Hb' i Hi).
      rewrite (nth_indep _ true
                 (negb (empty_row (Dataset.datavars ds) 0)))
        by (now rewrite length_map, length_seq).
      rewrite (map_nth (fun i => negb (empty_row (Dataset.datavars ds) i))).
      rewrite seq_nth by exact Hi. simpl.
      rewrite (nth_indep _ false true) by (now rewrite repeat_length, Lt').
      now rewrite nth_repeat. }
  rewrite Eb. apply positions_map_seq.
Qed.

(** On a padded grid [to_dataframe] returns, and what it returns is the
    flat frame, pruned as asked. *)
Lemma to_dataframe_grid (P Zs : nat) (ds : Dataset.t) :
  1 <= P -> 1 <= Zs -> profile_grid P Zs ds = true ->
  exists pvar tvar xvar yvar zvar units,
    Dataset.by_cf_role ds "profile_id" = [pvar] /\
    Dataset.t_axes ds = [tvar] /\ Dataset.x_axes ds = [xvar] /\
    Dataset.y_axes ds = [yvar] /\ Dataset.z_axes ds = [zvar] /\
    List.length (Var.values pvar) = P /\
    List.length (Var.values tvar) = P /\
    List.length (Var.values xvar) = P /\
    List.length (Var.values yvar) = P /\
    List.length (Var.values zvar) = P * Zs /\
    Forall (fun dv => List.length (Var.values dv) = P * Zs) (Dataset.datavars ds) /\
    NoDup (coordinate_names ++ List.map Var.name (Dataset.datavars ds))%list /\
    forall clean_cols clean_rows,
      to_dataframe ds clean_cols clean_rows
      = Ok (pruned clean_cols clean_rows (Dataset.datavars ds)
              (flat_frame pvar tvar xvar yvar zvar units P Zs
                 (Dataset.datavars ds))).
Proof.
  intros HP HZ Hg. unfold profile_grid in Hg.
  apply andb_prop in Hg as [Hg Hnames].
  pose proof (distinct_names_NoDup _ Hnames) as Hnd.
  destruct (to_dataframe_readable P Zs ds HP HZ Hg)
    as (pvar & tvar & xvar & yvar & zvar & units & Hp & Ht & Hx & Hy & Hz
        & Lp & Lt & Lx & Ly & Lz & Ld & E).
  exists pvar, tvar, xvar, yvar, zvar, units.
  repeat (split; [assumption|]).
  intros clean_cols clean_rows. rewrite E.
  unfold built_columns. rewrite fold_set_column_fresh by exact Hnd.
  reflexivity.
Qed.

End FlattenGrid.

(** ** The columns of the flattener, on any dataset *)

Lemma column_set_same (name : string) (c : list cell)
  (cols : list (string * list cell)) :
  DataFrame.column name (DataFrame.set_column name c cols) = Some c.
Proof.
  induction cols as [|[n c'] cols IH]; simpl.
  - now rewrite String.eqb_refl.
  - destruct (String.eqb_spec n name) as [->|Hn]; simpl.
    + now rewrite String.eqb_refl.
    + destruct (String.eqb_spec n name); [contradiction | exact IH].
Qed.

Lemma column_set_other (name name' : string) (c : list cell)
  (cols : list (string * list cell)) :
  name <> name' ->
  DataFrame.column name (DataFrame.set_column name' c cols)
  = DataFrame.column name cols.
Proof.
  intro Hk. induction cols as [|[n c'] cols IH]; simpl.
  - destruct (String.eqb_spec name' name); [congruence | reflexivity].
  - destruct (String.eqb_spec n name'); simpl.
    + subst n. destruct (String.eqb_spec name' name); [congruence | reflexivity].
    + destruct (String.eqb_spec n name); [reflexivity | exact IH].
Qed.

Lemma make_columns (data : list (string * list cell)) (df : DataFrame.t) :
  DataFrame.make data = Ok df -> DataFrame.columns df = data.
Proof.
  unfold DataFrame.make. destruct data as [|[n c] rest].
  - intro E. now inversion E.
  - destruct (forallb _ rest); intro E; [now inversion E | discriminate].
Qed.

Section Columns.

Context `{External}.

Lemma datavars_loop_column (name : string) (dvs : list Var.t) :
  forall (b b' : list bool) (data data' : list (string * list cell)),
  ~ In name (List.map Var.name dvs) ->
  datavars_loop dvs b data = Ok (b', data') ->
  DataFrame.column name data' = DataFrame.column name data.
Proof.
  induction dvs as [|dv dvs IH]; intros b b' data data' Hn E.
  - now inversion E.
  - cbn [datavars_loop] in E. apply bind_Ok in E as [b1 [_ E]].
    rewrite (IH _ _ _ _ (fun Hi => Hn (or_intror Hi)) E).
    apply column_set_other. intro Hk. apply Hn. left. now symmetry.
Qed.

Lemma datavars_loop_last (dvs dvs' : list Var.t) (dv : Var.t) :
  forall (b b' : list bool) (data data' : list (string * list cell)),
  ~ In (Var.name dv) (List.map Var.name dvs') ->
  datavars_loop (dvs ++ dv :: dvs') b data = Ok (b', data') ->
  DataFrame.column (Var.name dv) data' = Some (float_column (data_array dv)).
Proof.
  induction dvs as [|d0 dvs IH]; intros b b' data data' Hn E.
  - cbn [app datavars_loop] in E. apply bind_Ok in E as [b1 [_ E]].
    rewrite (datavars_loop_column _ _ _ _ _ _ Hn E).
    apply column_set_same.
  - cbn [app datavars_loop] in E. apply bind_Ok in E as [b1 [_ E]].
    exact (IH _ _ _ _ Hn E).
Qed.

End Columns.




(** the table of the example, in full *)
Example flatten_grid_2x2 :
  to_dataframe (H := Examples.externals) Examples.grid_2x2 false false
  = Ok {| DataFrame.index := [0; 1; 2; 3];
          DataFrame.columns :=
            [("t", [Time 0; Time 0; Time 60; Time 60]);
             ("x", [Float 1; Float 1; Float 2; Float 2]);
             ("y", [Float 1; Float 1; Float 2; Float 2]);
             ("z", [Float 0; Float 5; Float 3; Float 9]);
             ("profile", [Int 7; Int 7; Int 9; Int 9]);
             ("distance", [Float 0; Float 0; Float 2; Float 2]);
             ("temperature", [Float 10.5; Float 11.25; Float 12; Float 13])] |}.
Proof. vm_compute. reflexivity. Qed.




(** ** Pruning *)

Lemma filter_all {A : Type} (f : A -> bool) (l : list A) :
  (forall a, f a = true) -> filter f l = l.
Proof.
  intro Hf. induction l as [|a l IH]; simpl; [reflexivity|].
  now rewrite Hf, IH.
Qed.

Lemma pick_seq (n : nat) (ps : list nat) :
  Forall (fun p => p < n) ps -> DataFrame.pick (seq 0 n) ps = ps.
Proof.
  unfold DataFrame.pick. induction 1 as [|p ps Hp _ IH]; simpl; [reflexivity|].
  rewrite IH.
  destruct (nth_error (seq 0 n) p) as [q|] eqn:E.
  - pose proof (nth_error_nth _ _ 0 E) as Eq.
    rewrite seq_nth in Eq by exact Hp. simpl in Eq. now subst q.
  - apply nth_error_None in E. rewrite length_seq in E. lia.
Qed.

Lemma filter_seq_bound (f : nat -> bool) (n : nat) :
  Forall (fun p => p < n) (filter f (seq 0 n)).
Proof.
  apply Forall_forall. intros p Hp. apply filter_In in Hp as [Hp _].
  apply in_seq in Hp. lia.
Qed.

Lemma NoDup_app_disjoint {A : Type} (l l' : list A) (a : A) :
  NoDup (l ++ l') -> In a l' -> ~ In a l.
Proof.
  induction l as [|x l IH]; simpl; intros Hnd Hin; [tauto|].
  inversion Hnd as [|? ? Hx Hl]; subst.
  intros [->|Ha].
  - apply Hx. apply in_or_app. now right.
  - now apply (IH Hl Hin).
Qed.

(** What the pruning does on a padded grid: with [clean_cols] the columns
    that are missing in every row of the unpruned table are removed,
    whichever they are; with [clean_rows] the rows at which all the data
    variables are invalid are removed, and the others are kept in order. *)
Theorem pruning_of_columns_and_rows `{External}
  (P Zs : nat) (ds : Dataset.t) (clean_cols clean_rows : bool) :
  1 <= P -> 1 <= Zs -> profile_grid P Zs ds = true ->
  exists df0 df,
    to_dataframe ds false false = Ok df0 /\
    to_dataframe ds clean_cols clean_rows = Ok df /\
    List.map fst (DataFrame.columns df0)
    = (coordinate_names ++ List.map Var.name (Dataset.datavars ds))%list /\
    DataFrame.index df0 = seq 0 (P * Zs) /\
    DataFrame.index df
    = (if clean_rows
       then filter (fun i => negb (empty_row (Dataset.datavars ds) i))
              (DataFrame.index df0)
       else DataFrame.index df0) /\
    DataFrame.columns df
    = List.map (fun nc : string * list cell => (fst nc,
                           if clean_rows
                           then DataFrame.pick (snd nc) (DataFrame.index df)
                           else snd nc))
        (filter (fun nc : string * list cell => negb (clean_cols && forallb isna (snd nc)))
           (DataFrame.columns df0)).
Proof.
  intros HP HZ Hg.
  destruct (to_dataframe_grid P Zs ds HP HZ Hg)
    as (pvar & tvar & xvar & yvar & zvar & units & _ & _ & _ & _ & _
        & _ & _ & _ & _ & _ & _ & _ & E).
  set (df0 := flat_frame pvar tvar xvar yvar zvar units P Zs (Dataset.datavars ds)).
  exists df0, (pruned clean_cols clean_rows (Dataset.datavars ds) df0).
  split; [exact (E false false)|]. split; [exact (E clean_cols clean_rows)|].
  split.
  { unfold df0, flat_frame. cbn [DataFrame.columns].
    rewrite map_app, map_map. cbn [List.map fst]. reflexivity. }
  split; [reflexivity|].
  assert (Hidx : forall cc : bool, DataFrame.index
                              (if cc then DataFrame.dropna_columns df0 else df0)
                            = seq 0 (P * Zs)) by (now intros []).
  assert (Hrows : forall cc : bool, DataFrame.nrows
                               (if cc then DataFrame.dropna_columns df0 else df0)
                             = P * Zs).
  { intro cc. unfold DataFrame.nrows. rewrite Hidx. apply length_seq. }
  assert (Hcols : forall cc : bool, DataFrame.columns
                               (if cc then DataFrame.dropna_columns df0 else df0)
                             = filter (fun nc : string * list cell => negb (cc && forallb isna (snd nc)))
                                 (DataFrame.columns df0)).
  { intros []; [reflexivity|]. now rewrite filter_all. }
  assert (Hi : DataFrame.index (pruned clean_cols clean_rows (Dataset.datavars ds) df0)
               = if clean_rows
                 then filter (fun i => negb (empty_row (Dataset.datavars ds) i))
                        (DataFrame.index df0)
                 else DataFrame.index df0).
  { unfold pruned. destruct clean_rows.
    - cbn [DataFrame.take DataFrame.index]. rewrite Hrows, Hidx.
      apply pick_seq, filter_seq_bound.
    - apply Hidx. }
  split; [exact Hi|].
  rewrite Hi. unfold pruned. destruct clean_rows.
  - cbn [DataFrame.take DataFrame.columns]. rewrite Hrows, Hcols. reflexivity.
  - rewrite Hcols. symmetry. rewrite <- (map_id (filter _ _)) at 2.
    apply map_ext. now intros [n c].
Qed.

Lemma pruning_of_columns_and_rows_witness :
  exists df0 df,
    to_dataframe (H := Examples.externals) Examples.grid_with_gaps false false
    = Ok df0 /\
    to_dataframe (H := Examples.externals) Examples.grid_with_gaps true true
    = Ok df /\
    List.map fst (DataFrame.columns df0)
    = (coordinate_names
       ++ List.map Var.name (Dataset.datavars Examples.grid_with_gaps))%list /\
    DataFrame.index df0 = seq 0 (2 * 2) /\
    DataFrame.index df
    = filter (fun i => negb (empty_row (H := Examples.externals)
                               (Dataset.datavars Examples.grid_with_gaps) i))
        (DataFrame.index df0) /\
    DataFrame.columns df
    = List.map (fun nc : string * list cell => (fst nc, DataFrame.pick (snd nc) (DataFrame.index df)))
        (filter (fun nc : string * list cell => negb (true && forallb isna (snd nc)))
           (DataFrame.columns df0)).
Proof.
  apply (pruning_of_columns_and_rows (H := Examples.externals)
           2 2 Examples.grid_with_gaps true true);
    [lia | lia | vm_compute; reflexivity].
Defined.

(** the example in full: the column [salinity], missing in every row, and
    the last row, invalid in both data variables, are removed *)
Example flatten_grid_with_gaps :
  to_dataframe (H := Examples.externals) Examples.grid_with_gaps true true
  = Ok {| DataFrame.index := [0; 1; 2];
          DataFrame.columns :=
            [("t", [Time 0; Time 0; Time 60]);
             ("x", [Float 1; Float 1; Float 2]);
             ("y", [Float 1; Float 1; Float 2]);
             ("z", [Float 0; Float 5; Float 3]);
             ("profile", [Int 7; Int 7; Int 9]);
             ("distance", [Float 0; Float 0; Float 2]);
             ("temperature", [Float 10.5; Float 11.25; Float 12])] |}.
Proof. vm_compute. reflexivity. Qed.

(** C8. A defect of the code: [df.dropna(axis=1, how='all')] looks at every
    column, and not only at those of the data variables.  On a grid that
    [is_mine] accepts, whose vertical axis has no valid value, the
    coordinate column [z], missing in every row, is in the unpruned table
    and is removed with [clean_cols], while the rows and the other columns
    stay; [calculated_metadata], which reads [pgroup.z], then raises
    [AttributeError] with its default arguments. *)
Theorem clean_cols_removes_coordinate_column :
  is_mine Examples.grid_without_depth = true /\
  fmap (fun df : DataFrame.t =>
          (List.map fst (DataFrame.columns df),
           DataFrame.column "z" (DataFrame.columns df)))
    (to_dataframe (H := Examples.externals) Examples.grid_without_depth
       false false)
  = Ok (["t"; "x"; "y"; "z"; "profile"; "distance"; "temperature"],
        Some [NA; NA; NA; NA]) /\
  fmap (fun df : DataFrame.t =>
          (List.map fst (DataFrame.columns df), DataFrame.index df))
    (to_dataframe (H := Examples.externals) Examples.grid_without_depth
       true false)
  = Ok (["t"; "x"; "y"; "profile"; "distance"; "temperature"], [0; 1; 2; 3]) /\
  calculated_metadata (H := Examples.externals) Examples.grid_without_depth
    true true true
  = Raise AttributeError /\
  fmap (fun m : Metadata => List.length (profiles m))
    (calculated_metadata (H := Examples.externals) Examples.grid_without_depth
       true false true)
  = Ok 2.
Proof. repeat split; vm_compute; reflexivity. Qed.

(** ** Repair and rounding *)




(** ** More on strings: replacement, stripping, case *)

Lemma all_append (p : ascii -> bool) (a b : string) :
  Str.all p (a ++ b) = Str.all p a && Str.all p b.
Proof.
  induction a as [|x a IH]; simpl; [reflexivity|].
  now rewrite IH, andb_assoc.
Qed.

Lemma replace_char (c : ascii) (new s : string) :
  Str.replace (String c "") new s = subst_char c new s.
Proof.
  unfold Str.replace.
  induction s as [|x s IH]; simpl; [reflexivity|].
  rewrite andb_true_r, Ascii.eqb_sym.
  destruct (Ascii.eqb x c); now rewrite IH.
Qed.

Lemma subst_char_absent (c : ascii) (new s : string) :
  Str.has c s = false -> subst_char c new s = s.
Proof.
  induction s as [|x s IH]; simpl; [reflexivity|].
  intro Hh. apply orb_false_elim in Hh as [Hx Hs].
  now rewrite Hx, IH.
Qed.

Lemma subst_char_append (c : ascii) (new a b : string) :
  subst_char c new (a ++ b) = subst_char c new a ++ subst_char c new b.
Proof.
  induction a as [|x a IH]; simpl; [reflexivity|].
  destruct (Ascii.eqb x c); rewrite IH; [now rewrite append_assoc | reflexivity].
Qed.

Lemma upper_fixed (s : string) :
  Str.all (fun c => negb (Str.is_lower c)) s = true -> Str.upper s = s.
Proof.
  unfold Str.upper. induction s as [|x s IH]; simpl; [reflexivity|].
  intro Hs. apply andb_prop in Hs as [Hx Hs]. rewrite (IH Hs).
  unfold Str.upper_char. apply negb_true_iff in Hx. now rewrite Hx.
Qed.

Lemma startswith_length (old s : string) :
  Str.startswith old s = true -> String.length old <= String.length s.
Proof.
  revert s. induction old as [|o old IH]; intros s Hs; simpl; [lia|].
  destruct s as [|x s]; [discriminate|]. simpl in *.
  apply andb_prop in Hs as [_ Hs]. apply IH in Hs. lia.
Qed.

Lemma startswith_append_char (c : ascii) (old a b : string) :
  Str.has c old = false ->
  Str.startswith old (a ++ String c b) = Str.startswith old a.
Proof.
  revert a. induction old as [|o old IH]; intros a Hc; [now destruct a|].
  simpl in Hc. apply orb_false_elim in Hc as [Ho Hc].
  destruct a as [|x a]; simpl.
  - now rewrite Ho.
  - now rewrite IH.
Qed.

Lemma replace_from_append_char (c : ascii) (old new b : string) :
  Str.has c old = false -> old <> "" ->
  forall (a : string) (skip : nat),
  skip <= String.length a ->
  Str.replace_from old new skip (a ++ String c b)
  = Str.replace_from old new skip a ++ String c (Str.replace_from old new 0 b).
Proof.
  intros Hc Hold.
  assert (Hhead : Str.startswith old (String c b) = false).
  { destruct old as [|o old]; [contradiction|].
    simpl in *. apply orb_false_elim in Hc as [Ho _]. now rewrite Ho. }
  induction a as [|x a IH]; intros skip Hskip.
  - simpl in Hskip. assert (skip = 0) as -> by lia.
    change ("" ++ String c b) with (String c b).
    simpl Str.replace_from at 1. fold (Str.startswith old (String c b)).
    change (match old with
            | "" => true
            | String a0 p' => (a0 =? c)%char && Str.startswith p' b
            end) with (Str.startswith old (String c b)).
    now rewrite Hhead.
  - destruct skip as [|k].
    + change (String x a ++ String c b) with (String x (a ++ String c b)).
      cbn [Str.replace_from].
      change (String x (a ++ String c b)) with (String x a ++ String c b).
      rewrite (startswith_append_char c old (String x a) b Hc).
      destruct (Str.startswith old (String x a)) eqn:Es.
      * apply startswith_length in Es. simpl in Es.
        rewrite IH by lia. now rewrite append_assoc.
      * rewrite IH by lia. reflexivity.
    + simpl. apply IH. simpl in Hskip. lia.
Qed.

Lemma replace_from_absent (old new s : string) :
  Str.contains old s = false -> Str.replace_from old new 0 s = s.
Proof.
  induction s as [|x s IH]; [reflexivity|].
  intro Hc. simpl in Hc. apply orb_false_elim in Hc as [Hs Hc].
  cbn [Str.replace_from].
  change (match old with
          | "" => true
          | String a p' => (a =? x)%char && Str.startswith p' s
          end) with (Str.startswith old (String x s)).
  rewrite Hs. now rewrite IH.
Qed.

(** ** The scan of a [cell_methods] text *)

Lemma length_append (a b : string) :
  String.length (a ++ b) = String.length a + String.length b.
Proof. induction a as [|x a IH]; simpl; [reflexivity | now rewrite IH]. Qed.

Lemma get_append_skip (a s : string) (n : nat) :
  String.get (String.length a + n) (a ++ s) = String.get n s.
Proof. induction a as [|x a IH]; simpl; [reflexivity | exact IH]. Qed.

Lemma get_append_within (b rest : string) (n : nat) :
  n < String.length b -> String.get n (b ++ rest) = String.get n b.
Proof.
  revert n. induction b as [|x b IH]; intros n Hn; simpl in *; [lia|].
  destruct n as [|n]; [reflexivity | apply IH; lia].
Qed.

Lemma get_within (s : string) (n : nat) :
  n < String.length s -> exists x, String.get n s = Some x.
Proof.
  revert n. induction s as [|x s IH]; intros n Hn; simpl in *; [lia|].
  destruct n as [|n]; [now exists x | apply IH; lia].
Qed.

Lemma get_has (c x : ascii) (s : string) (n : nat) :
  Str.has c s = false -> String.get n s = Some x -> Ascii.eqb x c = false.
Proof.
  revert n. induction s as [|y s IH]; intros n Hh Hg; [discriminate|].
  simpl in Hh. apply orb_false_elim in Hh as [Hy Hs].
  destruct n as [|n]; simpl in Hg.
  - now inversion Hg; subst.
  - now apply (IH n).
Qed.

(** the backward search from the end of a word finds the blank before it *)
Lemma rfind_space_after (a b rest : string) :
  Str.has " " b = false ->
  Utils.rfind_space (a ++ String " " (b ++ rest))
    (String.length a + 1 + String.length b)
  = Some (String.length a).
Proof.
  intro Hb.
  assert (G : forall k, k <= String.length b ->
                        Utils.rfind_space (a ++ String " " (b ++ rest))
                          (String.length a + 1 + k)
                        = Some (String.length a)).
  { induction k as [|k IH]; intro Hk.
    - replace (String.length a + 1 + 0) with (S (String.length a)) by lia.
      cbn [Utils.rfind_space].
      replace (String.length a) with (String.length a + 0) at 1 by lia.
      rewrite get_append_skip. reflexivity.
    - replace (String.length a + 1 + S k)
        with (S (String.length a + S k)) by lia.
      cbn [Utils.rfind_space].
      rewrite get_append_skip. cbn [String.get].
      rewrite get_append_within by lia.
      destruct (get_within b k) as [x Hx]; [lia|].
      rewrite Hx, (get_has " " x b k Hb Hx).
      replace (String.length a + S k) with (String.length a + 1 + k) by lia.
      apply IH. lia. }
  now apply G.
Qed.

Lemma substring_prefix (b rest : string) :
  String.substring 0 (String.length b) (b ++ rest) = b.
Proof.
  induction b as [|x b IH]; simpl; [now destruct rest | now rewrite IH].
Qed.

Lemma slice_word (a b rest : string) (c : ascii) :
  Str.slice (String.length a + 1) (String.length a + 1 + String.length b)
    (a ++ String c (b ++ rest)) = b.
Proof.
  unfold Str.slice.
  replace (String.length a + 1 + String.length b - (String.length a + 1))
    with (String.length b) by lia.
  induction a as [|x a IH]; simpl.
  - apply substring_prefix.
  - exact IH.
Qed.

Lemma cm_scan_run (cm s rest : string) :
  Str.has ":" s = false ->
  forall (i : nat) (keys values : list string) (sofar : string),
  Utils.cm_scan cm (s ++ rest) i keys values sofar
  = Utils.cm_scan cm rest (i + String.length s) keys values (sofar ++ s).
Proof.
  induction s as [|x s IH]; intros Hs i keys values sofar.
  - simpl. now rewrite Nat.add_0_r, append_empty_r.
  - simpl in Hs. apply orb_false_elim in Hs as [Hx Hs].
    cbn [Utils.cm_scan String.append String.length]. rewrite Hx, (IH Hs).
    rewrite append_assoc, Nat.add_succ_r. reflexivity.
Qed.

Lemma cm_scan_key (cm rest : string) (i : nat) (keys values : list string)
  (sofar : string) :
  List.length keys = List.length values ->
  Utils.cm_scan cm (String ":" rest) i keys values sofar
  = Utils.cm_scan cm rest (S i) (append keys (Utils.clean_value sofar))
      values "".
Proof.
  intro E. cbn [Utils.cm_scan].
  change ((":" =? ":")%char) with true. cbv iota.
  now rewrite E, Nat.eqb_refl.
Qed.

Lemma cm_scan_value (cm rest : string) (i j : nat) (keys values : list string)
  (sofar : string) :
  List.length keys <> List.length values ->
  Utils.rfind_space cm i = Some j ->
  Utils.cm_scan cm (String ":" rest) i keys values sofar
  = Utils.cm_scan cm rest (S i)
      (append keys (Utils.clean_value (Str.slice (j + 1) i cm)))
      (append values
         (Utils.clean_value
            (Str.replace (Utils.clean_value (Str.slice (j + 1) i cm)) ""
               sofar))) "".
Proof.
  intros E Hj. cbn [Utils.cm_scan].
  change ((":" =? ":")%char) with true. cbv iota.
  apply Nat.eqb_neq in E. now rewrite E, Hj.
Qed.

(** ** The encoder on one cell method and one interval *)

Lemma cm_scan_end (cm s : string) :
  Str.has ":" s = false ->
  forall (i : nat) (keys values : list string),
  Utils.cm_scan cm s i keys values "" = (keys, values, s).
Proof.
  intros Hs i keys values.
  rewrite <- (append_empty_r s) at 1.
  now rewrite (cm_scan_run cm s "" Hs).
Qed.

Lemma cm_scan_fused (domain method tok : string) :
  Str.has ":" domain = false -> Str.has ":" method = false ->
  Str.has ":" tok = false ->
  forall cm,
    Utils.rfind_space cm
      (S (0 + String.length domain) + String.length (" " ++ method ++ " (interval"))
    = Some (String.length domain + 2 + String.length method) ->
    Str.slice (String.length domain + 2 + String.length method + 1)
      (S (0 + String.length domain) + String.length (" " ++ method ++ " (interval"))
      cm = "(interval" ->
    Utils.cm_scan cm (cell_method_text domain method tok) 0 [] [] ""
    = ([Utils.clean_value domain; "interval"],
       [Utils.clean_value
          (Str.replace "interval" "" (" " ++ method ++ " (interval"))],
       " " ++ tok ++ ")").
Proof.
  intros Hd Hm Ht cm Hfind Hslice. unfold cell_method_text.
  rewrite (cm_scan_run cm domain _ Hd).
  change (": " ++ method ++ " (interval: " ++ tok ++ ")")
    with (String ":" (" " ++ method ++ " (interval: " ++ tok ++ ")")).
  rewrite cm_scan_key by reflexivity.
  replace (" " ++ method ++ " (interval: " ++ tok ++ ")")
    with ((" " ++ method ++ " (interval") ++ String ":" (" " ++ tok ++ ")"))
    by (simpl; rewrite append_assoc; reflexivity).
  rewrite cm_scan_run
    by (simpl; rewrite has_append, Hm; reflexivity).
  erewrite cm_scan_value; [| cbn; discriminate | exact Hfind].
  rewrite Hslice.
  change (Utils.clean_value "(interval") with "interval".
  rewrite cm_scan_end
    by (simpl; rewrite has_append, Ht; reflexivity).
  reflexivity.
Qed.

Lemma rfind_space_fused (domain method tok : string) :
  Utils.rfind_space (cell_method_text domain method tok)
    (S (0 + String.length domain) + String.length (" " ++ method ++ " (interval"))
  = Some (String.length domain + 2 + String.length method) /\
  Str.slice (String.length domain + 2 + String.length method + 1)
    (S (0 + String.length domain) + String.length (" " ++ method ++ " (interval"))
    (cell_method_text domain method tok) = "(interval".
Proof.
  assert (E : cell_method_text domain method tok
              = (domain ++ ": " ++ method)
                ++ String " " ("(interval" ++ ": " ++ tok ++ ")")).
  { unfold cell_method_text. rewrite !append_assoc. reflexivity. }
  assert (La : String.length (domain ++ ": " ++ method)
               = String.length domain + 2 + String.length method).
  { rewrite !length_append. simpl. lia. }
  assert (Li : S (0 + String.length domain)
               + String.length (" " ++ method ++ " (interval")
               = String.length (domain ++ ": " ++ method) + 1
                 + String.length "(interval").
  { rewrite La. simpl. rewrite length_append. simpl. lia. }
  rewrite E, Li, <- La. split.
  - now apply rfind_space_after.
  - apply slice_word.
Qed.

Lemma replace_interval (m : string) :
  Str.contains "interval" m = false ->
  Str.replace "interval" "" (" " ++ m ++ " (interval") = " " ++ m ++ " (".
Proof.
  intro Hm. unfold Str.replace.
  change (" " ++ m ++ " (interval")
    with ("" ++ String " " (m ++ String " " "(interval")).
  rewrite (replace_from_append_char " " "interval" "" _ eq_refl)
    by (discriminate || (simpl; lia)).
  rewrite (replace_from_append_char " " "interval" "" _ eq_refl)
    by (discriminate || lia).
  rewrite (replace_from_absent _ _ _ Hm).
  reflexivity.
Qed.

Lemma name_like_facts (sn : string) :
  name_like sn = true ->
  Str.has "#" sn = false /\ Str.has "-" sn = false /\ sn <> "".
Proof.
  unfold name_like. intro Hn. apply andb_prop in Hn as [Hl He].
  repeat split.
  - now apply (lacks_has "#" "#-").
  - now apply (lacks_has "-" "#-").
  - apply negb_true_iff in He. now apply String.eqb_neq.
Qed.

Lemma present_Some (s : string) : s <> "" -> Utils.present (Some s) = Some s.
Proof. destruct s; [contradiction | reflexivity]. Qed.

(* ================================================================= *)
(** * Further properties *)

(** ** [unique_justseen] *)

(** X1. Collapsing the immediate repetitions a second time changes
    nothing, whatever the equality. *)
Theorem unique_justseen_idempotent {A : Type} (eqb : A -> A -> bool)
  (l : list A) :
  Utils.unique_justseen eqb (Utils.unique_justseen eqb l)
  = Utils.unique_justseen eqb l.
Proof.
  apply unique_justseen_no_repeat, unique_justseen_output.
Qed.

Lemma justseen_from_skip {A : Type} (eqb : A -> A -> bool) (x y : A)
  (n : nat) (rest : list A) :
  eqb x y = true ->
  justseen_from eqb x (List.repeat y n ++ rest) = justseen_from eqb x rest.
Proof.
  intro E. induction n as [|n IH]; simpl; [reflexivity|]. now rewrite E.
Qed.

Lemma justseen_from_repeat_each {A : Type} (eqb : A -> A -> bool)
  (n : nat) (l : list A) :
  (forall x, In x l -> eqb x x = true) ->
  forall x, justseen_from eqb x (repeat_each (S n) l) = justseen_from eqb x l.
Proof.
  unfold repeat_each.
  induction l as [|y l IH]; intros Hr x; [reflexivity|].
  cbn [flat_map List.repeat app justseen_from].
  destruct (eqb x y) eqn:E.
  - rewrite (justseen_from_skip eqb x y n _ E).
    apply IH. intros z Hz. apply Hr. now right.
  - rewrite (justseen_from_skip eqb y y n _ (Hr y (or_introl eq_refl))).
    f_equal. apply IH. intros z Hz. apply Hr. now right.
Qed.

(** X2. Repeating every element of a sequence the same number of times,
    as the flattener repeats the position of a profile once per level,
    does not change what [unique_justseen] keeps, when every element
    equals itself. *)
Theorem unique_justseen_repeat_each {A : Type} (eqb : A -> A -> bool)
  (n : nat) (l : list A) :
  1 <= n -> (forall x, In x l -> eqb x x = true) ->
  Utils.unique_justseen eqb (repeat_each n l) = Utils.unique_justseen eqb l.
Proof.
  intros Hn Hr. destruct n as [|n]; [lia|].
  destruct l as [|x l]; [reflexivity|].
  rewrite unique_justseen_cons.
  change (repeat_each (S n) (x :: l))
    with (x :: (List.repeat x n ++ repeat_each (S n) l))%list.
  rewrite unique_justseen_cons. f_equal.
  rewrite (justseen_from_skip eqb x x n _ (Hr x (or_introl eq_refl))).
  apply justseen_from_repeat_each. intros z Hz. apply Hr. now right.
Qed.

Lemma unique_justseen_repeat_each_witness :
  Utils.unique_justseen coord_eqb
    (repeat_each 3 [(Float 1, Float 1); (Float 2, Float 2)])
  = Utils.unique_justseen coord_eqb [(Float 1, Float 1); (Float 2, Float 2)].
Proof.
  apply (unique_justseen_repeat_each coord_eqb 3
           [(Float 1, Float 1); (Float 2, Float 2)]); [lia|].
  intros x [<- | [<- | []]]; reflexivity.
Defined.

(** the example of the docstring *)
Example unique_justseen_docstring :
  Utils.unique_justseen Ascii.eqb
    (list_ascii_of_string "AAAABBBCCDAABBB")
  = list_ascii_of_string "ABCDAB".
Proof. reflexivity. Qed.

(** ** [clean_value] *)

Lemma has_subst_removed (c : ascii) (new s : string) :
  Str.has c new = false -> Str.has c (subst_char c new s) = false.
Proof.
  intro Hn. induction s as [|x s IH]; simpl; [reflexivity|].
  destruct (Ascii.eqb x c) eqn:E.
  - now rewrite has_append, Hn, IH.
  - simpl. now rewrite E, IH.
Qed.

Lemma has_subst_other (c c' : ascii) (new s : string) :
  Str.has c s = false -> Str.has c new = false ->
  Str.has c (subst_char c' new s) = false.
Proof.
  intros Hs Hn. induction s as [|x s IH]; simpl; [reflexivity|].
  simpl in Hs. apply orb_false_elim in Hs as [Hx Hs].
  destruct (Ascii.eqb x c').
  - now rewrite has_append, Hn, IH.
  - simpl. now rewrite Hx, IH.
Qed.

Lemma has_lstrip (c : ascii) (s : string) :
  Str.has c s = false -> Str.has c (Str.lstrip s) = false.
Proof.
  induction s as [|x s IH]; simpl; [reflexivity|].
  intro Hs. destruct (Str.is_space x); [|exact Hs].
  apply orb_false_elim in Hs as [_ Hs]. now apply IH.
Qed.

Lemma has_rstrip (c : ascii) (s : string) :
  Str.has c s = false -> Str.has c (Str.rstrip s) = false.
Proof.
  induction s as [|x s IH]; simpl; [reflexivity|].
  intro Hs. apply orb_false_elim in Hs as [Hx Hs]. specialize (IH Hs).
  destruct (Str.rstrip s) as [|y r].
  - destruct (Str.is_space x); simpl; [reflexivity | now rewrite Hx].
  - simpl in *. now rewrite Hx, IH.
Qed.

Lemma clean_value_subst (v : string) :
  Utils.clean_value v
  = subst_char " " "_"
      (Str.strip (subst_char ")" "" (subst_char "(" "" v))).
Proof. unfold Utils.clean_value. now rewrite !replace_char. Qed.

Lemma clean_value_no_blank (v : string) :
  Str.has " " (Utils.clean_value v) = false.
Proof. rewrite clean_value_subst. now apply has_subst_removed. Qed.

Lemma clean_value_no_parenthesis (v : string) :
  Str.has "(" (Utils.clean_value v) = false /\
  Str.has ")" (Utils.clean_value v) = false.
Proof.
  rewrite clean_value_subst. unfold Str.strip. split.
  - apply has_subst_other; [|reflexivity].
    apply has_rstrip, has_lstrip.
    apply has_subst_other; [|reflexivity].
    now apply has_subst_removed.
  - apply has_subst_other; [|reflexivity].
    apply has_rstrip, has_lstrip.
    now apply has_subst_removed.
Qed.

(** X3. A cleaned value holds no blank and no parenthesis. *)
Theorem clean_value_lacks (v : string) :
  Str.has " " (Utils.clean_value v) = false /\
  Str.has "(" (Utils.clean_value v) = false /\
  Str.has ")" (Utils.clean_value v) = false.
Proof.
  split; [apply clean_value_no_blank | apply clean_value_no_parenthesis].
Qed.

Lemma lstrip_twice (s : string) : Str.lstrip (Str.lstrip s) = Str.lstrip s.
Proof.
  induction s as [|x s IH]; [reflexivity|]. simpl.
  destruct (Str.is_space x) eqn:E; [exact IH|]. simpl. now rewrite E.
Qed.

Lemma rstrip_twice (s : string) : Str.rstrip (Str.rstrip s) = Str.rstrip s.
Proof.
  induction s as [|x s IH]; [reflexivity|]. simpl.
  destruct (Str.rstrip s) as [|y r] eqn:Er.
  - destruct (Str.is_space x) eqn:E; [reflexivity|]. simpl. now rewrite E.
  - change (Str.rstrip (String x (String y r)))
      with (match Str.rstrip (String y r) with
            | "" => if Str.is_space x then "" else String x ""
            | String a b => String x (String a b)
            end).
    now rewrite IH.
Qed.

Lemma lstrip_length (s : string) :
  String.length (Str.lstrip s) <= String.length s.
Proof.
  induction s as [|x s IH]; simpl; [lia|].
  destruct (Str.is_space x); simpl; lia.
Qed.

Lemma lstrip_fixed_head (x : ascii) (s : string) :
  Str.lstrip (String x s) = String x s -> Str.is_space x = false.
Proof.
  simpl. destruct (Str.is_space x); [|reflexivity].
  intro E. pose proof (lstrip_length s) as Hl. rewrite E in Hl. simpl in Hl. lia.
Qed.

Lemma lstrip_rstrip (s : string) :
  Str.lstrip s = s -> Str.lstrip (Str.rstrip s) = Str.rstrip s.
Proof.
  destruct s as [|x s]; [reflexivity|].
  intro E. apply lstrip_fixed_head in E.
  simpl. destruct (Str.rstrip s); rewrite ?E; simpl; now rewrite E.
Qed.

Lemma not_space_not_blank (x : ascii) :
  Str.is_space x = false -> Ascii.eqb x " " = false.
Proof.
  intro E. destruct (Ascii.eqb_spec x " ") as [->|]; [discriminate E | reflexivity].
Qed.

Lemma lstrip_subst_blank (s : string) :
  Str.lstrip s = s ->
  Str.lstrip (subst_char " " "_" s) = subst_char " " "_" s.
Proof.
  destruct s as [|x s]; [reflexivity|].
  intro E. apply lstrip_fixed_head in E.
  simpl. rewrite (not_space_not_blank x E). simpl. now rewrite E.
Qed.

Lemma subst_blank_empty (s : string) :
  subst_char " " "_" s = "" -> s = "".
Proof.
  destruct s as [|x s]; [reflexivity|]. simpl.
  destruct (Ascii.eqb x " "); discriminate.
Qed.

Lemma rstrip_cons_fixed (a : ascii) (t : string) :
  t <> "" -> Str.rstrip t = t -> Str.rstrip (String a t) = String a t.
Proof.
  intros Hn E. cbn [Str.rstrip]. rewrite E.
  destruct t; [contradiction | reflexivity].
Qed.

Lemma rstrip_subst_blank (s : string) :
  Str.rstrip s = s ->
  Str.rstrip (subst_char " " "_" s) = subst_char " " "_" s.
Proof.
  induction s as [|x s IH]; [reflexivity|].
  intro E. cbn [Str.rstrip] in E.
  destruct (Str.rstrip s) as [|y r] eqn:Er.
  - destruct (Str.is_space x) eqn:Ex; [discriminate|].
    inversion E; subst s. cbn [subst_char].
    rewrite (not_space_not_blank x Ex). cbn [Str.rstrip]. now rewrite Ex.
  - inversion E as [Es]. specialize (IH Es).
    assert (Hne : subst_char " " "_" s <> "")
      by (intro H0; apply subst_blank_empty in H0; congruence).
    clear E Er. subst s.
    change (subst_char " " "_" (String x (String y r)))
      with (if Ascii.eqb x " "
            then "_" ++ subst_char " " "_" (String y r)
            else String x (subst_char " " "_" (String y r))).
    destruct (Ascii.eqb x " ").
    + change ("_" ++ subst_char " " "_" (String y r))
        with (String "_" (subst_char " " "_" (String y r))).
      apply rstrip_cons_fixed; [exact Hne | exact IH].
    + apply rstrip_cons_fixed; [exact Hne | exact IH].
Qed.

(** X4. Cleaning a cleaned value changes nothing. *)
Theorem clean_value_idempotent (v : string) :
  Utils.clean_value (Utils.clean_value v) = Utils.clean_value v.
Proof.
  destruct (clean_value_no_parenthesis v) as (Ho & Hc).
  pose proof (clean_value_no_blank v) as Hb.
  rewrite (clean_value_subst (Utils.clean_value v)).
  rewrite (subst_char_absent "(" "" _ Ho), (subst_char_absent ")" "" _ Hc).
  assert (Hs : Str.strip (Utils.clean_value v) = Utils.clean_value v).
  { rewrite clean_value_subst.
    set (w := subst_char ")" "" (subst_char "(" "" v)).
    assert (Hl : Str.lstrip (Str.strip w) = Str.strip w)
      by (unfold Str.strip; apply lstrip_rstrip, lstrip_twice).
    assert (Hr : Str.rstrip (Str.strip w) = Str.strip w)
      by (unfold Str.strip; apply rstrip_twice).
    unfold Str.strip at 1.
    rewrite (lstrip_subst_blank _ Hl). now apply rstrip_subst_blank. }
  rewrite Hs. now apply subst_char_absent.
Qed.

(** ** The decoder and the encoder, further *)

Lemma dict_get_set_same (k v : string) (d : dict) :
  dict_get k (dict_set k v d) = Some v.
Proof.
  induction d as [|[k0 v0] d IH]; simpl.
  - now rewrite String.eqb_refl.
  - destruct (String.eqb_spec k0 k); simpl.
    + subst k0. now rewrite String.eqb_refl.
    + destruct (String.eqb_spec k0 k); [contradiction | exact IH].
Qed.

Lemma dict_mem_set_same (k v : string) (d : dict) :
  dict_mem k (dict_set k v d) = true.
Proof. unfold dict_mem. now rewrite dict_get_set_same. Qed.

Lemma upper_char_twice (c : ascii) :
  Str.upper_char (Str.upper_char c) = Str.upper_char c.
Proof. destruct c as [[] [] [] [] [] [] [] []]; reflexivity. Qed.

Lemma upper_twice (s : string) : Str.upper (Str.upper s) = Str.upper s.
Proof.
  unfold Str.upper. induction s as [|x s IH]; simpl; [reflexivity|].
  now rewrite upper_char_twice, IH.
Qed.

(** X5. Whatever identifier is decoded, a vertical datum in the result is
    in upper case. *)
Theorem vertical_datum_upper (urn : string) (combine_interval : bool)
  (d : dict) (v : string) :
  Utils.dictify_urn urn combine_interval = Ok d ->
  dict_get "vertical_datum" d = Some v ->
  Str.upper v = v.
Proof.
  intros E Hv. unfold Utils.dictify_urn in E.
  destruct (IoosUrn.from_string urn) as [u|];
    [|inversion E; subst; discriminate].
  destruct (negb _); [inversion E; subst; discriminate|].
  destruct (IoosUrn.component u) as [component|]; [|discriminate].
  apply bind_Ok in E as [[sn extras] [_ E]].
  apply bind_Ok in E as [d1 [_ E]].
  apply bind_Ok in E as [[[d2 ints] cms] [_ E]].
  apply bind_Ok in E as [d3 [_ E]].
  destruct (dict_get "vertical_datum" d3) as [v0|] eqn:E0;
    inversion E; subst.
  - rewrite dict_get_set_same in Hv. inversion Hv. apply upper_twice.
  - congruence.
Qed.

Lemma vertical_datum_upper_witness : Str.upper "NAVD88" = "NAVD88".
Proof.
  apply (vertical_datum_upper
           "urn:ioos:sensor:axiom:foo:sea_surface_height#vertical_datum=navd88"
           true
           [("standard_name", "sea_surface_height");
            ("vertical_datum", "NAVD88")]);
    reflexivity.
Defined.

Lemma urnify_identity `{SetOrder} (rnd authority label : string)
  (osn on odsc : option string) :
  Utils.urnify_from_dict rnd authority label (identity_record osn on odsc)
  = "urn:ioos:sensor:" ++ authority ++ ":" ++ label ++ ":"
    ++ chosen_name rnd osn on
    ++ match Utils.present odsc with
       | Some x => "-" ++ x
       | None => ""
       end.
Proof.
  unfold Utils.urnify_from_dict, identity_record, chosen_name.
  cbn [Utils.cell_methods Utils.bounds Utils.vertical_datum Utils.interval
       Utils.standard_name Utils.name Utils.discriminant].
  change (Utils.present None) with (@None string). cbv iota.
  destruct (Utils.present osn), (Utils.present on), (Utils.present odsc);
    cbn; rewrite ?append_assoc, ?append_empty_r; reflexivity.
Qed.

(** X6. A record that holds a name ([standard_name], else [name], else the
    random letters) and perhaps a discriminant, none of them with [#] or
    [-], is decoded to that name under [standard_name], and to that
    discriminant. *)
Theorem name_round_trip `{SetOrder} (rnd authority label : string)
  (osn on odsc : option string) :
  lacks ":" authority = true -> lacks ":" label = true ->
  name_like (chosen_name rnd osn on) = true ->
  match Utils.present odsc with
  | Some x => lacks "#-" x = true
  | None => True
  end ->
  Utils.dictify_urn
    (Utils.urnify_from_dict rnd authority label (identity_record osn on odsc))
    true
  = Ok (("standard_name", chosen_name rnd osn on)
        :: match Utils.present odsc with
           | Some x => [("discriminant", x)]
           | None => []
           end).
Proof.
  intros Ha Hl Hn Hd. rewrite urnify_identity.
  set (base := chosen_name rnd osn on) in *.
  destruct (name_like_facts _ Hn) as (Nh & Nd & _).
  rewrite <- sensor_urn_text. unfold Utils.dictify_urn.
  rewrite (from_string_urn _ _ _ (lacks_has ":" ":" _ Ha eq_refl)
             (lacks_has ":" ":" _ Hl eq_refl)).
  cbn [IoosUrn.asset_type IoosUrn.component].
  change (negb ("sensor" =? "sensor")) with false. cbv iota.
  destruct (Utils.present odsc) as [x|].
  - assert (Xh : Str.has "#" x = false) by (now apply (lacks_has "#" "#-")).
    assert (Xd : Str.has "-" x = false) by (now apply (lacks_has "-" "#-")).
    rewrite !contains_char, !has_append, Nh, Nd. cbn [Str.has String.append orb].
    rewrite Xh. change (("-" =? "#")%char) with false.
    change (("-" =? "-")%char) with true. cbn [orb bind].
    change (base ++ "-" ++ x) with (base ++ String "-" x).
    rewrite (split_append "-" base x Nd), (split_without "-" x Xd).
    reflexivity.
  - rewrite append_empty_r, !contains_char, Nh, Nd. reflexivity.
Qed.

Lemma name_round_trip_witness :
  Utils.dictify_urn
    (Utils.urnify_from_dict (H := Examples.first_seen) "ABCDEFGH" "axiom" "foo"
       (identity_record None (Some "wind_speed") (Some "2"))) true
  = Ok [("standard_name", "wind_speed"); ("discriminant", "2")].
Proof.
  apply (name_round_trip (H := Examples.first_seen) "ABCDEFGH" "axiom" "foo" None (Some "wind_speed")
           (Some "2")); reflexivity.
Defined.

Lemma urnify_datum `{SetOrder} (rnd authority label sn b v : string) :
  sn <> "" -> b <> "" -> v <> "" ->
  Utils.urnify_from_dict rnd authority label (datum_record sn b v)
  = "urn:ioos:sensor:" ++ authority ++ ":" ++ label ++ ":"
    ++ sn ++ String "#" (("bounds" ++ String "=" b)
                         ++ String ";" ("vertical_datum" ++ String "=" v)).
Proof.
  intros Hs Hb Hv.
  unfold Utils.urnify_from_dict, datum_record.
  cbn [Utils.cell_methods Utils.bounds Utils.vertical_datum Utils.interval
       Utils.standard_name Utils.name Utils.discriminant].
  rewrite (present_Some _ Hs), (present_Some _ Hb), (present_Some _ Hv).
  cbn. rewrite ?append_assoc. reflexivity.
Qed.

Lemma respace_plain (s : string) :
  Str.has "_" s = false -> Str.has ":" s = false -> Utils.respace s = s.
Proof.
  intros Hu Hc. unfold Utils.respace. rewrite !replace_char.
  now rewrite (subst_char_absent "_" " " s Hu), (subst_char_absent ":" ": " s Hc).
Qed.

(** one clause [key=value] with a plain value, for a key that is neither
    [interval] nor [cell_methods] *)
Lemma section_step_plain (d : dict) (ints cms : list string) (key v : string) :
  Str.has "=" key = false ->
  String.eqb key "interval" = false -> String.eqb key "cell_methods" = false ->
  lacks ":,;=#_-" v = true ->
  Utils.section_step (d, ints, cms) (key ++ String "=" v)
  = Ok (dict_set key v d, ints, cms).
Proof.
  intros Hk Hi Hc Hv. unfold Utils.section_step.
  rewrite (split_append "=" key v Hk).
  rewrite (split_without "=" v (lacks_has "=" _ _ Hv eq_refl)).
  cbn [Utils.unpack2 bind]. rewrite Hi, Hc.
  rewrite (split_without "," v (lacks_has "," _ _ Hv eq_refl)).
  cbn [List.map].
  rewrite (respace_plain v (lacks_has "_" _ _ Hv eq_refl)
             (lacks_has ":" _ _ Hv eq_refl)).
  reflexivity.
Qed.

(** X7. A record with a standard name, bounds and a vertical datum, all
    free of the characters of the grammar, is decoded to the same standard
    name and bounds, and to the vertical datum in upper case. *)
Theorem datum_round_trip `{SetOrder} (rnd authority label sn b v : string) :
  lacks ":" authority = true -> lacks ":" label = true ->
  name_like sn = true ->
  lacks ":,;=#_-" b = true -> b <> "" ->
  lacks ":,;=#_-" v = true -> v <> "" ->
  Utils.dictify_urn
    (Utils.urnify_from_dict rnd authority label (datum_record sn b v)) true
  = Ok [("standard_name", sn); ("bounds", b);
        ("vertical_datum", Str.upper v)].
Proof.
  intros Ha Hl Hn Hb Hbe Hv Hve.
  destruct (name_like_facts _ Hn) as (Nh & Nd & Ne).
  rewrite (urnify_datum _ _ _ _ _ _ Ne Hbe Hve).
  assert (Bh : forall c, Str.has c ":,;=#_-" = true -> Str.has c b = false)
    by (intros c Hc; now apply (lacks_has c ":,;=#_-")).
  assert (Vh : forall c, Str.has c ":,;=#_-" = true -> Str.has c v = false)
    by (intros c Hc; now apply (lacks_has c ":,;=#_-")).
  remember (("bounds" ++ String "=" b)
            ++ String ";" ("vertical_datum" ++ String "=" v)) as extras eqn:Ee.
  assert (He : forall c, Str.has c "#-" = true -> Str.has c extras = false).
  { intros c Hc.
    assert (Hc' : Str.has c ":,;=#_-" = true).
    { cbn [Str.has] in Hc |- *.
      destruct (Ascii.eqb "#" c), (Ascii.eqb "-" c); try discriminate;
        now rewrite ?orb_true_r. }
    rewrite Ee, !has_append. cbn [Str.has]. rewrite !has_append.
    cbn [Str.has]. rewrite (Bh c Hc'), (Vh c Hc'). cbn [Str.has] in Hc.
    destruct (Ascii.eqb_spec "#" c) as [E1|_]; [subst c; reflexivity|].
    destruct (Ascii.eqb_spec "-" c) as [E2|_];
      [subst c; reflexivity | discriminate]. }
  rewrite <- sensor_urn_text. unfold Utils.dictify_urn.
  rewrite (from_string_urn _ _ _ (lacks_has ":" ":" _ Ha eq_refl)
             (lacks_has ":" ":" _ Hl eq_refl)).
  cbn [IoosUrn.asset_type IoosUrn.component].
  change (negb ("sensor" =? "sensor")) with false. cbv iota.
  rewrite !contains_char, !has_append. cbn [Str.has].
  rewrite Nh, Nd, (He "#"%char eq_refl), (He "-"%char eq_refl).
  change (("#" =? "#")%char) with true. change (("#" =? "-")%char) with false.
  cbn [orb]. rewrite (split_append "#" sn _ Nh).
  rewrite (split_without "#" _ (He "#"%char eq_refl)).
  cbn [Utils.unpack2 bind].
  assert (Hloop : forall d0,
             match extras with
             | "" => Ok (d0, [], [])
             | String _ _ => Utils.sections_loop (d0, [], []) (Str.split ";" extras)
             end
             = Ok (dict_set "vertical_datum" v (dict_set "bounds" b d0),
                   @nil string, @nil string)).
  { intro d0. rewrite Ee at 1. cbn [String.append]. rewrite Ee.
    rewrite split_append
      by (rewrite has_append; cbn [Str.has]; rewrite (Bh ";"%char eq_refl);
          reflexivity).
    rewrite split_without
      by (rewrite has_append; cbn [Str.has]; rewrite (Vh ";"%char eq_refl);
          reflexivity).
    cbn [Utils.sections_loop].
    rewrite (section_step_plain d0 [] [] "bounds" b eq_refl eq_refl eq_refl Hb).
    cbn [bind].
    rewrite (section_step_plain _ [] [] "vertical_datum" v eq_refl eq_refl
               eq_refl Hv).
    reflexivity. }
  rewrite Hloop. cbn. reflexivity.
Qed.

Lemma datum_round_trip_witness :
  Utils.dictify_urn
    (Utils.urnify_from_dict (H := Examples.first_seen) "ABCDEFGH" "axiom" "foo"
       (datum_record "sea_surface_height" "time" "navd88")) true
  = Ok [("standard_name", "sea_surface_height"); ("bounds", "time");
        ("vertical_datum", "NAVD88")].
Proof.
  apply (datum_round_trip (H := Examples.first_seen) "ABCDEFGH" "axiom" "foo" "sea_surface_height"
           "time" "navd88"); try reflexivity; discriminate.
Defined.

(** ** What the decoder refuses *)

Lemma split_length_append (c : ascii) (a b : string) :
  List.length (Str.split c (a ++ String c b))
  = List.length (Str.split c a) + List.length (Str.split c b).
Proof.
  induction a as [|x a IH].
  - simpl. now rewrite Ascii.eqb_refl.
  - cbn [String.append Str.split]. destruct (Ascii.eqb x c).
    + cbn [List.length]. now rewrite IH.
    + pose proof (split_not_nil c (a ++ String c b)) as N1.
      pose proof (split_not_nil c a) as N2.
      destruct (Str.split c (a ++ String c b)) as [|w ws]; [contradiction|].
      destruct (Str.split c a) as [|w' ws']; [contradiction|].
      exact IH.
Qed.

Lemma split_length_pos (c : ascii) (s : string) :
  1 <= List.length (Str.split c s).
Proof.
  pose proof (split_not_nil c s) as N.
  destruct (Str.split c s); [contradiction | simpl; lia].
Qed.

Lemma unpack2_many (l : list string) :
  3 <= List.length l ->
  Utils.unpack2 l = Raise (ValueError "too many values to unpack (expected 2)").
Proof.
  destruct l as [|a [|b [|c l]]]; simpl; intro Hl; try lia. reflexivity.
Qed.

(** X8. A sensor identifier whose component holds two [#] or more is not
    decoded: the unpacking of [component.split('#')] raises [ValueError]. *)
Theorem dictify_urn_two_hashes (urn : string) (combine_interval : bool)
  (u : IoosUrn.t) (a b c : string) :
  IoosUrn.from_string urn = Some u ->
  IoosUrn.asset_type u = "sensor" ->
  IoosUrn.component u = Some (a ++ "#" ++ b ++ "#" ++ c) ->
  Utils.dictify_urn urn combine_interval
  = Raise (ValueError "too many values to unpack (expected 2)").
Proof.
  intros Hu Ht Hc. unfold Utils.dictify_urn. rewrite Hu, Ht, Hc.
  change (negb ("sensor" =? "sensor")) with false. cbv iota.
  rewrite contains_char, has_append. cbn [String.append Str.has].
  rewrite Ascii.eqb_refl, orb_true_r.
  rewrite unpack2_many; [reflexivity|].
  rewrite split_length_append.
  pose proof (split_length_pos "#" a).
  pose proof (split_length_pos "#" c).
  pose proof (split_length_append "#" b c) as Hbc.
  pose proof (split_length_pos "#" b).
  lia.
Qed.

Lemma dictify_urn_two_hashes_witness :
  Utils.dictify_urn "urn:ioos:sensor:axiom:foo:lat#bounds=a#b" true
  = Raise (ValueError "too many values to unpack (expected 2)").
Proof.
  apply (dictify_urn_two_hashes _ true
           {| IoosUrn.asset_type := "sensor"; IoosUrn.authority := "axiom";
              IoosUrn.label := "foo";
              IoosUrn.component := Some "lat#bounds=a#b" |}
           "lat" "bounds=a" "b"); reflexivity.
Defined.

Lemma split_pieces_lack (c c' : ascii) (s : string) :
  Str.has c' s = false ->
  Forall (fun w => Str.has c' w = false) (Str.split c s).
Proof.
  induction s as [|x s IH]; simpl; intro Hh.
  - constructor; [reflexivity | constructor].
  - apply orb_false_elim in Hh as [Hx Hs]. specialize (IH Hs).
    destruct (Ascii.eqb x c).
    + constructor; [reflexivity | exact IH].
    + pose proof (split_not_nil c s) as N.
      destruct (Str.split c s) as [|w ws]; [contradiction|].
      inversion IH as [|? ? Hw Hws]; subst.
      constructor; [simpl; now rewrite Hx, Hw | exact Hws].
Qed.

(** X9. A sensor identifier with one [#] whose clauses hold no [=] is not
    decoded: the unpacking of [section.split('=')] raises [ValueError],
    with one value for the two names. *)
Theorem dictify_urn_clause_without_equals (urn : string)
  (combine_interval : bool) (u : IoosUrn.t) (sn e : string) :
  IoosUrn.from_string urn = Some u ->
  IoosUrn.asset_type u = "sensor" ->
  IoosUrn.component u = Some (sn ++ "#" ++ e) ->
  Str.has "#" sn = false -> Str.has "#" e = false ->
  e <> "" -> Str.has "=" e = false ->
  Utils.dictify_urn urn combine_interval
  = Raise (ValueError "not enough values to unpack (expected 2, got 1)").
Proof.
  intros Hu Ht Hc Hs He Hne Heq. unfold Utils.dictify_urn. rewrite Hu, Ht, Hc.
  change (negb ("sensor" =? "sensor")) with false. cbv iota.
  rewrite !contains_char, !has_append. cbn [String.append Str.has].
  rewrite Ascii.eqb_refl, orb_true_r.
  rewrite (split_append "#" sn e Hs), (split_without "#" e He).
  cbn [Utils.unpack2 bind].
  assert (Hd : forall c0 : bool, exists d1,
             (if c0
              then
                sn0 <- getitem (Str.split "-" sn) 0 ;;
                Ok (dict_set "standard_name" sn0
                      (dict_set "discriminant" (last (Str.split "-" sn) "")
                         [("standard_name", sn)]))
              else Ok [("standard_name", sn)]) = Ok d1).
  { intros [|]; [|now eexists].
    pose proof (split_not_nil "-" sn) as N.
    destruct (Str.split "-" sn) as [|w ws]; [contradiction|].
    cbn. now eexists. }
  match goal with
  | |- context [bind (if ?c0 then _ else _) _] => destruct (Hd c0) as [d1 Hd1]
  end.
  rewrite Hd1. cbn [bind].
  destruct e as [|x e']; [contradiction|].
  pose proof (split_pieces_lack ";" "=" (String x e') Heq) as HF.
  pose proof (split_not_nil ";" (String x e')) as N.
  destruct (Str.split ";" (String x e')) as [|w ws]; [contradiction|].
  inversion HF as [|? ? Hw _]; subst.
  cbn [Utils.sections_loop Utils.section_step].
  rewrite (split_without "=" w Hw). reflexivity.
Qed.

Lemma dictify_urn_clause_without_equals_witness :
  Utils.dictify_urn "urn:ioos:sensor:axiom:foo:lat#bounds" true
  = Raise (ValueError "not enough values to unpack (expected 2, got 1)").
Proof.
  apply (dictify_urn_clause_without_equals _ true
           {| IoosUrn.asset_type := "sensor"; IoosUrn.authority := "axiom";
              IoosUrn.label := "foo";
              IoosUrn.component := Some "lat#bounds" |}
           "lat" "bounds"); try reflexivity; discriminate.
Defined.

Lemma dict_mem_set_other (k k' v : string) (d : dict) :
  dict_mem k d = true -> dict_mem k (dict_set k' v d) = true.
Proof.
  unfold dict_mem. destruct (String.eqb_spec k k') as [->|Hk].
  - now rewrite dict_get_set_same.
  - now rewrite (dict_get_set_other k k' v d Hk).
Qed.

(** X10. With [combine_interval=False] every decoded sensor identifier has
    the keys [cell_methods] and [interval], whatever its clauses; and the
    key [standard_name] with either setting. *)
Theorem dictify_urn_keys (urn : string) (combine_interval : bool)
  (u : IoosUrn.t) (d : dict) :
  IoosUrn.from_string urn = Some u ->
  IoosUrn.asset_type u = "sensor" ->
  Utils.dictify_urn urn combine_interval = Ok d ->
  dict_mem "standard_name" d = true /\
  (combine_interval = false ->
   dict_mem "cell_methods" d = true /\ dict_mem "interval" d = true).
Proof.
  intros Hu Ht E. unfold Utils.dictify_urn in E. rewrite Hu, Ht in E.
  change (negb ("sensor" =? "sensor")) with false in E. cbv iota in E.
  destruct (IoosUrn.component u) as [component|]; [|discriminate].
  apply bind_Ok in E as [[sn extras] [_ E]].
  apply bind_Ok in E as [d1 [E1 E]].
  apply bind_Ok in E as [[[d2 ints] cms] [E2 E]].
  apply bind_Ok in E as [d3 [E3 E]].
  assert (M1 : dict_mem "standard_name" d1 = true).
  { destruct (Str.contains "-" component).
    - apply bind_Ok in E1 as [sn0 [_ E1]]. inversion E1; subst. reflexivity.
    - inversion E1; subst. reflexivity. }
  assert (M2 : dict_mem "standard_name" d2 = true).
  { destruct extras.
    - inversion E2; subst. exact M1.
    - exact (sections_loop_mem _ _ _ _ _ _ _ _ E2 M1). }
  assert (M3 : dict_mem "standard_name" d3 = true /\
               (combine_interval = false ->
                dict_mem "cell_methods" d3 = true /\
                dict_mem "interval" d3 = true)).
  { destruct combine_interval.
    - split; [|discriminate].
      destruct cms, ints; try destruct (Nat.eqb _ _); inversion E3; subst;
        try exact M2; now apply dict_mem_set_other.
    - inversion E3; subst. split; [now do 2 apply dict_mem_set_other|].
      intros _. split.
      + apply dict_mem_set_other, dict_mem_set_same.
      + apply dict_mem_set_same. }
  destruct M3 as [M3 M4].
  destruct (dict_get "vertical_datum" d3); inversion E; subst.
  - split; [now apply dict_mem_set_other|].
    intro Hc. destruct (M4 Hc). split; now apply dict_mem_set_other.
  - split; assumption.
Qed.

Lemma dictify_urn_keys_witness :
  dict_mem "standard_name" [("standard_name", "lat"); ("cell_methods", "");
                            ("interval", "")] = true /\
  (false = false ->
   dict_mem "cell_methods" [("standard_name", "lat"); ("cell_methods", "");
                            ("interval", "")] = true /\
   dict_mem "interval" [("standard_name", "lat"); ("cell_methods", "");
                        ("interval", "")] = true).
Proof.
  apply (dictify_urn_keys "urn:ioos:sensor:axiom:foo:lat" false
           {| IoosUrn.asset_type := "sensor"; IoosUrn.authority := "axiom";
              IoosUrn.label := "foo"; IoosUrn.component := Some "lat" |});
    reflexivity.
Defined.

(** ** [dict_update] *)

Lemma dict_update_unfold (d : pyvalue) (us : list (string * pyvalue)) :
  dict_update d (Mapping us) = dict_update_items d us.
Proof.
  reflexivity.
Qed.

Lemma pyvalue_induction (P : pyvalue -> Prop) :
  (forall s, P (Leaf s)) ->
  (forall items, Forall (fun kv => P (snd kv)) items -> P (Mapping items)) ->
  forall v, P v.
Proof.
  intros HL HM. fix IH 1. intros [s|items]; [apply HL|].
  apply HM. induction items as [|[k v] items IHl]; constructor.
  - apply IH.
  - exact IHl.
Qed.

Lemma item_get_set_same (k : string) (v : pyvalue) (d : list (string * pyvalue)) :
  item_get k (item_set k v d) = Some v.
Proof.
  induction d as [|[k0 v0] d IH]; simpl.
  - now rewrite String.eqb_refl.
  - destruct (String.eqb_spec k0 k); simpl.
    + subst k0. now rewrite String.eqb_refl.
    + destruct (String.eqb_spec k0 k); [contradiction | exact IH].
Qed.

Lemma item_get_set_other (k k' : string) (v : pyvalue)
  (d : list (string * pyvalue)) :
  k <> k' -> item_get k (item_set k' v d) = item_get k d.
Proof.
  intro Hk. induction d as [|[k0 v0] d IH]; simpl.
  - destruct (String.eqb_spec k' k); [congruence | reflexivity].
  - destruct (String.eqb_spec k0 k'); simpl.
    + subst k0. destruct (String.eqb_spec k' k); [congruence | reflexivity].
    + destruct (String.eqb_spec k0 k); [reflexivity | exact IH].
Qed.

Lemma item_set_get_same (k : string) (v : pyvalue) (d : list (string * pyvalue)) :
  item_get k d = Some v -> item_set k v d = d.
Proof.
  induction d as [|[k0 v0] d IH]; simpl; [discriminate|].
  destruct (String.eqb_spec k0 k).
  - intro E. now inversion E.
  - intro E. now rewrite (IH E).
Qed.

Lemma item_set_new (k : string) (v : pyvalue) (d : list (string * pyvalue)) :
  ~ In k (List.map fst d) -> item_set k v d = (d ++ [(k, v)])%list.
Proof.
  induction d as [|[k0 v0] d IH]; simpl; [reflexivity|].
  intro Hn. destruct (String.eqb_spec k0 k) as [->|_].
  - exfalso. apply Hn. now left.
  - rewrite IH; [reflexivity|]. intro Hi. apply Hn. now right.
Qed.

Lemma item_get_absent (k : string) (d : list (string * pyvalue)) :
  ~ In k (List.map fst d) -> item_get k d = None.
Proof.
  induction d as [|[k0 v0] d IH]; simpl; [reflexivity|].
  intro Hn. destruct (String.eqb_spec k0 k) as [->|_].
  - exfalso. apply Hn. now left.
  - apply IH. intro Hi. apply Hn. now right.
Qed.

(** the loop of [dict_update], item by item *)
Lemma dict_update_items_lookup (us : list (string * pyvalue)) :
  forall (ds : list (string * pyvalue)) (r : pyvalue),
  dict_update_items (Mapping ds) us = Ok r ->
  exists rs,
    r = Mapping rs /\
    (forall k, ~ In k (List.map fst us) -> item_get k rs = item_get k ds) /\
    (NoDup (List.map fst us) ->
     forall k v, In (k, v) us ->
       match v with
       | Leaf s => item_get k rs = Some (Leaf s)
       | Mapping vs =>
           exists r', dict_update (get_or_empty k ds) (Mapping vs) = Ok r' /\
                      item_get k rs = Some r'
       end).
Proof.
  induction us as [|[k v] us IH]; intros ds r E.
  - inversion E; subst. exists ds. split; [reflexivity|].
    split; [reflexivity|]. intros _ k v [].
  - cbn [dict_update_items] in E.
    assert (Hstep : exists x,
               dict_update_items (Mapping (item_set k x ds)) us = Ok r /\
               match v with
               | Leaf s => x = Leaf s
               | Mapping vs =>
                   dict_update (get_or_empty k ds) (Mapping vs) = Ok x
               end).
    { destruct v as [s|vs].
      - exists (Leaf s). now split.
      - apply bind_Ok in E as [x [E1 E2]]. exists x. now split. }
    destruct Hstep as (x & E' & Hx).
    destruct (IH _ _ E') as (rs & -> & Hframe & Hin).
    exists rs. split; [reflexivity|]. split.
    + intros k' Hk'. cbn [List.map fst In] in Hk'.
      rewrite Hframe by tauto. apply item_get_set_other. intro. subst. tauto.
    + intros Hnd k' v' Hi. cbn [List.map fst] in Hnd.
      inversion Hnd as [|? ? Hk Hnd']; subst.
      destruct Hi as [Hi|Hi].
      * inversion Hi; subst k' v'.
        rewrite (Hframe k Hk), item_get_set_same.
        destruct v as [s|vs]; [now rewrite Hx | now exists x].
      * specialize (Hin Hnd' k' v' Hi).
        assert (Hne : k' <> k).
        { intro. subst k'. apply Hk.
          change k with (fst (k, v')). now apply in_map. }
        destruct v' as [s'|vs']; [exact Hin|].
        unfold get_or_empty in Hin |- *.
        now rewrite (item_get_set_other k' k x ds Hne) in Hin.
Qed.

(** X11. After [dict_update(d, u)] the keys of [d] that [u] does not hold
    keep their values; a key that [u] holds with a plain value has that
    value; a key that [u] holds with a dictionary has the update of
    [d.get(k, {})] by that dictionary. *)
Theorem dict_update_lookup (ds us : list (string * pyvalue)) (r : pyvalue) :
  NoDup (List.map fst us) ->
  dict_update (Mapping ds) (Mapping us) = Ok r ->
  exists rs,
    r = Mapping rs /\
    (forall k, ~ In k (List.map fst us) -> item_get k rs = item_get k ds) /\
    (forall k s, In (k, Leaf s) us -> item_get k rs = Some (Leaf s)) /\
    (forall k vs, In (k, Mapping vs) us ->
       exists r', dict_update (get_or_empty k ds) (Mapping vs) = Ok r' /\
                  item_get k rs = Some r').
Proof.
  intros Hnd E. rewrite dict_update_unfold in E.
  destruct (dict_update_items_lookup _ _ _ E) as (rs & -> & Hframe & Hin).
  exists rs. repeat split; [exact Hframe | |].
  - intros k s Hi. exact (Hin Hnd k (Leaf s) Hi).
  - intros k vs Hi. exact (Hin Hnd k (Mapping vs) Hi).
Qed.

Lemma dict_update_lookup_witness :
  exists rs,
    Mapping [("a", Leaf "1"); ("b", Mapping [("c", Leaf "2"); ("d", Leaf "4")]);
             ("e", Leaf "5")] = Mapping rs /\
    (forall k, ~ In k (List.map fst [("b", Mapping [("d", Leaf "4")]);
                                     ("e", Leaf "5")]) ->
       item_get k rs
       = item_get k [("a", Leaf "1"); ("b", Mapping [("c", Leaf "2")])]) /\
    (forall k s, In (k, Leaf s) [("b", Mapping [("d", Leaf "4")]);
                                 ("e", Leaf "5")] ->
       item_get k rs = Some (Leaf s)) /\
    (forall k vs, In (k, Mapping vs) [("b", Mapping [("d", Leaf "4")]);
                                      ("e", Leaf "5")] ->
       exists r',
         dict_update
           (get_or_empty k [("a", Leaf "1"); ("b", Mapping [("c", Leaf "2")])])
           (Mapping vs) = Ok r' /\
         item_get k rs = Some r').
Proof.
  apply (dict_update_lookup
           [("a", Leaf "1"); ("b", Mapping [("c", Leaf "2")])]
           [("b", Mapping [("d", Leaf "4")]); ("e", Leaf "5")]).
  - repeat constructor; simpl; intuition discriminate.
  - reflexivity.
Defined.

Lemma well_keyed_items (items : list (string * pyvalue)) :
  well_keyed (Mapping items) <->
  NoDup (List.map fst items) /\ Forall (fun kv => well_keyed (snd kv)) items.
Proof.
  cbn [well_keyed]. split; intros [Hn Ha]; (split; [exact Hn|]).
  - induction items as [|[k v] items IH]; constructor.
    + apply Ha.
    + apply IH; [now inversion Hn | apply Ha].
  - induction items as [|[k v] items IH]; [exact I|].
    inversion Ha; subst. split; [assumption|].
    apply IH; [now inversion Hn | assumption].
Qed.

Lemma dict_update_items_fresh (us : list (string * pyvalue)) :
  Forall (fun kv => match snd kv with
                    | Leaf _ => True
                    | Mapping vs =>
                        dict_update (Mapping []) (Mapping vs) = Ok (Mapping vs)
                    end) us ->
  forall pre,
  NoDup (List.map fst (pre ++ us)) ->
  dict_update_items (Mapping pre) us = Ok (Mapping (pre ++ us)).
Proof.
  induction 1 as [|[k v] us Hv Hus IH]; intros pre Hnd.
  - now rewrite app_nil_r.
  - assert (Hk : ~ In k (List.map fst pre)).
    { rewrite map_app in Hnd. cbn [List.map fst] in Hnd.
      apply NoDup_remove_2 in Hnd. intro Hi. apply Hnd.
      apply in_or_app. now left. }
    assert (Hnext : dict_update_items (Mapping (item_set k v pre)) us
                    = Ok (Mapping (pre ++ (k, v) :: us))).
    { rewrite (item_set_new k v pre Hk), IH.
      - now rewrite <- app_assoc.
      - now rewrite <- app_assoc. }
    cbn [dict_update_items]. destruct v as [s|vs]; [exact Hnext|].
    rewrite (item_get_absent k pre Hk). cbn [snd] in Hv. rewrite Hv.
    exact Hnext.
Qed.

Lemma dict_update_empty_value (u : pyvalue) :
  well_keyed u ->
  match u with
  | Leaf _ => True
  | Mapping us => dict_update (Mapping []) (Mapping us) = Ok (Mapping us)
  end.
Proof.
  induction u as [s|items IH] using pyvalue_induction; intro Hw; [exact I|].
  apply well_keyed_items in Hw as [Hn Ha].
  rewrite dict_update_unfold.
  apply (dict_update_items_fresh items); [|exact Hn].
  rewrite Forall_forall in *. intros [k v] Hi.
  exact (IH _ Hi (Ha _ Hi)).
Qed.

(** X12. Updating the empty dictionary by a dictionary [u] returns a
    dictionary equal to [u], at every depth. *)
Theorem dict_update_empty (us : list (string * pyvalue)) :
  well_keyed (Mapping us) ->
  dict_update (Mapping []) (Mapping us) = Ok (Mapping us).
Proof. exact (dict_update_empty_value (Mapping us)). Qed.

Lemma dict_update_empty_witness :
  dict_update (Mapping [])
    (Mapping [("a", Leaf "1"); ("b", Mapping [("c", Leaf "2")])])
  = Ok (Mapping [("a", Leaf "1"); ("b", Mapping [("c", Leaf "2")])]).
Proof.
  apply (dict_update_empty [("a", Leaf "1"); ("b", Mapping [("c", Leaf "2")])]).
  cbn. repeat split; repeat constructor; simpl; intuition discriminate.
Defined.

Lemma dict_update_items_fixed (rs us : list (string * pyvalue)) :
  Forall (fun kv => match snd kv with
                    | Leaf s => item_get (fst kv) rs = Some (Leaf s)
                    | Mapping vs =>
                        exists r', item_get (fst kv) rs = Some r' /\
                                   dict_update r' (Mapping vs) = Ok r'
                    end) us ->
  dict_update_items (Mapping rs) us = Ok (Mapping rs).
Proof.
  induction 1 as [|[k v] us Hv Hus IH]; [reflexivity|].
  cbn [dict_update_items]. cbn [fst snd] in Hv. destruct v as [s|vs].
  - now rewrite (item_set_get_same k _ rs Hv).
  - destruct Hv as (r' & Hg & Hu). rewrite Hg, Hu. cbn [bind].
    now rewrite (item_set_get_same k _ rs Hg).
Qed.

Lemma dict_update_twice_value (u : pyvalue) :
  well_keyed u ->
  forall d r, dict_update d u = Ok r -> dict_update r u = Ok r.
Proof.
  induction u as [s|items IH] using pyvalue_induction; intros Hw d r E;
    [discriminate|].
  apply well_keyed_items in Hw as [Hn Ha].
  rewrite dict_update_unfold in *.
  destruct items as [|[k0 v0] items0] eqn:Ei; [now inversion E|].
  rewrite <- Ei in *.
  destruct d as [t|ds];
    [rewrite Ei in E; destruct v0; discriminate|].
  destruct (dict_update_items_lookup _ _ _ E) as (rs & -> & _ & Hin).
  apply dict_update_items_fixed.
  rewrite Forall_forall in *. intros [k v] Hi. cbn [fst snd].
  specialize (Hin Hn k v Hi). destruct v as [s|vs]; [exact Hin|].
  destruct Hin as (r' & Hu & Hg). exists r'. split; [exact Hg|].
  exact (IH _ Hi (Ha _ Hi) _ _ Hu).
Qed.

(** X13. Updating a second time by the same dictionary changes nothing:
    when [dict_update(d, u)] returns [r], [dict_update(r, u)] returns
    [r]. *)
Theorem dict_update_idempotent (d r : pyvalue) (us : list (string * pyvalue)) :
  well_keyed (Mapping us) ->
  dict_update d (Mapping us) = Ok r ->
  dict_update r (Mapping us) = Ok r.
Proof. intros Hw E. exact (dict_update_twice_value _ Hw _ _ E). Qed.

Lemma dict_update_idempotent_witness :
  dict_update
    (Mapping [("a", Leaf "1"); ("b", Mapping [("c", Leaf "2"); ("d", Leaf "4")])])
    (Mapping [("b", Mapping [("d", Leaf "4")])])
  = Ok (Mapping [("a", Leaf "1");
                 ("b", Mapping [("c", Leaf "2"); ("d", Leaf "4")])]).
Proof.
  apply (dict_update_idempotent
           (Mapping [("a", Leaf "1"); ("b", Mapping [("c", Leaf "2")])])).
  - cbn. repeat split; repeat constructor; simpl; intuition discriminate.
  - reflexivity.
Defined.

(** X14. Where [d] holds a plain value under a key that [u] holds with a
    dictionary, [dict_update(d, u)] fails when that dictionary has items,
    and keeps the plain value when it is empty. *)
Theorem dict_update_plain_under_mapping
  (ds us vs : list (string * pyvalue)) (k s : string) :
  NoDup (List.map fst us) ->
  In (k, Mapping vs) us ->
  item_get k ds = Some (Leaf s) ->
  match vs with
  | [] => forall r, dict_update (Mapping ds) (Mapping us) = Ok r ->
                    exists rs, r = Mapping rs /\ item_get k rs = Some (Leaf s)
  | _ :: _ => forall r, dict_update (Mapping ds) (Mapping us) <> Ok r
  end.
Proof.
  intros Hn Hi Hg.
  assert (Hr : forall r, dict_update (Mapping ds) (Mapping us) = Ok r ->
             exists rs r', r = Mapping rs /\
                           dict_update (Leaf s) (Mapping vs) = Ok r' /\
                           item_get k rs = Some r').
  { intros r E. rewrite dict_update_unfold in E.
    destruct (dict_update_items_lookup _ _ _ E) as (rs & -> & _ & Hin).
    destruct (Hin Hn k (Mapping vs) Hi) as (r' & Hu & Hg').
    unfold get_or_empty in Hu. rewrite Hg in Hu. now exists rs, r'. }
  destruct vs as [|[k' v'] vs].
  - intros r E. destruct (Hr r E) as (rs & r' & -> & Hu & Hg').
    inversion Hu; subst. now exists rs.
  - intros r E. destruct (Hr r E) as (rs & r' & _ & Hu & _).
    destruct v'; discriminate.
Qed.

Lemma dict_update_plain_under_mapping_witness :
  exists rs,
    Mapping [("a", Leaf "1"); ("b", Leaf "2")] = Mapping rs /\
    item_get "a" rs = Some (Leaf "1").
Proof.
  apply (dict_update_plain_under_mapping
           [("a", Leaf "1")] [("a", Mapping []); ("b", Leaf "2")] [] "a" "1").
  - repeat constructor; simpl; intuition discriminate.
  - now left.
  - reflexivity.
  - reflexivity.
Defined.

(** ** [generic_masked] *)

Lemma masked_outside_cell (arr : masked_array) (fv v1 v2 : float) (i : nat)
  (x : float) (b : bool) :
  nth_error arr i = Some (x, b) ->
  exists b', nth_error (Utils.masked_outside arr fv v1 v2) i = Some (x, b') /\
             (b = true -> b' = true).
Proof.
  intro E. unfold Utils.masked_outside.
  destruct (if PrimFloat.ltb v2 v1 then (v2, v1) else (v1, v2)) as [w1 w2].
  rewrite nth_error_map, E. cbn [option_map fst snd].
  eexists. split; [reflexivity|]. now intros ->.
Qed.

Lemma fix_invalid_cell (fv : float) (arr : masked_array) (i : nat) (x : float)
  (b : bool) :
  nth_error arr i = Some (x, b) ->
  nth_error (fix_invalid fv arr) i
  = Some (if is_finite x then (x, b) else (fv, true)).
Proof.
  intro E. unfold fix_invalid. rewrite nth_error_map, E. reflexivity.
Qed.

Lemma generic_masked_unfold (arr : masked_array) (fv : float)
  (attrs : option Utils.attrs) (minv maxv : option float) (mask_nan : bool) :
  exists v1 v2,
    Utils.generic_masked arr fv attrs minv maxv mask_nan
    = Utils.masked_outside (if mask_nan then fix_invalid fv arr else arr) fv
        v1 v2.
Proof.
  unfold Utils.generic_masked.
  destruct (match Utils.valid_range _ with Some vr => vr | None => _ end)
    as [lo hi].
  now eexists; eexists.
Qed.

(** X15. [generic_masked] keeps the shape of the array and every mask that
    is set; a cell it leaves unmasked, or whose value is finite, keeps its
    value. *)
Theorem generic_masked_cells (arr : masked_array) (fv : float)
  (attrs : option Utils.attrs) (minv maxv : option float) (mask_nan : bool) :
  List.length (Utils.generic_masked arr fv attrs minv maxv mask_nan)
  = List.length arr /\
  forall i x b, nth_error arr i = Some (x, b) ->
    exists y b',
      nth_error (Utils.generic_masked arr fv attrs minv maxv mask_nan) i
      = Some (y, b') /\
      (b = true -> b' = true) /\
      (b' = false -> y = x) /\
      (is_finite x = true -> y = x).
Proof.
  destruct (generic_masked_unfold arr fv attrs minv maxv mask_nan)
    as (v1 & v2 & ->).
  split.
  - unfold Utils.masked_outside, fix_invalid.
    destruct (if PrimFloat.ltb v2 v1 then _ else _) as [w1 w2].
    destruct mask_nan; now rewrite ?length_map.
  - intros i x b E. destruct mask_nan.
    + pose proof (fix_invalid_cell fv arr i x b E) as E'.
      destruct (is_finite x) eqn:Ef.
      * destruct (masked_outside_cell _ fv v1 v2 _ _ _ E') as (b' & -> & Hb).
        exists x, b'. now repeat split.
      * destruct (masked_outside_cell _ fv v1 v2 _ _ _ E') as (b' & -> & Hb).
        exists fv, b'. rewrite (Hb eq_refl).
        repeat split; intros; discriminate.
    + destruct (masked_outside_cell _ fv v1 v2 _ _ _ E) as (b' & -> & Hb).
      exists x, b'. now repeat split.
Qed.

(** X16. With [mask_nan] every cell [generic_masked] leaves unmasked holds
    a finite value, and every cell of the array whose value is not finite
    is masked in the result, where it holds the fill value of the array. *)
Theorem generic_masked_finite (arr : masked_array) (fv : float)
  (attrs : option Utils.attrs) (minv maxv : option float) :
  (forall x, In (x, false) (Utils.generic_masked arr fv attrs minv maxv true) ->
             is_finite x = true) /\
  (forall i x b, nth_error arr i = Some (x, b) -> is_finite x = false ->
     nth_error (Utils.generic_masked arr fv attrs minv maxv true) i
     = Some (fv, true)).
Proof.
  destruct (generic_masked_unfold arr fv attrs minv maxv true)
    as (v1 & v2 & ->).
  split.
  - unfold Utils.masked_outside, fix_invalid.
    destruct (if PrimFloat.ltb v2 v1 then _ else _) as [w1 w2].
    intros x Hc.
    apply in_map_iff in Hc as (c1 & Hc & Hc1).
    apply in_map_iff in Hc1 as (c0 & <- & _).
    destruct (is_finite (fst c0)) eqn:Ef; cbn [fst snd] in Hc.
    + injection Hc as Hx _. now subst x.
    + discriminate Hc.
  - intros i x b E Ef.
    pose proof (fix_invalid_cell fv arr i x b E) as E'. rewrite Ef in E'.
    destruct (masked_outside_cell _ fv v1 v2 _ _ _ E') as (b' & -> & Hb).
    now rewrite (Hb eq_refl).
Qed.

(** X17. With bounds [lo] and [hi] in this order, given as arguments or as
    the attribute [valid_range], a cell [generic_masked] leaves unmasked is
    an unmasked cell of the array, not below [lo] and not above [hi]; with
    [mask_nan] it is finite. *)
Theorem generic_masked_within (arr : masked_array) (fv : float)
  (attrs : option Utils.attrs) (minv maxv : option float) (mask_nan : bool)
  (lo hi x : float) :
  (attrs = None /\ minv = Some lo /\ maxv = Some hi) \/
  (exists a, attrs = Some a /\ Utils.valid_range a = Some (Some lo, Some hi)) ->
  PrimFloat.ltb hi lo = false ->
  In (x, false) (Utils.generic_masked arr fv attrs minv maxv mask_nan) ->
  In (x, false) arr /\
  PrimFloat.ltb x lo = false /\ PrimFloat.ltb hi x = false /\
  (mask_nan = true -> is_finite x = true).
Proof.
  intros Hb Ho Hi.
  assert (E : Utils.generic_masked arr fv attrs minv maxv mask_nan
              = Utils.masked_outside
                  (if mask_nan then fix_invalid fv arr else arr) fv lo hi).
  { unfold Utils.generic_masked.
    destruct Hb as [(-> & -> & ->) | (a & -> & Hr)];
      [reflexivity | now rewrite Hr]. }
  rewrite E in Hi. unfold Utils.masked_outside in Hi. rewrite Ho in Hi.
  apply in_map_iff in Hi as ([y b] & Hc & Hi). cbn [fst snd] in Hc.
  injection Hc as Hy Hm. subst y.
  apply orb_false_elim in Hm as [Hm Hhi].
  apply orb_false_elim in Hm as [Hb0 Hlo]. subst b. cbv iota in Hlo, Hhi.
  destruct mask_nan.
  - unfold fix_invalid in Hi. apply in_map_iff in Hi as ([y b] & Hc' & Hi).
    cbn [fst] in Hc'. destruct (is_finite y) eqn:Ef.
    + injection Hc' as Hy Hb'. subst y b. repeat split; try assumption.
      intros _. exact Ef.
    + discriminate Hc'.
  - repeat split; try assumption. discriminate.
Qed.

Lemma generic_masked_within_witness :
  In (20%float, false) [(20%float, false); (60%float, false)] /\
  PrimFloat.ltb 20 0 = false /\ PrimFloat.ltb 50 20 = false /\
  (true = true -> is_finite 20 = true).
Proof.
  apply (generic_masked_within [(20%float, false); (60%float, false)]
           default_fill_value None (Some 0%float) (Some 50%float) true 0%float 50%float).
  - left. repeat split.
  - reflexivity.
  - left. reflexivity.
Defined.

(** X18. The attributes take precedence over the arguments: with a
    [valid_range], or with both [valid_min] and [valid_max], the arguments
    [minv] and [maxv] have no effect. *)
Theorem generic_masked_attrs_first (arr : masked_array) (fv : float)
  (a : Utils.attrs)
  (minv maxv minv' maxv' : option float) (mask_nan : bool) :
  Utils.valid_range a <> None \/
  (Utils.valid_min a <> None /\ Utils.valid_max a <> None) ->
  Utils.generic_masked arr fv (Some a) minv maxv mask_nan
  = Utils.generic_masked arr fv (Some a) minv' maxv' mask_nan.
Proof.
  intros [Hr | [Hmin Hmax]]; unfold Utils.generic_masked.
  - destruct (Utils.valid_range a) as [[lo hi]|]; [reflexivity | contradiction].
  - destruct (Utils.valid_min a); [|contradiction].
    destruct (Utils.valid_max a); [|contradiction]. reflexivity.
Qed.

Lemma generic_masked_attrs_first_witness :
  Utils.generic_masked [(60%float, false)] default_fill_value
    (Some {| Utils.valid_min := None; Utils.valid_max := None;
             Utils.valid_range := Some (Some 0%float, Some 50%float) |})
    (Some 0%float) (Some 100%float) true
  = Utils.generic_masked [(60%float, false)] default_fill_value
      (Some {| Utils.valid_min := None; Utils.valid_max := None;
               Utils.valid_range := Some (Some 0%float, Some 50%float) |})
      None None true.
Proof.
  apply generic_masked_attrs_first. left. discriminate.
Defined.

(** ** The classifiers, further *)

(** X19. The timeseries classifier raises in one case only: the dataset
    has exactly one [timeseries_id] variable and its [featureType]
    attribute is absent or is not text, and the exception is
    [AttributeError]; in every other case it returns [True] or [False]. *)
Theorem timeseries_is_mine_exceptions (dsg : Dataset.t) (e : exn) :
  IncompleteMultidimensionalTimeseries.is_mine dsg = Raise e <->
  e = AttributeError /\
  List.length (Dataset.by_cf_role dsg "timeseries_id") = 1 /\
  (Dataset.featureType dsg = None \/ Dataset.featureType dsg = Some Number).
Proof.
  unfold IncompleteMultidimensionalTimeseries.is_mine,
    IncompleteMultidimensionalTimeseries.is_mine_checks.
  destruct (Dataset.by_cf_role dsg "timeseries_id") as [|r [|r' rs]];
    cbn [List.length Nat.eqb assert bind];
    try (split; [discriminate | intros (_ & Hl & _); discriminate Hl]).
  destruct (Dataset.featureType dsg) as [[ft|]|];
    cbn [getattr attribute_lower bind].
  - split; [|intros (_ & _ & [Hf|Hf]); discriminate Hf].
    destruct (Dataset.t_axes dsg) as [|t0 ts], (Dataset.x_axes dsg) as [|x0 xs],
      (Dataset.y_axes dsg) as [|y0 ys];
      cbn [List.length Nat.leb getitem nth_error];
      repeat match goal with
             | |- context [assert ?b] =>
                 destruct b; cbn [assert bind getitem nth_error]
             end;
      discriminate.
  - split.
    + intro E. inversion E. repeat split. now right.
    + now intros (-> & _ & _).
  - split.
    + intro E. inversion E. repeat split. now left.
    + now intros (-> & _ & _).
Qed.

(** X20. A dataset the profile classifier accepts is refused by the
    timeseries classifier, with [False] and no exception. *)
Theorem profile_is_not_timeseries (dsg : Dataset.t) :
  IncompleteMultidimensionalProfile.is_mine dsg = true ->
  IncompleteMultidimensionalTimeseries.is_mine dsg = Ok false.
Proof.
  unfold is_mine. destruct (is_mine_checks dsg) as [u|e0] eqn:E; [|discriminate].
  intros _. unfold is_mine_checks in E. do 4 bind_step E.
  apply assert_Ok in Ea2. apply String.eqb_eq in Ea2.
  unfold IncompleteMultidimensionalTimeseries.is_mine,
    IncompleteMultidimensionalTimeseries.is_mine_checks.
  destruct (Nat.eqb (List.length (Dataset.by_cf_role dsg "timeseries_id")) 1);
    cbn [assert bind]; [|reflexivity].
  rewrite Ea0. cbn [bind]. rewrite Ea1. cbn [bind]. rewrite Ea2. reflexivity.
Qed.

Lemma profile_is_not_timeseries_witness :
  IncompleteMultidimensionalTimeseries.is_mine Examples.grid_2x2 = Ok false.
Proof.
  apply (profile_is_not_timeseries Examples.grid_2x2). reflexivity.
Defined.

(** X21. The flattener reads the units of the time axis without a
    default: on a dataset the classifier accepts whose time axis has no
    [units] attribute it raises [AttributeError]. *)
Theorem to_dataframe_without_units `{External} (ds : Dataset.t) (tvar : Var.t)
  (clean_cols clean_rows : bool) :
  IncompleteMultidimensionalProfile.is_mine ds = true ->
  Dataset.t_axes ds = [tvar] ->
  Var.units tvar = None ->
  to_dataframe ds clean_cols clean_rows = Raise AttributeError.
Proof.
  intros Hm Ht Hu.
  destruct (is_mine_inv ds Hm)
    as (pvar & tvar' & xvar & yvar & zvar & pd & p_dim & zd & z_dim
        & Hp & Ht' & Hx & Hy & Hz & _ & _ & _ & Hpd & Hpdim & Hzd & Hzdim & _).
  unfold to_dataframe. rewrite Hp. cbn [getitem nth_error bind].
  fold (getitem (Var.dimensions pvar) 0). rewrite Hpd. cbn [bind].
  rewrite Hpdim. cbn [bind]. rewrite Hz. cbn [getitem nth_error bind].
  fold (getitem (filter (fun d => negb (String.eqb d (fst p_dim)))
                   (Var.dimensions zvar)) 0).
  rewrite Hzd. cbn [bind]. rewrite Hzdim. cbn [bind].
  rewrite Ht. cbn [getitem nth_error bind]. rewrite Hu. reflexivity.
Qed.

Lemma to_dataframe_without_units_witness :
  to_dataframe (H := Examples.externals) grid_without_units true true
  = Raise AttributeError.
Proof.
  apply (to_dataframe_without_units (H := Examples.externals)
           grid_without_units
           (without_units
              (Examples.variable "time" float_t ["profile"] None
                 (Examples.plain [0; 60]%float)))); reflexivity.
Defined.

(** ** The summary of a table *)

(** X22. The geometry of a summary is well formed: a line has two points
    at least and no point equal to its successor, a point is the first
    location, and without [geometries] there is neither. *)
Theorem calculated_metadata_geometry (df : DataFrame.t) (geometries : bool)
  (m : Metadata) :
  calculated_metadata_of df geometries = Ok m ->
  (geometries = false -> first_loc m = None /\ geometry m = None) /\
  (forall coords, geometry m = Some (LineString coords) ->
                  2 <= List.length coords /\ no_repeat coord_eqb coords) /\
  (forall x y, geometry m = Some (Point x y) ->
               first_loc m = Some (Point x y)).
Proof.
  intro E. unfold calculated_metadata_of in E.
  apply bind_Ok in E as [groups [_ E]].
  apply bind_Ok in E as [profiles [_ E]].
  apply bind_Ok in E as [[fl geo] [Eg E]].
  apply bind_Ok in E as [tmin [_ E]].
  apply bind_Ok in E as [tmax [_ E]].
  inversion E; subst m; clear E. cbn [first_loc geometry].
  destruct geometries.
  - apply bind_Ok in Eg as [first_row [_ Eg]].
    apply bind_Ok in Eg as [rx [_ Eg]].
    apply bind_Ok in Eg as [ry [_ Eg]].
    apply bind_Ok in Eg as [xs [_ Eg]].
    apply bind_Ok in Eg as [ys [_ Eg]].
    inversion Eg; subst fl geo; clear Eg.
    split; [discriminate|].
    destruct (Nat.ltb_spec 1
                (List.length (Utils.unique_justseen coord_eqb (combine xs ys))))
      as [Hl|Hl].
    + split.
      * intros coords Hc. inversion Hc; subst coords.
        split; [exact Hl | apply unique_justseen_output].
      * intros x y Hc. discriminate Hc.
    + destruct (Nat.eqb _ 1).
      * split; [intros coords Hc; discriminate Hc|].
        intros x y Hc. exact Hc.
      * split; [intros coords Hc | intros x y Hc]; discriminate Hc.
  - inversion Eg; subst fl geo.
    split; [now split|].
    split; [intros coords Hc | intros x y Hc]; discriminate Hc.
Qed.

Lemma calculated_metadata_geometry_witness :
  (true = false -> Some (Point (Float 1) (Float 1)) = None /\
                   Some (LineString [(Float 1, Float 1); (Float 2, Float 2)])
                   = None) /\
  (forall coords,
      Some (LineString [(Float 1, Float 1); (Float 2, Float 2)])
      = Some (LineString coords) ->
      2 <= List.length coords /\ no_repeat coord_eqb coords) /\
  (forall x y,
      Some (LineString [(Float 1, Float 1); (Float 2, Float 2)])
      = Some (Point x y) ->
      Some (Point (Float 1) (Float 1)) = Some (Point x y)).
Proof.
  apply (calculated_metadata_geometry
           (Examples.table [(1, 1); (1, 1); (2, 2)]%float) true
           {| min_t := Time 0; max_t := Time 2;
              profiles := [(Int 1, {| min_z := Float 0; max_z := Float 0;
                                      t := Time 0; x := Float 1; y := Float 1;
                                      loc := Point (Float 1) (Float 1) |})];
              first_loc := Some (Point (Float 1) (Float 1));
              geometry := Some (LineString [(Float 1, Float 1);
                                            (Float 2, Float 2)]) |}).
  vm_compute. reflexivity.
Defined.

(** X23. A table without rows, with its [profile] and [t] columns, is not
    summarized with [geometries]: [df.iloc[0]] raises [IndexError];
    without them the summary has no profile and no time. *)
Theorem calculated_metadata_no_rows (df : DataFrame.t) :
  DataFrame.nrows df = 0 ->
  DataFrame.column "profile" (DataFrame.columns df) = Some [] ->
  DataFrame.column "t" (DataFrame.columns df) = Some [] ->
  calculated_metadata_of df true = Raise IndexError /\
  calculated_metadata_of df false
  = Ok {| min_t := NA; max_t := NA; profiles := [];
          first_loc := None; geometry := None |}.
Proof.
  intros Hn Hp Ht.
  unfold calculated_metadata_of, DataFrame.groupby, DataFrame.getitem,
    DataFrame.iloc, DataFrame.getattr.
  rewrite Hp, Ht, Hn. split; reflexivity.
Qed.

Lemma calculated_metadata_no_rows_witness :
  calculated_metadata_of (Examples.table []) true = Raise IndexError /\
  calculated_metadata_of (Examples.table []) false
  = Ok {| min_t := NA; max_t := NA; profiles := [];
          first_loc := None; geometry := None |}.
Proof.
  apply (calculated_metadata_no_rows (Examples.table [])); reflexivity.
Defined.

Lemma profiles_loop_keys (groups : list (cell * DataFrame.t)) :
  forall (acc ps : list (cell * Profile)),
  profiles_loop groups acc = Ok ps ->
  List.map fst ps = (List.map fst acc ++ List.map fst groups)%list /\
  (Forall (fun kp => loc (snd kp) = Point (x (snd kp)) (y (snd kp))) acc ->
   Forall (fun kp => loc (snd kp) = Point (x (snd kp)) (y (snd kp))) ps).
Proof.
  induction groups as [|[pid pgroup] groups IH]; intros acc ps E.
  - inversion E; subst. rewrite app_nil_r. now split.
  - cbn [profiles_loop] in E.
    apply bind_Ok in E as [pg [_ E]].
    apply bind_Ok in E as [first_row [_ E]].
    apply bind_Ok in E as [zmin [_ E]].
    apply bind_Ok in E as [zmax [_ E]].
    apply bind_Ok in E as [rt [_ E]].
    apply bind_Ok in E as [rx [_ E]].
    apply bind_Ok in E as [ry [_ E]].
    destruct (IH _ _ E) as [Hk Hl]. unfold append in Hk, Hl. split.
    + rewrite Hk, map_app, <- app_assoc. reflexivity.
    + intro Ha. apply Hl. apply Forall_app. split; [exact Ha|].
      constructor; [reflexivity | constructor].
Qed.

(** X24. The summary has one profile for every distinct identifier of the
    [profile] column that is not missing, in increasing order, and the
    location of each is the point of its [x] and [y]. *)
Theorem calculated_metadata_profiles (df : DataFrame.t) (geometries : bool)
  (m : Metadata) :
  calculated_metadata_of df geometries = Ok m ->
  exists keycol,
    DataFrame.column "profile" (DataFrame.columns df) = Some keycol /\
    List.map fst (profiles m)
    = sorted cell_ltb (DataFrame.distinct
                         (filter (fun c => negb (isna c)) keycol)) /\
    Forall (fun kp => loc (snd kp) = Point (x (snd kp)) (y (snd kp)))
      (profiles m).
Proof.
  intro E. unfold calculated_metadata_of in E.
  apply bind_Ok in E as [groups [Eg E]].
  apply bind_Ok in E as [ps [Ep E]].
  apply bind_Ok in E as [[fl geo] [_ E]].
  apply bind_Ok in E as [tmin [_ E]].
  apply bind_Ok in E as [tmax [_ E]].
  inversion E; subst m; clear E. cbn [profiles].
  unfold DataFrame.groupby, DataFrame.getitem in Eg.
  destruct (DataFrame.column "profile" (DataFrame.columns df)) as [keycol|];
    [|discriminate].
  cbn [bind] in Eg. inversion Eg; subst groups; clear Eg.
  destruct (profiles_loop_keys _ _ _ Ep) as [Hk Hl].
  exists keycol. split; [reflexivity|]. split.
  - rewrite Hk, map_map. cbn [List.map fst app]. now rewrite map_id.
  - apply Hl. constructor.
Qed.

Lemma calculated_metadata_profiles_witness :
  exists keycol,
    DataFrame.column "profile"
      (DataFrame.columns (Examples.table [(1, 1); (2, 2)]%float))
    = Some keycol /\
    [Int 1]
    = sorted cell_ltb (DataFrame.distinct
                         (filter (fun c => negb (isna c)) keycol)) /\
    Forall (fun kp => loc (snd kp) = Point (x (snd kp)) (y (snd kp)))
      [(Int 1, {| min_z := Float 0; max_z := Float 0;
                  t := Time 0; x := Float 1; y := Float 1;
                  loc := Point (Float 1) (Float 1) |})].
Proof.
  apply (calculated_metadata_profiles
           (Examples.table [(1, 1); (2, 2)]%float) false
           {| min_t := Time 0; max_t := Time 1;
              profiles := [(Int 1, {| min_z := Float 0; max_z := Float 0;
                                      t := Time 0; x := Float 1; y := Float 1;
                                      loc := Point (Float 1) (Float 1) |})];
              first_loc := None; geometry := None |}).
  vm_compute. reflexivity.
Defined.

(** ** The table the flattener returns *)



Section WellFormed.

Context `{External}.


End WellFormed.



(** ** The time column, and the columns of the data variables *)

(** X26. Whenever the flattener returns, without pruning, and no data
    variable is named [t], the column [t] holds the time of every profile
    in as many consecutive rows as the vertical dimension has levels: the
    date of the units and calendar of the time axis, the calendar being
    [standard] when the axis has none, and a missing cell where the reader
    masked the time. *)
Theorem to_dataframe_time_column `{External} (ds : Dataset.t)
  (df : DataFrame.t) :
  to_dataframe ds false false = Ok df ->
  ~ In "t" (List.map Var.name (Dataset.datavars ds)) ->
  exists tvar units pvar ps zs,
    getitem (Dataset.t_axes ds) 0 = Ok tvar /\
    Var.units tvar = Some units /\
    grid_shape ds = Ok (pvar, ps, zs) /\
    DataFrame.column "t" (DataFrame.columns df)
    = Some (repeat_each zs
              (List.map (fun c : float * bool =>
                           if snd c then NA
                           else Time (num2date units
                                        (match Var.calendar tvar with
                                         | Some c => c
                                         | None => "standard"
                                         end) (fst c)))
                 (Var.values tvar))).
Proof.
  intros E Hn. unfold to_dataframe in E.
  apply bind_Ok in E as [pvar [Ep E]].
  apply bind_Ok in E as [pd [Epd E]].
  apply bind_Ok in E as [p_dim [Epdim E]].
  apply bind_Ok in E as [zvar [Ez E]].
  apply bind_Ok in E as [zd [Ezd E]].
  apply bind_Ok in E as [z_dim [Ezdim E]].
  apply bind_Ok in E as [tvar [Et E]].
  apply bind_Ok in E as [units [Eu E]].
  apply bind_Ok in E as [xvar [_ E]].
  apply bind_Ok in E as [yvar [_ E]].
  apply bind_Ok in E as [[b data] [Eloop E]].
  apply bind_Ok in E as [df' [Emake E]].
  inversion E; subst df'; clear E.
  exists tvar, units, pvar, (snd p_dim), (snd z_dim).
  split; [exact Et|]. split.
  - destruct (Var.units tvar); [now inversion Eu | discriminate].
  - split.
    + unfold grid_shape. rewrite Ep. cbn [bind]. rewrite Epd. cbn [bind].
      rewrite Epdim. cbn [bind]. rewrite Ez. cbn [bind].
      rewrite Ezd. cbn [bind]. rewrite Ezdim. reflexivity.
    + rewrite (make_columns _ _ Emake).
      rewrite (datavars_loop_column "t" _ _ _ _ _ Hn Eloop).
      reflexivity.
Qed.

Lemma to_dataframe_time_column_witness :
  exists tvar units pvar ps zs,
    getitem (Dataset.t_axes Examples.grid_2x2) 0 = Ok tvar /\
    Var.units tvar = Some units /\
    grid_shape Examples.grid_2x2 = Ok (pvar, ps, zs) /\
    Some [Time 0; Time 0; Time 60; Time 60]
    = Some (repeat_each zs
              (List.map (fun c : float * bool =>
                           if snd c then NA
                           else Time (num2date (External := Examples.externals)
                                        units
                                        (match Var.calendar tvar with
                                         | Some c => c
                                         | None => "standard"
                                         end) (fst c)))
                 (Var.values tvar))).
Proof.
  apply (to_dataframe_time_column (H := Examples.externals) Examples.grid_2x2
           {| DataFrame.index := [0; 1; 2; 3];
              DataFrame.columns :=
                [("t", [Time 0; Time 0; Time 60; Time 60]);
                 ("x", [Float 1; Float 1; Float 2; Float 2]);
                 ("y", [Float 1; Float 1; Float 2; Float 2]);
                 ("z", [Float 0; Float 5; Float 3; Float 9]);
                 ("profile", [Int 7; Int 7; Int 9; Int 9]);
                 ("distance", [Float 0; Float 0; Float 2; Float 2]);
                 ("temperature",
                  [Float 10.5; Float 11.25; Float 12; Float 13])] |}).
  - vm_compute. reflexivity.
  - vm_compute. intuition discriminate.
Defined.

(** X27. Whenever the flattener returns, without pruning, the column under
    the name of a data variable holds the cells of the last data variable
    of that name, also when the name is that of a coordinate column, which
    the variable then replaces. *)
Theorem to_dataframe_last_name_wins `{External} (ds : Dataset.t)
  (df : DataFrame.t) (dvs dvs' : list Var.t) (dv : Var.t) :
  to_dataframe ds false false = Ok df ->
  Dataset.datavars ds = (dvs ++ dv :: dvs')%list ->
  ~ In (Var.name dv) (List.map Var.name dvs') ->
  DataFrame.column (Var.name dv) (DataFrame.columns df)
  = Some (float_column (data_array dv)).
Proof.
  intros E Hd Hn. unfold to_dataframe in E.
  apply bind_Ok in E as [pvar [_ E]].
  apply bind_Ok in E as [pd [_ E]].
  apply bind_Ok in E as [p_dim [_ E]].
  apply bind_Ok in E as [zvar [_ E]].
  apply bind_Ok in E as [zd [_ E]].
  apply bind_Ok in E as [z_dim [_ E]].
  apply bind_Ok in E as [tvar [_ E]].
  apply bind_Ok in E as [units [_ E]].
  apply bind_Ok in E as [xvar [_ E]].
  apply bind_Ok in E as [yvar [_ E]].
  apply bind_Ok in E as [[b data] [Eloop E]].
  apply bind_Ok in E as [df' [Emake E]].
  inversion E; subst df'; clear E.
  rewrite (make_columns _ _ Emake). rewrite Hd in Eloop.
  exact (datavars_loop_last _ _ _ _ _ _ _ Hn Eloop).
Qed.

Lemma to_dataframe_last_name_wins_witness :
  DataFrame.column (Var.name range)
    [("t", [Time 0; Time 0; Time 60; Time 60]);
     ("x", [Float 1; Float 1; Float 2; Float 2]);
     ("y", [Float 1; Float 1; Float 2; Float 2]);
     ("z", [Float 0; Float 5; Float 3; Float 9]);
     ("profile", [Int 7; Int 7; Int 9; Int 9]);
     ("distance", [Float 1; Float 2; Float 3; Float 4])]
  = Some (float_column (data_array (H := Examples.externals) range)).
Proof.
  apply (to_dataframe_last_name_wins (H := Examples.externals) grid_shadowed
           {| DataFrame.index := [0; 1; 2; 3];
              DataFrame.columns :=
                [("t", [Time 0; Time 0; Time 60; Time 60]);
                 ("x", [Float 1; Float 1; Float 2; Float 2]);
                 ("y", [Float 1; Float 1; Float 2; Float 2]);
                 ("z", [Float 0; Float 5; Float 3; Float 9]);
                 ("profile", [Int 7; Int 7; Int 9; Int 9]);
                 ("distance", [Float 1; Float 2; Float 3; Float 4])] |}
           [] [] range).
  - vm_compute. reflexivity.
  - reflexivity.
  - intros [].
Defined.

(** ** [fix_int_dtypes] *)

(** X28. The type [fix_int_dtypes] returns is never a 64-bit integer type;
    for an array of 64-bit integers it is [int32] exactly when every
    element is within the range of [int32], and [float64] otherwise. *)
Theorem fix_int_dtypes_result (obj : ndarray) :
  fix_int_dtypes obj <> np_int64 /\
  fix_int_dtypes obj <> np_uint64 /\
  (nd_dtype obj = np_int64 \/ nd_dtype obj = np_uint64 ->
   (Forall (fun v => (int32_min <= v <= int32_max)%Z) (nd_values obj) /\
    fix_int_dtypes obj = np_int32) \/
   (Exists (fun v => (v < int32_min \/ int32_max < v)%Z) (nd_values obj) /\
    fix_int_dtypes obj = np_float64)).
Proof.
  unfold fix_int_dtypes.
  destruct (existsb (fun v => Z.ltb int32_max v) (nd_values obj)) eqn:E1;
    [|destruct (existsb (fun v => Z.ltb v int32_min) (nd_values obj)) eqn:E2];
    cbn [orb].
  - repeat split; try (destruct (nd_dtype obj); discriminate).
    intros Hd. right. split; [|destruct Hd as [-> | ->]; reflexivity].
    apply existsb_exists in E1 as (v & Hv & Hlt).
    apply Exists_exists. exists v. split; [exact Hv|].
    apply Z.ltb_lt in Hlt. now right.
  - repeat split; try (destruct (nd_dtype obj); discriminate).
    intros Hd. right. split; [|destruct Hd as [-> | ->]; reflexivity].
    apply existsb_exists in E2 as (v & Hv & Hlt).
    apply Exists_exists. exists v. split; [exact Hv|].
    apply Z.ltb_lt in Hlt. now left.
  - repeat split; try (destruct (nd_dtype obj); discriminate).
    intros Hd. left. split; [|destruct Hd as [-> | ->]; reflexivity].
    apply Forall_forall. intros v Hv. split.
    + destruct (Z.ltb_spec v int32_min) as [Hlt|Hge]; [|exact Hge].
      assert (Hx : existsb (fun v => Z.ltb v int32_min) (nd_values obj) = true).
      { apply existsb_exists. exists v. split; [exact Hv|].
        now apply Z.ltb_lt. }
      congruence.
    + destruct (Z.ltb_spec int32_max v) as [Hlt|Hge]; [|exact Hge].
      assert (Hx : existsb (fun v => Z.ltb int32_max v) (nd_values obj) = true).
      { apply existsb_exists. exists v. split; [exact Hv|].
        now apply Z.ltb_lt. }
      congruence.
Qed.

(** ** [generic_masked] and [NaN] *)

Lemma nan_not_less (x y : float) :
  is_nan x = true ->
  PrimFloat.ltb x y = false /\ PrimFloat.ltb y x = false.
Proof.
  unfold is_nan. rewrite eqb_spec, !ltb_spec.
  unfold SpecFloat.SFeqb, SpecFloat.SFltb.
  destruct (Prim2SF x) as [s| s| |s m e]; cbn [SpecFloat.SFcompare].
  - discriminate.
  - destruct s; discriminate.
  - intros _. split; [reflexivity|].
    destruct (Prim2SF y); reflexivity.
  - rewrite Z.compare_refl, Pos.compare_cont_refl.
    destruct s; discriminate.
Qed.

(** X29. Without [mask_nan] the bounds never mask a [NaN]: a cell that
    holds [NaN] and that the reader did not mask is left as it is, whatever
    the attributes and the arguments. *)
Theorem generic_masked_keeps_nan (arr : masked_array) (fv : float)
  (attrs : option Utils.attrs) (minv maxv : option float) (x : float) :
  is_nan x = true ->
  In (x, false) arr ->
  In (x, false) (Utils.generic_masked arr fv attrs minv maxv false).
Proof.
  intros Hx Hi.
  destruct (generic_masked_unfold arr fv attrs minv maxv false)
    as (v1 & v2 & ->).
  unfold Utils.masked_outside.
  destruct (if PrimFloat.ltb v2 v1 then (v2, v1) else (v1, v2)) as [w1 w2].
  apply in_map_iff. exists (x, false). split; [|exact Hi].
  cbn [fst snd orb].
  destruct (nan_not_less x w1 Hx) as [-> _].
  destruct (nan_not_less x w2 Hx) as [_ ->]. reflexivity.
Qed.

Lemma generic_masked_keeps_nan_witness :
  In (nan, false)
    (Utils.generic_masked [(nan, false); (60%float, false)]
       default_fill_value None
       (Some 0%float) (Some 50%float) false).
Proof.
  apply (generic_masked_keeps_nan [(nan, false); (60%float, false)]
           default_fill_value None
           (Some 0%float) (Some 50%float) nan).
  - reflexivity.
  - left. reflexivity.
Defined.

Lemma generic_masked_cells_witness :
  List.length
    (Utils.generic_masked [(20%float, false); (60%float, true)]
       default_fill_value None
       (Some 0%float) (Some 50%float) true)
  = List.length [(20%float, false); (60%float, true)] /\
  forall i x b,
    nth_error [(20%float, false); (60%float, true)] i = Some (x, b) ->
    exists y b',
      nth_error
        (Utils.generic_masked [(20%float, false); (60%float, true)]
       default_fill_value None
           (Some 0%float) (Some 50%float) true) i
      = Some (y, b') /\
      (b = true -> b' = true) /\
      (b' = false -> y = x) /\
      (is_finite x = true -> y = x).
Proof.
  apply (generic_masked_cells [(20%float, false); (60%float, true)]
           default_fill_value None
           (Some 0%float) (Some 50%float) true).
Defined.

Lemma timeseries_is_mine_exceptions_witness :
  IncompleteMultidimensionalTimeseries.is_mine Examples.no_feature_type
  = Raise AttributeError.
Proof.
  apply (proj2 (timeseries_is_mine_exceptions Examples.no_feature_type
                  AttributeError)).
  repeat split. now left.
Defined.

Lemma fix_int_dtypes_result_witness :
  fix_int_dtypes {| nd_dtype := np_int64; nd_values := [1; 4294967296]%Z |}
  = np_float64.
Proof.
  destruct (fix_int_dtypes_result
              {| nd_dtype := np_int64; nd_values := [1; 4294967296]%Z |})
    as (_ & _ & Hr).
  destruct (Hr (or_introl eq_refl)) as [[_ E] | [_ E]]; [discriminate E | exact E].
Defined.

(** ** Cell methods the encoder does not read *)

Lemma cell_methods_clause_no_colon (cm : string) :
  Str.has ":" cm = false -> Utils.cell_methods_clause cm = ([], []).
Proof.
  intro Hc. unfold Utils.cell_methods_clause.
  pose proof (cm_scan_run cm cm "" Hc 0 [] [] "") as E.
  rewrite append_empty_r in E. rewrite E. reflexivity.
Qed.

(** X30. A [cell_methods] text without a colon is not encoded: the
    identifier is the one of the record without the key [cell_methods]. *)
Theorem urnify_cell_methods_without_colon `{SetOrder}
  (rnd authority label cm : string)
  (r : Utils.data_dict) :
  Utils.cell_methods r = Some cm ->
  Str.has ":" cm = false ->
  Utils.urnify_from_dict rnd authority label r
  = Utils.urnify_from_dict rnd authority label (without_cell_methods r).
Proof.
  intros Hr Hc. unfold Utils.urnify_from_dict, without_cell_methods.
  cbn [Utils.cell_methods Utils.bounds Utils.vertical_datum Utils.interval
       Utils.standard_name Utils.name Utils.discriminant].
  rewrite Hr. change (Utils.present None) with (@None string).
  destruct (Utils.present (Some cm)) as [cm'|] eqn:Ep; [|reflexivity].
  assert (cm' = cm) by (destruct cm; [discriminate | now inversion Ep]).
  subst cm'. now rewrite (cell_methods_clause_no_colon cm Hc).
Qed.

Lemma urnify_cell_methods_without_colon_witness :
  Utils.urnify_from_dict (H := Examples.first_seen) "ABCDEFGH" "axiom" "foo"
    (sensor_record "wind_speed" (Some "mean over the hour") None)
  = Utils.urnify_from_dict (H := Examples.first_seen) "ABCDEFGH" "axiom" "foo"
      (without_cell_methods
         (sensor_record "wind_speed" (Some "mean over the hour") None)).
Proof.
  apply (urnify_cell_methods_without_colon (H := Examples.first_seen) "ABCDEFGH" "axiom" "foo"
           "mean over the hour"); reflexivity.
Defined.

(* ================================================================= *)
(** * The round trip of one cell method and its interval *)

(** ** Text without white space at its ends *)

Lemma rstrip_length (s : string) :
  String.length (Str.rstrip s) <= String.length s.
Proof.
  induction s as [|x s IH]; simpl; [lia|].
  destruct (Str.rstrip s) as [|y r].
  - destruct (Str.is_space x); simpl; lia.
  - simpl in *. lia.
Qed.

Lemma lstrip_same_length (s : string) :
  String.length (Str.lstrip s) = String.length s -> Str.lstrip s = s.
Proof.
  destruct s as [|x s]; [reflexivity|]. simpl.
  destruct (Str.is_space x); [|reflexivity].
  intro E. pose proof (lstrip_length s). simpl in E. lia.
Qed.

Lemma trimmed_fixed (m : string) :
  trimmed m = true -> Str.lstrip m = m /\ Str.rstrip m = m.
Proof.
  unfold trimmed, Str.strip. intro E. apply String.eqb_eq in E.
  assert (Hl : Str.lstrip m = m).
  { apply lstrip_same_length.
    pose proof (rstrip_length (Str.lstrip m)) as H1.
    pose proof (lstrip_length m) as H2. rewrite E in H1. lia. }
  split; [exact Hl|]. now rewrite Hl in E.
Qed.

Lemma rstrip_append_blank (s : string) :
  Str.rstrip (s ++ " ") = Str.rstrip s.
Proof.
  induction s as [|x s IH]; [reflexivity|].
  cbn [String.append Str.rstrip]. now rewrite IH.
Qed.

Lemma strip_blanks_around (m : string) :
  trimmed m = true ->
  Str.strip (" " ++ m ++ " ") = m /\ Str.strip (" " ++ m) = m.
Proof.
  intro Hm. destruct (trimmed_fixed m Hm) as [Hl Hr].
  unfold Str.strip. cbn [String.append Str.lstrip].
  change (Str.is_space " ") with true. cbv iota.
  split; [|now rewrite Hl].
  destruct m as [|x m]; [reflexivity|].
  pose proof (lstrip_fixed_head x m Hl) as Hx.
  cbn [String.append Str.lstrip]. rewrite Hx.
  change (String x (m ++ " ")) with (String x m ++ " ").
  now rewrite rstrip_append_blank.
Qed.

Lemma clean_value_padded (m : string) :
  Str.has "(" m = false -> Str.has ")" m = false -> trimmed m = true ->
  Utils.clean_value (" " ++ m ++ " (") = subst_char " " "_" m /\
  Utils.clean_value (" " ++ m ++ ")") = subst_char " " "_" m /\
  Utils.clean_value (" " ++ m) = subst_char " " "_" m.
Proof.
  intros Ho Hc Ht. destruct (strip_blanks_around m Ht) as [S1 S2].
  rewrite !clean_value_subst. repeat split.
  - change (" " ++ m ++ " (") with (String " " (m ++ " (")).
    cbn [subst_char]. change ((" " =? "(")%char) with false. cbv iota.
    rewrite subst_char_append, (subst_char_absent "(" "" m Ho).
    change (subst_char "(" "" " (") with " ".
    change (String " " (m ++ " ")) with (" " ++ m ++ " ").
    rewrite (subst_char_absent ")" "" (" " ++ m ++ " "))
      by (simpl; rewrite has_append, Hc; reflexivity).
    now rewrite S1.
  - change (" " ++ m ++ ")") with (String " " (m ++ ")")).
    rewrite (subst_char_absent "(" "" (String " " (m ++ ")")))
      by (simpl; rewrite has_append, Ho; reflexivity).
    cbn [subst_char]. change ((" " =? ")")%char) with false. cbv iota.
    rewrite subst_char_append, (subst_char_absent ")" "" m Hc).
    change (subst_char ")" "" ")") with "". rewrite append_empty_r.
    change (String " " m) with (" " ++ m).
    now rewrite S2.
  - change (" " ++ m) with (String " " m).
    rewrite (subst_char_absent "(" "" (String " " m)) by (simpl; exact Ho).
    rewrite (subst_char_absent ")" "" (String " " m)) by (simpl; exact Hc).
    change (String " " m) with (" " ++ m).
    now rewrite S2.
Qed.

(** the blanks written as underscores come back as blanks *)
Lemma underscores_back (m : string) :
  Str.has "_" m = false ->
  subst_char "_" " " (subst_char " " "_" m) = m.
Proof.
  induction m as [|x m IH]; [reflexivity|].
  intro Hm. cbn [Str.has] in Hm. apply orb_false_elim in Hm as [Hx Hm].
  cbn [subst_char]. destruct (Ascii.eqb_spec x " ") as [->|Hn].
  - cbn. now rewrite (IH Hm).
  - cbn [subst_char]. rewrite Hx. now rewrite (IH Hm).
Qed.

(** ** What the records of the round trip hold *)

Lemma method_ok_facts (f : record_form) (m : string) :
  method_ok f m = true ->
  (forall c, Str.has c ":()#;=,_" = true -> Str.has c m = false) /\
  trimmed m = true /\
  (f = Fused -> Str.contains "interval" m = false).
Proof.
  unfold method_ok. intro Hm.
  apply andb_prop in Hm as [Hm Hi]. apply andb_prop in Hm as [Hl Ht].
  repeat split; [|exact Ht|].
  - intros c Hc. now apply (lacks_has c ":()#;=,_").
  - intros ->. now apply negb_true_iff.
Qed.

Lemma token_ok_facts (f : record_form) (t : string) :
  token_ok f t = true ->
  t <> "" /\ Str.upper t = t /\
  (forall c, Str.has c "#;=," = true -> Str.has c t = false) /\
  (f = Fused ->
   (forall c, Str.has c ":()#;=, " = true -> Str.has c t = false) /\
   trimmed t = true).
Proof.
  unfold token_ok. intro Ht.
  apply andb_prop in Ht as [Ht Hf]. apply andb_prop in Ht as [He Hu].
  split; [apply negb_true_iff in He; now apply String.eqb_neq|].
  split; [now apply String.eqb_eq|].
  split.
  - intros c Hc. destruct f.
    + apply andb_prop in Hf as [Hl _]. apply (lacks_has c ":()#;=, " t Hl).
      cbn [Str.has] in Hc |- *.
      destruct (Ascii.eqb "#" c), (Ascii.eqb ";" c), (Ascii.eqb "=" c),
        (Ascii.eqb "," c); try discriminate; now rewrite ?orb_true_r.
    + now apply (lacks_has c "#;=,").
    + now apply (lacks_has c "#;=,").
  - intros ->. apply andb_prop in Hf as [Hl Htr]. split; [|exact Htr].
    intros c Hc. now apply (lacks_has c ":()#;=, ").
Qed.

(** ** The encoder on one cell method and its interval *)

(** the clause written for [domain: method (interval: token)] *)
Lemma cell_methods_clause_fused (domain method tok : string) :
  domain = "time" \/ domain = "area" ->
  method_ok Fused method = true -> token_ok Fused tok = true ->
  Utils.cell_methods_clause (cell_method_text domain method tok)
  = ([clause "cell_methods"
        (domain ++ String ":" (subst_char " " "_" method))], [tok]).
Proof.
  intros Hd Hm Ht.
  destruct (method_ok_facts _ _ Hm) as (Mc & Mt & Mi).
  destruct (token_ok_facts _ _ Ht) as (_ & _ & _ & Tf).
  destruct (Tf eq_refl) as [Tc Tt].
  destruct (rfind_space_fused domain method tok) as [Hfind Hslice].
  destruct (clean_value_padded method (Mc "("%char eq_refl)
              (Mc ")"%char eq_refl) Mt) as (C1 & _ & _).
  destruct (clean_value_padded tok (Tc "("%char eq_refl)
              (Tc ")"%char eq_refl) Tt) as (_ & C2 & _).
  rewrite (subst_char_absent " " "_" tok (Tc " "%char eq_refl)) in C2.
  unfold Utils.cell_methods_clause.
  rewrite (cm_scan_fused domain method tok); try assumption;
    [| destruct Hd as [-> | ->]; reflexivity
     | exact (Mc ":"%char eq_refl) | exact (Tc ":"%char eq_refl)].
  rewrite (replace_interval _ (Mi eq_refl)), C1, C2.
  destruct Hd as [-> | ->]; reflexivity.
Qed.

(** the clause written for [domain: method] *)
Lemma cell_methods_clause_plain (f : record_form) (domain method : string) :
  domain = "time" \/ domain = "area" ->
  method_ok f method = true ->
  Utils.cell_methods_clause (domain ++ ": " ++ method)
  = ([clause "cell_methods"
        (domain ++ String ":" (subst_char " " "_" method))], []).
Proof.
  intros Hd Hm.
  destruct (method_ok_facts _ _ Hm) as (Mc & Mt & _).
  destruct (clean_value_padded method (Mc "("%char eq_refl)
              (Mc ")"%char eq_refl) Mt) as (_ & _ & C3).
  unfold Utils.cell_methods_clause.
  rewrite (cm_scan_run _ domain)
    by (destruct Hd as [-> | ->]; reflexivity).
  change (": " ++ method) with (String ":" (" " ++ method)).
  rewrite cm_scan_key by reflexivity.
  rewrite cm_scan_end
    by (simpl; exact (Mc ":"%char eq_refl)).
  rewrite C3.
  destruct Hd as [-> | ->]; reflexivity.
Qed.

(** the records of the three forms are encoded alike *)
Lemma urnify_method_record `{SetOrder}
  (f : record_form) (rnd authority label sn : string)
  (name discriminant bounds vertical_datum : option string)
  (domain method tok : string) :
  set_of -> sn <> "" -> Utils.present discriminant = None ->
  domain = "time" \/ domain = "area" ->
  method_ok f method = true -> token_ok f tok = true ->
  Utils.urnify_from_dict rnd authority label
    (method_record f sn name discriminant bounds vertical_datum
       domain method tok)
  = "urn:ioos:sensor:" ++ authority ++ ":" ++ label ++ ":"
    ++ sn ++ String "#"
         (Str.join ";" (method_clauses bounds vertical_datum domain method tok)).
Proof.
  intros Hset Hsn Hdisc Hd Hm Ht.
  destruct (token_ok_facts _ _ Ht) as (Htok & _ & _ & _).
  assert (Hcm1 : cell_method_text domain method tok <> "")
    by (destruct Hd as [-> | ->]; discriminate).
  assert (Hcm2 : domain ++ ": " ++ method <> "")
    by (destruct Hd as [-> | ->]; discriminate).
  unfold Utils.urnify_from_dict, method_record, method_clauses.
  cbn [Utils.cell_methods Utils.bounds Utils.vertical_datum Utils.interval
       Utils.standard_name Utils.name Utils.discriminant].
  rewrite Hdisc, (present_Some _ Hsn).
  destruct f;
    rewrite ?(present_Some _ Hcm1), ?(present_Some _ Hcm2);
    rewrite ?(cell_methods_clause_fused _ _ _ Hd Hm Ht),
            ?(cell_methods_clause_plain _ _ _ Hd Hm);
    destruct (Utils.present bounds) as [b|];
    destruct (Utils.present vertical_datum) as [v|];
    destruct tok as [|c tok]; try contradiction;
    cbn [append List.app]; rewrite (list_set_one _ Hset);
    cbn; rewrite ?append_assoc; reflexivity.
Qed.

(** ** The decoder on those clauses *)

Lemma split_join (c : ascii) (l : list string) :
  l <> [] -> Forall (fun s => Str.has c s = false) l ->
  Str.split c (Str.join (String c "") l) = l.
Proof.
  intros Hn Hl. unfold Str.join.
  induction Hl as [|s l Hs Hl IH]; [contradiction|].
  destruct l as [|s' l'].
  - simpl. now apply split_without.
  - change (String.concat (String c "") (s :: s' :: l'))
      with (s ++ String c (String.concat (String c "") (s' :: l'))).
    rewrite (split_append c s _ Hs), IH by discriminate. reflexivity.
Qed.

Lemma respace_method (domain method : string) :
  domain = "time" \/ domain = "area" ->
  Str.has ":" method = false -> Str.has "_" method = false ->
  Utils.respace (domain ++ String ":" (subst_char " " "_" method))
  = domain ++ ": " ++ method.
Proof.
  intros Hd Hc Hu. unfold Utils.respace. rewrite !replace_char.
  rewrite subst_char_append.
  rewrite (subst_char_absent "_" " " domain)
    by (destruct Hd as [-> | ->]; reflexivity).
  cbn [subst_char]. change ((":" =? "_")%char) with false. cbv iota.
  rewrite (underscores_back method Hu).
  rewrite subst_char_append.
  rewrite (subst_char_absent ":" ": " domain)
    by (destruct Hd as [-> | ->]; reflexivity).
  cbn [subst_char]. change ((":" =? ":")%char) with true. cbv iota.
  now rewrite (subst_char_absent ":" ": " method Hc).
Qed.

(** a clause of another key is stored under that key *)
Lemma section_step_other (d : dict) (ints cms : list string) (key v : string) :
  Str.has "=" key = false ->
  String.eqb key "interval" = false -> String.eqb key "cell_methods" = false ->
  Str.has "=" v = false ->
  Utils.section_step (d, ints, cms) (clause key v)
  = Ok (dict_set key
          (Str.join " " (List.map Utils.respace (Str.split "," v))) d,
        ints, cms).
Proof.
  intros Hk Hi Hc Hv. unfold Utils.section_step, clause.
  rewrite (split_append "=" key v Hk), (split_without "=" v Hv).
  cbn [Utils.unpack2 bind]. now rewrite Hi, Hc.
Qed.

Lemma section_step_method (d : dict) (ints cms : list string)
  (f : record_form) (domain method : string) :
  domain = "time" \/ domain = "area" ->
  method_ok f method = true ->
  Utils.section_step (d, ints, cms)
    (clause "cell_methods" (domain ++ String ":" (subst_char " " "_" method)))
  = Ok (d, ints, [domain ++ ": " ++ method]).
Proof.
  intros Hd Hm. destruct (method_ok_facts _ _ Hm) as (Mc & _ & _).
  assert (Hv : forall c, Str.has c ";=," = true ->
                         Str.has c ":()#;=,_" = true ->
                         Str.has c (domain ++ String ":"
                                      (subst_char " " "_" method)) = false).
  { intros c Hc Hc'. rewrite has_append. cbn [Str.has].
    rewrite (has_subst_other c " " "_" method (Mc c Hc')), orb_false_r;
      [| cbn [Str.has];
         destruct (Ascii.eqb_spec "_" c) as [<-|_];
         [discriminate Hc | reflexivity]].
    destruct (Ascii.eqb_spec ":" c) as [<-|_]; [discriminate Hc|].
    destruct Hd as [-> | ->]; cbn [Str.has orb] in Hc |- *;
      rewrite ?orb_false_r in *.
    - destruct (Ascii.eqb_spec "t" c) as [<-|_]; [discriminate Hc|].
      destruct (Ascii.eqb_spec "i" c) as [<-|_]; [discriminate Hc|].
      destruct (Ascii.eqb_spec "m" c) as [<-|_]; [discriminate Hc|].
      destruct (Ascii.eqb_spec "e" c) as [<-|_]; [discriminate Hc|].
      reflexivity.
    - destruct (Ascii.eqb_spec "a" c) as [<-|_]; [discriminate Hc|].
      destruct (Ascii.eqb_spec "r" c) as [<-|_]; [discriminate Hc|].
      destruct (Ascii.eqb_spec "e" c) as [<-|_]; [discriminate Hc|].
      reflexivity. }
  unfold Utils.section_step, clause.
  rewrite (split_append "=" "cell_methods" _ eq_refl).
  rewrite (split_without "=" _ (Hv "="%char eq_refl eq_refl)).
  cbn [Utils.unpack2 bind].
  change ("cell_methods" =? "interval") with false.
  change ("cell_methods" =? "cell_methods") with true. cbv iota.
  rewrite (split_without "," _ (Hv ","%char eq_refl eq_refl)).
  cbn [List.map].
  now rewrite (respace_method _ _ Hd (Mc ":"%char eq_refl) (Mc "_"%char eq_refl)).
Qed.

Lemma section_step_interval (d : dict) (cms : list string)
  (f : record_form) (tok : string) :
  token_ok f tok = true ->
  Utils.section_step (d, [], cms) (clause "interval" tok)
  = Ok (d, [tok], cms).
Proof.
  intro Ht. destruct (token_ok_facts _ _ Ht) as (_ & _ & Tc & _).
  unfold Utils.section_step, clause.
  rewrite (split_append "=" "interval" _ eq_refl).
  rewrite (split_without "=" _ (Tc "="%char eq_refl)).
  cbn [Utils.unpack2 bind].
  change ("interval" =? "interval") with true. cbv iota.
  now rewrite (split_without "," _ (Tc ","%char eq_refl)).
Qed.

Lemma clause_ok_facts (o : option string) (v : string) :
  clause_ok o = true -> Utils.present o = Some v ->
  forall c, Str.has c "#;=" = true -> Str.has c v = false.
Proof.
  unfold clause_ok. intros Ho E c Hc. rewrite E in Ho.
  now apply (lacks_has c "#;=").
Qed.

(** the state after the clauses of [method_clauses]: the cell method and
    the token, and the standard name as it was *)
Lemma sections_loop_method (d : dict) (f : record_form)
  (bounds vertical_datum : option string) (domain method tok : string) :
  domain = "time" \/ domain = "area" ->
  method_ok f method = true -> token_ok f tok = true ->
  clause_ok bounds = true -> clause_ok vertical_datum = true ->
  exists d',
    Utils.sections_loop (d, [], [])
      (method_clauses bounds vertical_datum domain method tok)
    = Ok (d', [tok], [domain ++ ": " ++ method]) /\
    dict_get "standard_name" d' = dict_get "standard_name" d.
Proof.
  intros Hd Hm Ht Hb Hv. unfold method_clauses.
  pose proof (clause_ok_facts bounds) as Fb.
  pose proof (clause_ok_facts vertical_datum) as Fv.
  destruct (Utils.present bounds) as [b|];
    destruct (Utils.present vertical_datum) as [v|];
    cbn [List.app Utils.sections_loop];
    rewrite (section_step_method _ _ _ f _ _ Hd Hm); cbn [bind];
    rewrite ?(section_step_other _ _ _ "bounds" b eq_refl eq_refl eq_refl
                (Fb b Hb eq_refl "="%char eq_refl));
    cbn [bind];
    rewrite ?(section_step_other _ _ _ "vertical_datum" v eq_refl eq_refl
                eq_refl (Fv v Hv eq_refl "="%char eq_refl));
    cbn [bind];
    rewrite (section_step_interval _ _ f tok Ht); cbn [bind];
    eexists; (split; [reflexivity|]);
    rewrite ?dict_get_set_other by discriminate; reflexivity.
Qed.

Lemma method_clauses_lack (c : ascii) (f : record_form)
  (bounds vertical_datum : option string) (domain method tok : string) :
  Str.has c "#;" = true ->
  domain = "time" \/ domain = "area" ->
  method_ok f method = true -> token_ok f tok = true ->
  clause_ok bounds = true -> clause_ok vertical_datum = true ->
  Forall (fun s => Str.has c s = false)
    (method_clauses bounds vertical_datum domain method tok).
Proof.
  intros Hc Hd Hm Ht Hb Hv.
  destruct (method_ok_facts _ _ Hm) as (Mc & _ & _).
  destruct (token_ok_facts _ _ Ht) as (_ & _ & Tc & _).
  pose proof (clause_ok_facts bounds) as Fb.
  pose proof (clause_ok_facts vertical_datum) as Fv.
  assert (Hc1 : Str.has c ":()#;=,_" = true /\ Str.has c "#;=," = true
                /\ Str.has c "#;=" = true /\ Str.has c "_" = false
                /\ Str.has c "cell_methods=time:" = false
                /\ Str.has c "cell_methods=area:" = false
                /\ Str.has c "bounds=" = false
                /\ Str.has c "vertical_datum=" = false
                /\ Str.has c "interval=" = false).
  { cbn [Str.has] in Hc. rewrite orb_false_r in Hc.
    apply orb_prop in Hc as [Hc | Hc]; apply Ascii.eqb_eq in Hc; subst c;
      repeat split; reflexivity. }
  destruct Hc1 as (H1 & H2 & H3 & H4 & H5 & H6 & H7 & H8 & H9).
  unfold method_clauses, clause.
  apply Forall_app; split; [|apply Forall_app; split; [|apply Forall_app; split]].
  - constructor; [|constructor].
    replace ("cell_methods" ++ String "=" (domain ++ String ":"
                                             (subst_char " " "_" method)))
      with (("cell_methods=" ++ domain ++ ":") ++ subst_char " " "_" method)
      by (destruct Hd as [-> | ->]; reflexivity).
    rewrite has_append, (has_subst_other c " " "_" method (Mc c H1) H4).
    destruct Hd as [-> | ->]; cbn [String.append];
      [now rewrite H5 | now rewrite H6].
  - destruct (Utils.present bounds) as [b|]; [|constructor].
    constructor; [|constructor].
    change ("bounds" ++ String "=" b) with ("bounds=" ++ b).
    now rewrite has_append, H7, (Fb b Hb eq_refl c H3).
  - destruct (Utils.present vertical_datum) as [v|]; [|constructor].
    constructor; [|constructor].
    change ("vertical_datum" ++ String "=" v) with ("vertical_datum=" ++ v).
    now rewrite has_append, H8, (Fv v Hv eq_refl c H3).
  - constructor; [|constructor].
    change ("interval" ++ String "=" tok) with ("interval=" ++ tok).
    now rewrite has_append, H9, (Tc c H2).
Qed.

Lemma method_clauses_not_nil
  (bounds vertical_datum : option string) (domain method tok : string) :
  method_clauses bounds vertical_datum domain method tok <> [].
Proof. unfold method_clauses. discriminate. Qed.

Lemma join_clauses_cons
  (bounds vertical_datum : option string) (domain method tok : string) :
  exists c x,
    Str.join ";" (method_clauses bounds vertical_datum domain method tok)
    = String c x.
Proof.
  unfold method_clauses, clause, Str.join.
  destruct (Utils.present bounds), (Utils.present vertical_datum);
    cbn; eexists; eexists; reflexivity.
Qed.

Lemma dictify_method
  (f : record_form) (authority label sn : string)
  (bounds vertical_datum : option string) (domain method tok : string)
  (combine_interval : bool) :
  lacks ":" authority = true -> lacks ":" label = true ->
  name_like sn = true -> domain = "time" \/ domain = "area" ->
  method_ok f method = true -> token_ok f tok = true ->
  clause_ok bounds = true -> clause_ok vertical_datum = true ->
  exists d,
    Utils.dictify_urn
      ("urn:ioos:sensor:" ++ authority ++ ":" ++ label ++ ":"
       ++ sn ++ String "#"
            (Str.join ";"
               (method_clauses bounds vertical_datum domain method tok)))
      combine_interval = Ok d /\
    dict_get "standard_name" d = Some sn /\
    if combine_interval
    then dict_get "cell_methods" d = Some (cell_method_text domain method tok)
    else dict_get "cell_methods" d = Some (domain ++ ": " ++ method) /\
         dict_get "interval" d = Some tok.
Proof.
  intros Ha Hl Hn Hd Hm Ht Hb Hv.
  destruct (name_like_facts _ Hn) as (Nh & Nd & _).
  destruct (token_ok_facts _ _ Ht) as (_ & Tu & _ & _).
  remember (Str.join ";"
              (method_clauses bounds vertical_datum domain method tok))
    as extras eqn:Ee.
  assert (He : Str.has "#" extras = false).
  { rewrite Ee. apply has_join; [reflexivity|].
    now apply (method_clauses_lack "#" f). }
  assert (Hloop : forall d0, exists d',
             match extras with
             | "" => Ok (d0, [], [])
             | String _ _ => Utils.sections_loop (d0, [], []) (Str.split ";" extras)
             end = Ok (d', [tok], [domain ++ ": " ++ method]) /\
             dict_get "standard_name" d' = dict_get "standard_name" d0).
  { intro d0.
    destruct (join_clauses_cons bounds vertical_datum domain method tok)
      as (c & x & Hx).
    rewrite <- Ee in Hx.
    assert (Hs : Str.split ";" extras
                 = method_clauses bounds vertical_datum domain method tok).
    { rewrite Ee. apply split_join;
        [ apply method_clauses_not_nil
        | now apply (method_clauses_lack ";" f) ]. }
    rewrite Hs, Hx. now apply (sections_loop_method d0 f). }
  rewrite <- sensor_urn_text. unfold Utils.dictify_urn.
  rewrite (from_string_urn _ _ _ (lacks_has ":" ":" _ Ha eq_refl)
             (lacks_has ":" ":" _ Hl eq_refl)).
  cbn [IoosUrn.asset_type IoosUrn.component].
  change (negb ("sensor" =? "sensor")) with false. cbv iota.
  assert (Hc : Str.contains "#" (sn ++ String "#" extras) = true).
  { rewrite contains_char, has_append. simpl. apply orb_true_r. }
  rewrite Hc, (split_append "#" sn _ Nh), (split_without "#" _ He).
  cbn [Utils.unpack2 bind].
  rewrite (split_without "-" _ Nd). cbn [getitem nth_error bind last].
  destruct (Str.contains "-" (sn ++ String "#" extras)); cbn [bind];
    match goal with
    | |- context [Utils.sections_loop (?d0, [], [])] =>
        destruct (Hloop d0) as (d' & -> & Hsn)
    end;
    cbn [bind]; destruct combine_interval;
    cbn [List.length Nat.eqb combine List.map fst snd Str.join String.concat
         Utils.append_intervals fold_left bind];
    rewrite ?Tu;
    match goal with
    | |- context [dict_get "vertical_datum" ?d1] =>
        destruct (dict_get "vertical_datum" d1)
    end;
    eexists; (split; [reflexivity|]);
    rewrite ?dict_get_set_same;
    rewrite ?dict_get_set_other by discriminate;
    rewrite ?dict_get_set_same;
    rewrite ?dict_get_set_other by discriminate;
    rewrite ?dict_get_set_same;
    rewrite Hsn; unfold cell_method_text;
    rewrite ?append_assoc; repeat split; try reflexivity;
    cbn; rewrite ?String.eqb_refl; reflexivity.
Qed.

(** C2 (amended). Take a record with a standard name that is not empty and
    holds neither [#] nor [-], no discriminant, any [name], a [bounds] and
    a [vertical_datum] that are absent or free of [#], [;] and [=], and one
    cell method with one interval token, the token fused in the text
    [domain: method (interval: token)] or given under [interval] as a
    string or as a list of one string.  The domain is [time] or [area]; the
    method holds none of [: ( ) # ; = , _], no white space at either end
    and, in the fused text, not the word [interval]; the token is not
    empty, is left unchanged by [upper()], holds none of [# ; = ,] and, in
    the fused text, none of [: ( )], no blank and no white space at either
    end.  With an authority and a label without colon, and whatever the
    order Python gives to a set, the record is encoded and decoded back to
    the same standard name, the same cell method and the same token: fused
    in the [cell_methods] text [domain: method (interval: token)], or, with
    [combine_interval=False], as [domain: method] and the token. *)
Theorem sensor_record_round_trip `{SetOrder}
  (f : record_form) (rnd authority label sn : string)
  (name discriminant bounds vertical_datum : option string)
  (domain method tok : string) :
  set_of ->
  lacks ":" authority = true -> lacks ":" label = true ->
  name_like sn = true -> Utils.present discriminant = None ->
  domain = "time" \/ domain = "area" ->
  method_ok f method = true -> token_ok f tok = true ->
  clause_ok bounds = true -> clause_ok vertical_datum = true ->
  (exists d,
      Utils.dictify_urn
        (Utils.urnify_from_dict rnd authority label
           (method_record f sn name discriminant bounds vertical_datum
              domain method tok)) true
      = Ok d /\
      dict_get "standard_name" d = Some sn /\
      dict_get "cell_methods" d = Some (domain ++ ": " ++ method
                                        ++ " (interval: " ++ tok ++ ")")) /\
  (exists d,
      Utils.dictify_urn
        (Utils.urnify_from_dict rnd authority label
           (method_record f sn name discriminant bounds vertical_datum
              domain method tok)) false
      = Ok d /\
      dict_get "standard_name" d = Some sn /\
      dict_get "cell_methods" d = Some (domain ++ ": " ++ method) /\
      dict_get "interval" d = Some tok).
Proof.
  intros Hset Ha Hl Hn Hdisc Hd Hm Ht Hb Hv.
  destruct (name_like_facts _ Hn) as (_ & _ & Hsn).
  rewrite (urnify_method_record f rnd authority label sn name discriminant
             bounds vertical_datum domain method tok Hset Hsn Hdisc Hd Hm Ht).
  split.
  - destruct (dictify_method f authority label sn bounds vertical_datum
                domain method tok true Ha Hl Hn Hd Hm Ht Hb Hv)
      as (d & E & Hs & Hc).
    exists d. now repeat split.
  - destruct (dictify_method f authority label sn bounds vertical_datum
                domain method tok false Ha Hl Hn Hd Hm Ht Hb Hv)
      as (d & E & Hs & Hc & Hi).
    exists d. now repeat split.
Qed.

Lemma sensor_record_round_trip_witness :
  (exists d,
      Utils.dictify_urn
        (Utils.urnify_from_dict (H := Examples.first_seen)
           "abcdefgh" "axiom" "foo"
           (method_record Fused "sea_water_temperature" (Some "temp") None
              (Some "time_bounds") (Some "NAVD88")
              "time" "standard deviation" "PT1H")) true
      = Ok d /\
      dict_get "standard_name" d = Some "sea_water_temperature" /\
      dict_get "cell_methods" d = Some ("time" ++ ": " ++ "standard deviation"
                                        ++ " (interval: " ++ "PT1H" ++ ")")) /\
  (exists d,
      Utils.dictify_urn
        (Utils.urnify_from_dict (H := Examples.first_seen)
           "abcdefgh" "axiom" "foo"
           (method_record Fused "sea_water_temperature" (Some "temp") None
              (Some "time_bounds") (Some "NAVD88")
              "time" "standard deviation" "PT1H")) false
      = Ok d /\
      dict_get "standard_name" d = Some "sea_water_temperature" /\
      dict_get "cell_methods" d = Some ("time" ++ ": " ++ "standard deviation") /\
      dict_get "interval" d = Some "PT1H").
Proof.
  apply (sensor_record_round_trip (H := Examples.first_seen)
           Fused "abcdefgh" "axiom" "foo" "sea_water_temperature"
           (Some "temp") None (Some "time_bounds") (Some "NAVD88")
           "time" "standard deviation" "PT1H");
    try reflexivity; [exact first_seen_set_of | left; reflexivity].
Defined.

(** round trips in full: a method of two words with bounds and a vertical
    datum, and a token with a blank under the key [interval] *)
Example round_trip_example :
  Utils.urnify_from_dict (H := Examples.first_seen) "abcdefgh" "axiom" "foo"
    (method_record Fused "sea_water_temperature" (Some "temp") None
       (Some "time_bounds") (Some "NAVD88")
       "time" "standard deviation" "PT1H")
  = "urn:ioos:sensor:axiom:foo:sea_water_temperature#cell_methods=time:standard_deviation;bounds=time_bounds;vertical_datum=NAVD88;interval=PT1H" /\
  Utils.dictify_urn
    "urn:ioos:sensor:axiom:foo:sea_water_temperature#cell_methods=time:standard_deviation;bounds=time_bounds;vertical_datum=NAVD88;interval=PT1H"
    true
  = Ok [("standard_name", "sea_water_temperature");
        ("bounds", "time bounds"); ("vertical_datum", "NAVD88");
        ("cell_methods", "time: standard deviation (interval: PT1H)")] /\
  Utils.dictify_urn
    (Utils.urnify_from_dict (H := Examples.first_seen) "abcdefgh" "axiom" "foo"
       (method_record IntervalText "sea_water_temperature" None None None None
          "area" "mean" "1 HOUR")) false
  = Ok [("standard_name", "sea_water_temperature");
        ("cell_methods", "area: mean"); ("interval", "1 HOUR")].
Proof. repeat split; vm_compute; reflexivity. Qed.

(** against the specification, on records with a standard name, no
    discriminant, one cell method and one interval token (a set of one
    token has one order): the token [1 hour] of the text comes back as
    [1_HOUR] and the token [pt1h] as [PT1H]; the method
    [standard_deviation] comes back as [standard deviation], the method
    [mean interval] as [mean], and the method [ mean], with a blank before
    it, as [mean]; the standard name [sea-level] comes back as [sea], with
    a discriminant the record did not have; with the bounds
    [a;standard_name=other] the standard name comes back as [other], and
    with the bounds [a=b] the decoder raises; with the domain [depth] the
    encoder drops the cell method and the decoder raises; with the
    authority [ax:iom] the standard name comes back as
    [foo:sea_water_temperature] *)
Lemma round_trip_loses_token :
  Utils.dictify_urn
    (Utils.urnify_from_dict (H := Examples.first_seen) "abcdefgh" "axiom" "foo"
       (method_record Fused "sea_water_temperature" None None None None
          "time" "mean" "1 hour")) true
  = Ok [("standard_name", "sea_water_temperature");
        ("cell_methods", "time: mean (interval: 1_HOUR)")] /\
  Utils.dictify_urn
    (Utils.urnify_from_dict (H := Examples.first_seen) "abcdefgh" "axiom" "foo"
       (method_record IntervalText "sea_water_temperature" None None None None
          "time" "mean" "pt1h")) false
  = Ok [("standard_name", "sea_water_temperature");
        ("cell_methods", "time: mean"); ("interval", "PT1H")] /\
  Utils.dictify_urn
    (Utils.urnify_from_dict (H := Examples.first_seen) "abcdefgh" "axiom" "foo"
       (method_record Fused "sea_water_temperature" None None None None
          "time" "standard_deviation" "PT1H")) true
  = Ok [("standard_name", "sea_water_temperature");
        ("cell_methods", "time: standard deviation (interval: PT1H)")] /\
  Utils.dictify_urn
    (Utils.urnify_from_dict (H := Examples.first_seen) "abcdefgh" "axiom" "foo"
       (method_record Fused "sea_water_temperature" None None None None
          "time" "mean interval" "PT1H")) true
  = Ok [("standard_name", "sea_water_temperature");
        ("cell_methods", "time: mean (interval: PT1H)")] /\
  Utils.dictify_urn
    (Utils.urnify_from_dict (H := Examples.first_seen) "abcdefgh" "axiom" "foo"
       (method_record IntervalText "sea_water_temperature" None None None None
          "time" " mean" "PT1H")) false
  = Ok [("standard_name", "sea_water_temperature");
        ("cell_methods", "time: mean"); ("interval", "PT1H")] /\
  Utils.dictify_urn
    (Utils.urnify_from_dict (H := Examples.first_seen) "abcdefgh" "axiom" "foo"
       (method_record Fused "sea-level" None None None None
          "time" "mean" "PT1H")) true
  = Ok [("standard_name", "sea"); ("discriminant", "level");
        ("cell_methods", "time: mean (interval: PT1H)")] /\
  Utils.dictify_urn
    (Utils.urnify_from_dict (H := Examples.first_seen) "abcdefgh" "axiom" "foo"
       (method_record Fused "sea_water_temperature" None None
          (Some "a;standard_name=other") None "time" "mean" "PT1H")) true
  = Ok [("standard_name", "other"); ("bounds", "a");
        ("cell_methods", "time: mean (interval: PT1H)")] /\
  Utils.dictify_urn
    (Utils.urnify_from_dict (H := Examples.first_seen) "abcdefgh" "axiom" "foo"
       (method_record Fused "sea_water_temperature" None None
          (Some "a=b") None "time" "mean" "PT1H")) true
  = Raise (ValueError "too many values to unpack (expected 2)") /\
  Utils.dictify_urn
    (Utils.urnify_from_dict (H := Examples.first_seen) "abcdefgh" "axiom" "foo"
       (method_record Fused "sea_water_temperature" None None None None
          "depth" "mean" "PT1H")) true
  = Raise Utils.interval_error /\
  Utils.dictify_urn
    (Utils.urnify_from_dict (H := Examples.first_seen) "abcdefgh" "ax:iom" "foo"
       (method_record Fused "sea_water_temperature" None None None None
          "time" "mean" "PT1H")) true
  = Ok [("standard_name", "foo:sea_water_temperature");
        ("cell_methods", "time: mean (interval: PT1H)")].
Proof. repeat split; vm_compute; reflexivity. Qed.
